(** * A shallow embedding of [windows/win32_display.h]

    The header is a display and input layer on top of Win32: a session
    structure ([Win32Display]) holding a 64-slot ring buffer of decoded
    events, the mouse state, a close flag and the off-screen pixel surface;
    a window procedure that translates window messages into events; and the
    public calls the demos use (poll, pop, blit, query).

    The C code works through pointers: the public calls receive a
    [Win32Display*], the window procedure reaches the same structure through
    the global [g_display].  The embedding therefore keeps the structures in
    a store indexed by addresses, and every function is a computation over
    that store which either finishes or faults (null or dangling pointer,
    access outside an array: undefined behaviour in C). *)

From stdpp Require Import base option list gmap.
From Stdlib Require Import ZArith Lia.
From Stdlib.Strings Require Import Byte.

Local Open Scope Z_scope.

(** ** Machine integers *)

Module MachineInt.

Definition INT_MAX : Z := 2147483647.
Definition INT_MIN : Z := -2147483648.

(** Two's complement reduction of a mathematical integer to a C [int]. *)
Definition wrap_int (z : Z) : Z := (z + 2 ^ 31) mod 2 ^ 32 - 2 ^ 31.

Definition int_add (a b : Z) : Z := wrap_int (a + b).
Definition int_mul (a b : Z) : Z := wrap_int (a * b).

(** [a % b] on C ints truncates towards zero. *)
Definition int_rem (a b : Z) : Z := Z.rem a b.

(** Conversion of an [int] to the 64-bit [size_t] taken by [memcpy]. *)
Definition size_t_of_int (z : Z) : Z := z mod 2 ^ 64.

(** [LOWORD] and [HIWORD] of [windef.h]: the two low 16-bit words. *)
Definition LOWORD (l : Z) : Z := Z.land l 65535.
Definition HIWORD (l : Z) : Z := Z.land (Z.shiftr l 16) 65535.

Definition in_int (z : Z) : Prop := INT_MIN <= z <= INT_MAX.

End MachineInt.
Export MachineInt.

(** ** Window messages ([winuser.h]) *)

Definition WM_DESTROY : Z := 2.
Definition WM_SIZE : Z := 5.
Definition WM_PAINT : Z := 15.
Definition WM_CLOSE : Z := 16.
Definition WM_QUIT : Z := 18.
Definition WM_KEYDOWN : Z := 256.
Definition WM_KEYUP : Z := 257.
Definition WM_MOUSEMOVE : Z := 512.
Definition WM_LBUTTONDOWN : Z := 513.
Definition WM_LBUTTONUP : Z := 514.
Definition WM_RBUTTONDOWN : Z := 516.
Definition WM_RBUTTONUP : Z := 517.
Definition WM_MBUTTONDOWN : Z := 519.
Definition WM_MBUTTONUP : Z := 520.

(** [MSG], as filled in by [PeekMessage]. *)
Record MSG := mkMSG {
  msg_hwnd : Z;
  message : Z;
  wParam : Z;
  lParam : Z
}.

(** ** Events *)

Definition Button1 : Z := 1.
Definition Button2 : Z := 2.
Definition Button3 : Z := 3.

Inductive Win32EventType :=
| WIN32_EVENT_NONE
| WIN32_EVENT_KEY_PRESS
| WIN32_EVENT_KEY_RELEASE
| WIN32_EVENT_MOUSE_PRESS
| WIN32_EVENT_MOUSE_RELEASE
| WIN32_EVENT_MOUSE_MOVE
| WIN32_EVENT_CLOSE
| WIN32_EVENT_RESIZE.

(** [Win32Event]; the fields carry the prefix [ev_] because [mouseX],
    [mouseY], [width] and [height] are also fields of [Win32Display]. *)
Record Win32Event := mkEvent {
  ev_type : Win32EventType;
  ev_key : Z;
  ev_button : Z;
  ev_mouseX : Z;
  ev_mouseY : Z;
  ev_width : Z;
  ev_height : Z
}.

(** [memset(&event, 0, sizeof(Win32Event))]. *)
Definition zero_event : Win32Event :=
  mkEvent WIN32_EVENT_NONE 0 0 0 0 0 0.

#[global] Instance Win32Event_inhabited : Inhabited Win32Event :=
  populate zero_event.

(** ** The display context *)

(** Handles are integers, 0 being the null handle.  [pixels] points to the
    bits of the DIB section: [None] is a null pointer, [Some bits] the
    buffer it points to.  [events] is the array [events[64]]. *)
Record Win32Display := mkDisplay {
  hwnd : Z;
  hdc : Z;
  memDC : Z;
  bitmap : Z;
  width : Z;
  height : Z;
  pixels : option (list byte);
  shouldClose : Z;
  events : list Win32Event;
  eventHead : Z;
  eventTail : Z;
  mouseX : Z;
  mouseY : Z;
  mouseButtons : Z;
  timerFreq : Z;
  timerStart : Z
}.

Definition set_pixels (v : option (list byte)) (d : Win32Display) :=
  mkDisplay (hwnd d) (hdc d) (memDC d) (bitmap d) (width d) (height d)
    v (shouldClose d) (events d) (eventHead d) (eventTail d)
    (mouseX d) (mouseY d) (mouseButtons d) (timerFreq d) (timerStart d).

Definition set_shouldClose (v : Z) (d : Win32Display) :=
  mkDisplay (hwnd d) (hdc d) (memDC d) (bitmap d) (width d) (height d)
    (pixels d) v (events d) (eventHead d) (eventTail d)
    (mouseX d) (mouseY d) (mouseButtons d) (timerFreq d) (timerStart d).

Definition set_events (v : list Win32Event) (d : Win32Display) :=
  mkDisplay (hwnd d) (hdc d) (memDC d) (bitmap d) (width d) (height d)
    (pixels d) (shouldClose d) v (eventHead d) (eventTail d)
    (mouseX d) (mouseY d) (mouseButtons d) (timerFreq d) (timerStart d).

Definition set_eventHead (v : Z) (d : Win32Display) :=
  mkDisplay (hwnd d) (hdc d) (memDC d) (bitmap d) (width d) (height d)
    (pixels d) (shouldClose d) (events d) v (eventTail d)
    (mouseX d) (mouseY d) (mouseButtons d) (timerFreq d) (timerStart d).

Definition set_eventTail (v : Z) (d : Win32Display) :=
  mkDisplay (hwnd d) (hdc d) (memDC d) (bitmap d) (width d) (height d)
    (pixels d) (shouldClose d) (events d) (eventHead d) v
    (mouseX d) (mouseY d) (mouseButtons d) (timerFreq d) (timerStart d).

Definition set_mouseX (v : Z) (d : Win32Display) :=
  mkDisplay (hwnd d) (hdc d) (memDC d) (bitmap d) (width d) (height d)
    (pixels d) (shouldClose d) (events d) (eventHead d) (eventTail d)
    v (mouseY d) (mouseButtons d) (timerFreq d) (timerStart d).

Definition set_mouseY (v : Z) (d : Win32Display) :=
  mkDisplay (hwnd d) (hdc d) (memDC d) (bitmap d) (width d) (height d)
    (pixels d) (shouldClose d) (events d) (eventHead d) (eventTail d)
    (mouseX d) v (mouseButtons d) (timerFreq d) (timerStart d).

Definition set_mouseButtons (v : Z) (d : Win32Display) :=
  mkDisplay (hwnd d) (hdc d) (memDC d) (bitmap d) (width d) (height d)
    (pixels d) (shouldClose d) (events d) (eventHead d) (eventTail d)
    (mouseX d) (mouseY d) v (timerFreq d) (timerStart d).

(** The structure as [calloc(1, sizeof(Win32Display))] returns it. *)
Definition calloc_Win32Display : Win32Display :=
  mkDisplay 0 0 0 0 0 0 None 0 (replicate 64 zero_event) 0 0 0 0 0 0 0.

(** ** The store *)

Definition addr := positive.

(** A [Win32Display*]: [None] is [NULL]. *)
Definition ptr := option addr.

(** [heap] holds the allocated display contexts, [g_display] is the global
    of the header, [quit_posted] records a pending [PostQuitMessage], and
    [screen] maps a window handle to what its client area shows. *)
Record World := mkWorld {
  heap : gmap addr Win32Display;
  g_display : ptr;
  quit_posted : bool;
  screen : gmap Z (list byte)
}.

Definition set_heap (h : gmap addr Win32Display) (w : World) :=
  mkWorld h (g_display w) (quit_posted w) (screen w).
Definition set_g_display (p : ptr) (w : World) :=
  mkWorld (heap w) p (quit_posted w) (screen w).
Definition set_quit_posted (b : bool) (w : World) :=
  mkWorld (heap w) (g_display w) b (screen w).
Definition set_screen (s : gmap Z (list byte)) (w : World) :=
  mkWorld (heap w) (g_display w) (quit_posted w) s.

(** ** Computations that may fault *)

Inductive outcome (A : Type) :=
| Done (a : A)
| Fault.
Arguments Done {A} a.
Arguments Fault {A}.

Definition M (A : Type) : Type := World -> outcome (A * World).

Definition ret {A} (a : A) : M A := fun w => Done (a, w).

Definition bind {A B} (m : M A) (k : A -> M B) : M B :=
  fun w =>
    match m w with
    | Done (a, w') => k a w'
    | Fault => Fault
    end.

Notation "'do' x <- m ; k" := (bind m (fun x => k))
  (at level 10, x name, m at level 100, k at level 200,
   format "'[v' 'do'  x  <-  m ; '/' k ']'").
Notation "m ;; k" := (bind m (fun _ => k))
  (at level 100, k at level 200, right associativity).

Definition lift {A} (o : outcome A) : M A :=
  fun w => match o with Done a => Done (a, w) | Fault => Fault end.

(** Reading and writing the structure a pointer refers to. *)
Definition load (p : ptr) : M Win32Display :=
  fun w =>
    match p with
    | Some a =>
        match heap w !! a with
        | Some d => Done (d, w)
        | None => Fault
        end
    | None => Fault
    end.

Definition store (p : ptr) (d : Win32Display) : M unit :=
  fun w =>
    match p with
    | Some a =>
        match heap w !! a with
        | Some _ => Done (tt, set_heap (<[a := d]> (heap w)) w)
        | None => Fault
        end
    | None => Fault
    end.

(** [disp->field = ...]: read, change one field, write back. *)
Definition update (p : ptr) (f : Win32Display -> Win32Display) : M unit :=
  do d <- load p; store p (f d).

(** [free(disp)]. *)
Definition free (p : ptr) : M unit :=
  fun w =>
    match p with
    | Some a =>
        match heap w !! a with
        | Some _ => Done (tt, set_heap (delete a (heap w)) w)
        | None => Fault
        end
    | None => Done (tt, w)
    end.

(** Indexing [events[i]]: an index outside the array is a fault. *)
Definition array_get (arr : list Win32Event) (i : Z) : outcome Win32Event :=
  if bool_decide (0 <= i) then
    match arr !! Z.to_nat i with
    | Some e => Done e
    | None => Fault
    end
  else Fault.

Definition array_set (arr : list Win32Event) (i : Z) (e : Win32Event)
  : outcome (list Win32Event) :=
  if bool_decide (0 <= i /\ i < Z.of_nat (length arr)) then
    Done (<[Z.to_nat i := e]> arr)
  else Fault.

(** [memcpy(dst, src, n)]: the first [n] bytes of [dst] become the first [n]
    bytes of [src], and the content of the destination after the call is
    returned.  A count of 0 touches no memory, whatever the destination;
    otherwise a null destination or a count beyond either buffer is a
    fault. *)
Definition memcpy (dst : option (list byte)) (src : list byte) (n : Z)
  : outcome (option (list byte)) :=
  if bool_decide (n = 0) then Done dst
  else
    match dst with
    | None => Fault
    | Some bits =>
        if bool_decide
             (n <= Z.of_nat (length bits) /\ n <= Z.of_nat (length src))
        then Done (Some (take (Z.to_nat n) src ++ drop (Z.to_nat n) bits))
        else Fault
    end.

(** ** Platform calls used by the header

    Only what the header relies on is modelled.  [PostQuitMessage] raises
    the quit flag of the thread's message queue; [PeekMessage] hands out
    [WM_QUIT] once that flag is raised and no other message is waiting.
    [DefWindowProc] has no effect on the state kept here.  [BitBlt] from the
    memory context shows the bits of the DIB section in the window. *)

Definition PostQuitMessage (code : Z) : M unit :=
  fun w => Done (tt, set_quit_posted true w).

(** The part of [PeekMessage] that looks at the quit flag: it reports the
    flag and lowers it. *)
Definition take_quit : M bool :=
  fun w => Done (quit_posted w, set_quit_posted false w).

Definition DefWindowProc (h msg wp lp : Z) : M Z := ret 0.

Definition BitBlt (dst_hwnd dst_dc src_dc : Z) (bits : option (list byte))
  : M unit :=
  fun w =>
    match bits with
    | Some b =>
        if bool_decide (dst_dc <> 0 /\ src_dc <> 0)
        then Done (tt, set_screen (<[dst_hwnd := b]> (screen w)) w)
        else Done (tt, w)
    | None => Done (tt, w)
    end.

(** [BeginPaint] hands out a device context for the window. *)
Definition BeginPaint (h : Z) : M Z := ret 1.

Definition read_g_display : M ptr := fun w => Done (g_display w, w).

Definition write_g_display (p : ptr) : M unit :=
  fun w => Done (tt, set_g_display p w).

(** [if (disp) ...]. *)
Definition when_nonnull (p : ptr) (body : M unit) : M unit :=
  match p with
  | Some _ => body
  | None => ret tt
  end.

(** ** The event queue *)

(** [win32_push_event]. *)
Definition win32_push_event (disp : ptr) (event : Win32Event) : M unit :=
  do d <- load disp;
  let next := int_rem (int_add (eventTail d) 1) 64 in
  if bool_decide (next <> eventHead d) then
    do evs <- lift (array_set (events d) (eventTail d) event);
    store disp (set_eventTail next (set_events evs d))
  else ret tt.

(** [win32_has_events]. *)
Definition win32_has_events (disp : ptr) : M Z :=
  do d <- load disp;
  ret (if bool_decide (eventHead d <> eventTail d) then 1 else 0).

(** [win32_pop_event].  The out-parameter [event] is passed as the current
    content of the caller's structure and returned with the result. *)
Definition win32_pop_event (disp : ptr) (event : Win32Event)
  : M (Z * Win32Event) :=
  do d <- load disp;
  if bool_decide (eventHead d = eventTail d) then ret (0, event)
  else
    do e <- lift (array_get (events d) (eventHead d));
    store disp (set_eventHead (int_rem (int_add (eventHead d) 1) 64) d) ;;
    ret (1, e).

(** ** The window procedure *)

(** [win32_window_proc]. *)
Definition win32_window_proc (h msg wp lp : Z) : M Z :=
  do disp <- read_g_display;
  let event := zero_event in
  if bool_decide (msg = WM_CLOSE) then
    let event := mkEvent WIN32_EVENT_CLOSE 0 0 0 0 0 0 in
    when_nonnull disp
      (update disp (set_shouldClose 1) ;;
       win32_push_event disp event) ;;
    ret 0
  else if bool_decide (msg = WM_DESTROY) then
    PostQuitMessage 0 ;;
    ret 0
  else if bool_decide (msg = WM_KEYDOWN) then
    let event := mkEvent WIN32_EVENT_KEY_PRESS (wrap_int wp) 0 0 0 0 0 in
    when_nonnull disp (win32_push_event disp event) ;;
    ret 0
  else if bool_decide (msg = WM_KEYUP) then
    let event := mkEvent WIN32_EVENT_KEY_RELEASE (wrap_int wp) 0 0 0 0 0 in
    when_nonnull disp (win32_push_event disp event) ;;
    ret 0
  else if bool_decide (msg = WM_LBUTTONDOWN) then
    let event :=
      mkEvent WIN32_EVENT_MOUSE_PRESS 0 Button1 (LOWORD lp) (HIWORD lp) 0 0 in
    when_nonnull disp
      (update disp (fun d => set_mouseButtons (Z.lor (mouseButtons d) 1) d) ;;
       win32_push_event disp event) ;;
    ret 0
  else if bool_decide (msg = WM_RBUTTONDOWN) then
    let event :=
      mkEvent WIN32_EVENT_MOUSE_PRESS 0 Button3 (LOWORD lp) (HIWORD lp) 0 0 in
    when_nonnull disp
      (update disp (fun d => set_mouseButtons (Z.lor (mouseButtons d) 4) d) ;;
       win32_push_event disp event) ;;
    ret 0
  else if bool_decide (msg = WM_MBUTTONDOWN) then
    let event :=
      mkEvent WIN32_EVENT_MOUSE_PRESS 0 Button2 (LOWORD lp) (HIWORD lp) 0 0 in
    when_nonnull disp
      (update disp (fun d => set_mouseButtons (Z.lor (mouseButtons d) 2) d) ;;
       win32_push_event disp event) ;;
    ret 0
  else if bool_decide (msg = WM_LBUTTONUP) then
    let event :=
      mkEvent WIN32_EVENT_MOUSE_RELEASE 0 Button1 (LOWORD lp) (HIWORD lp) 0 0 in
    when_nonnull disp
      (update disp
         (fun d => set_mouseButtons (Z.land (mouseButtons d) (Z.lnot 1)) d) ;;
       win32_push_event disp event) ;;
    ret 0
  else if bool_decide (msg = WM_RBUTTONUP) then
    let event :=
      mkEvent WIN32_EVENT_MOUSE_RELEASE 0 Button3 (LOWORD lp) (HIWORD lp) 0 0 in
    when_nonnull disp
      (update disp
         (fun d => set_mouseButtons (Z.land (mouseButtons d) (Z.lnot 4)) d) ;;
       win32_push_event disp event) ;;
    ret 0
  else if bool_decide (msg = WM_MBUTTONUP) then
    let event :=
      mkEvent WIN32_EVENT_MOUSE_RELEASE 0 Button2 (LOWORD lp) (HIWORD lp) 0 0 in
    when_nonnull disp
      (update disp
         (fun d => set_mouseButtons (Z.land (mouseButtons d) (Z.lnot 2)) d) ;;
       win32_push_event disp event) ;;
    ret 0
  else if bool_decide (msg = WM_MOUSEMOVE) then
    let event :=
      mkEvent WIN32_EVENT_MOUSE_MOVE 0 0 (LOWORD lp) (HIWORD lp) 0 0 in
    when_nonnull disp
      (update disp (set_mouseX (ev_mouseX event)) ;;
       update disp (set_mouseY (ev_mouseY event)) ;;
       win32_push_event disp event) ;;
    ret 0
  else if bool_decide (msg = WM_SIZE) then
    let event :=
      mkEvent WIN32_EVENT_RESIZE 0 0 0 0 (LOWORD lp) (HIWORD lp) in
    when_nonnull disp (win32_push_event disp event) ;;
    ret 0
  else if bool_decide (msg = WM_PAINT) then
    do hdc' <- BeginPaint h;
    when_nonnull disp
      (do d <- load disp;
       if bool_decide (memDC d <> 0)
       then BitBlt h hdc' (memDC d) (pixels d)
       else ret tt) ;;
    ret 0
  else DefWindowProc h msg wp lp.

(** [DispatchMessage]: the message goes to the window procedure of its
    window; a message without a window is not dispatched. *)
Definition DispatchMessage (m : MSG) : M Z :=
  if bool_decide (msg_hwnd m = 0) then ret 0
  else win32_window_proc (msg_hwnd m) (message m) (wParam m) (lParam m).

(** [DestroyWindow]: the window receives [WM_DESTROY] and disappears. *)
Definition DestroyWindow (h : Z) : M unit :=
  win32_window_proc h WM_DESTROY 0 0 ;;
  fun w => Done (tt, set_screen (delete h (screen w)) w).

(** ** The public calls *)

(** [win32_destroy_window].  Of the four releases only [DestroyWindow] has
    an effect on the state kept here. *)
Definition win32_destroy_window (disp : ptr) : M unit :=
  match disp with
  | None => ret tt
  | Some _ =>
      do d <- load disp;
      (if bool_decide (hwnd d <> 0) then DestroyWindow (hwnd d) else ret tt) ;;
      write_g_display None ;;
      free disp
  end.

(** [win32_process_events].  [msgs] is the content of the thread's message
    queue, which [PeekMessage] with [PM_REMOVE] consumes from the front; the
    messages left unread are returned with the result. *)
Fixpoint win32_process_events (disp : ptr) (msgs : list MSG)
  : M (Z * list MSG) :=
  match msgs with
  | m :: rest =>
      if bool_decide (message m = WM_QUIT) then
        update disp (set_shouldClose 1) ;;
        ret (1, rest)
      else
        DispatchMessage m ;;
        win32_process_events disp rest
  | [] =>
      do posted <- take_quit;
      if posted : bool then
        update disp (set_shouldClose 1) ;;
        ret (1, [])
      else
        do d <- load disp;
        ret (shouldClose d, [])
  end.

(** [win32_blit_pixels].  [src] is the caller's buffer, [None] for a null
    pointer. *)
Definition win32_blit_pixels (disp : ptr) (src : option (list byte))
  : M unit :=
  match disp, src with
  | Some _, Some buf =>
      do d <- load disp;
      let n := size_t_of_int (int_mul (int_mul (width d) (height d)) 4) in
      do bits <- lift (memcpy (pixels d) buf n);
      store disp (set_pixels bits d) ;;
      BitBlt (hwnd d) (hdc d) (memDC d) bits
  | _, _ => ret tt
  end.

(** [win32_get_mouse].  [x] and [y] are the caller's integers, [None] for a
    null pointer; their contents after the call are returned. *)
Definition win32_get_mouse (disp : ptr) (x y : option Z)
  : M (option Z * option Z) :=
  do x' <- match x with
           | Some _ => do d <- load disp; ret (Some (mouseX d))
           | None => ret None
           end;
  do y' <- match y with
           | Some _ => do d <- load disp; ret (Some (mouseY d))
           | None => ret None
           end;
  ret (x', y').

(** [win32_should_close]. *)
Definition win32_should_close (disp : ptr) : M Z :=
  do d <- load disp;
  ret (shouldClose d).

(** * Abstraction of the queue *)

(** ** The ring buffer seen as a sequence *)

(** The indices stay inside the array. *)
Definition queue_wf (d : Win32Display) : Prop :=
  length (events d) = 64%nat /\
  0 <= eventHead d < 64 /\
  0 <= eventTail d < 64.

(** Number of events waiting between head and tail. *)
Definition pending_count (d : Win32Display) : Z :=
  (eventTail d - eventHead d) mod 64.

(** [n] consecutive slots of the ring, starting at slot [i]. *)
Fixpoint ring_slice (arr : list Win32Event) (i : Z) (n : nat)
  : list Win32Event :=
  match n with
  | O => []
  | S k => arr !!! Z.to_nat i :: ring_slice arr ((i + 1) mod 64) k
  end.

(** The events waiting in the queue, oldest first. *)
Definition pending (d : Win32Display) : list Win32Event :=
  ring_slice (events d) (eventHead d) (Z.to_nat (pending_count d)).

(** The structure after a push that found room, and after a pop that found
    an event. *)
Definition enqueued (e : Win32Event) (d : Win32Display) : Win32Display :=
  set_eventTail (int_rem (int_add (eventTail d) 1) 64)
    (set_events (<[Z.to_nat (eventTail d) := e]> (events d)) d).

Definition dequeued (d : Win32Display) : Win32Display :=
  set_eventHead (int_rem (int_add (eventHead d) 1) 64) d.

(** The structure after a push, whether it found room or not. *)
Definition pushed (e : Win32Event) (d : Win32Display) : Win32Display :=
  if bool_decide (pending_count d < 63) then enqueued e d else d.

(** The store after the structure at [a] has become [d]. *)
Definition poke (a : addr) (d : Win32Display) (w : World) : World :=
  set_heap (<[a := d]> (heap w)) w.


(** * Runs of calls *)

(** A run of pushes, and a run of pops that all write through the same
    out-parameter, collecting the return value and the content of the
    out-parameter after each pop. *)
Fixpoint push_all (disp : ptr) (evs : list Win32Event) : M unit :=
  match evs with
  | [] => ret tt
  | e :: rest => win32_push_event disp e ;; push_all disp rest
  end.

Fixpoint pop_n (disp : ptr) (n : nat) (event : Win32Event)
  : M (list (Z * Win32Event)) :=
  match n with
  | O => ret []
  | S k =>
      do r <- win32_pop_event disp event;
      do rs <- pop_n disp k (snd r);
      ret (r :: rs)
  end.

Definition push_then_pop (disp : ptr) (evs : list Win32Event) (n : nat)
  (event : Win32Event) : M (list (Z * Win32Event)) :=
  push_all disp evs ;; pop_n disp n event.

(** What a run of pops returns when every pop succeeds. *)
Definition popped (evs : list Win32Event) : list (Z * Win32Event) :=
  map (fun e => (1, e)) evs.

(** The states of the queue of the session at [a] that pushes and pops
    reach from the queue as [calloc] leaves it. *)
Inductive queue_reachable (a : addr) : World -> Prop :=
| reach_init w d :
    heap w !! a = Some d ->
    events d = replicate 64 zero_event ->
    eventHead d = 0 -> eventTail d = 0 ->
    queue_reachable a w
| reach_push w e w' :
    queue_reachable a w ->
    win32_push_event (Some a) e w = Done (tt, w') ->
    queue_reachable a w'
| reach_pop w ev r w' :
    queue_reachable a w ->
    win32_pop_event (Some a) ev w = Done (r, w') ->
    queue_reachable a w'.

(** A run of notifications handed to the window procedure. *)
Fixpoint translate_all (notes : list MSG) : M unit :=
  match notes with
  | [] => ret tt
  | m :: rest =>
      win32_window_proc (msg_hwnd m) (message m) (wParam m) (lParam m) ;;
      translate_all rest
  end.

(** The position carried by the last [WM_MOUSEMOVE] of a run of
    notifications, [pos] when there is none. *)
Definition last_move (notes : list MSG) (pos : Z * Z) : Z * Z :=
  fold_left
    (fun p m =>
       if bool_decide (message m = WM_MOUSEMOVE)
       then (LOWORD (lParam m), HIWORD (lParam m))
       else p)
    notes pos.

(** The press and release messages of button [b] (1 left, 2 middle,
    3 right). *)
Definition button_down_message (b : Z) : Z :=
  if bool_decide (b = Button1) then WM_LBUTTONDOWN
  else if bool_decide (b = Button2) then WM_MBUTTONDOWN
  else WM_RBUTTONDOWN.

Definition button_up_message (b : Z) : Z :=
  if bool_decide (b = Button1) then WM_LBUTTONUP
  else if bool_decide (b = Button2) then WM_MBUTTONUP
  else WM_RBUTTONUP.

(** The calls of the layer, with their arguments. *)
Inductive Call :=
| call_window_proc (h msg wp lp : Z)
| call_push_event (disp : ptr) (event : Win32Event)
| call_destroy_window (disp : ptr)
| call_process_events (disp : ptr) (msgs : list MSG)
| call_has_events (disp : ptr)
| call_pop_event (disp : ptr) (event : Win32Event)
| call_blit_pixels (disp : ptr) (src : option (list byte))
| call_get_mouse (disp : ptr) (x y : option Z)
| call_should_close (disp : ptr).

Definition exec (c : Call) : M unit :=
  match c with
  | call_window_proc h msg wp lp => win32_window_proc h msg wp lp ;; ret tt
  | call_push_event disp event => win32_push_event disp event
  | call_destroy_window disp => win32_destroy_window disp
  | call_process_events disp msgs => win32_process_events disp msgs ;; ret tt
  | call_has_events disp => win32_has_events disp ;; ret tt
  | call_pop_event disp event => win32_pop_event disp event ;; ret tt
  | call_blit_pixels disp src => win32_blit_pixels disp src
  | call_get_mouse disp x y => win32_get_mouse disp x y ;; ret tt
  | call_should_close disp => win32_should_close disp ;; ret tt
  end.

Fixpoint exec_all (cs : list Call) : M unit :=
  match cs with
  | [] => ret tt
  | c :: rest => exec c ;; exec_all rest
  end.

(** The store as the layer keeps it: every display context has its indices
    inside the array, and [g_display] is null or refers to a live one. *)
Definition world_ok (w : World) : Prop :=
  (forall a d, heap w !! a = Some d -> queue_wf d) /\
  (forall g, g_display w = Some g -> is_Some (heap w !! g)).

(** From [w] to [w']: the store is still as the layer keeps it, no display
    context has appeared, and no close flag that was set has been cleared. *)
Definition kept (w w' : World) : Prop :=
  world_ok w' /\
  forall a d', heap w' !! a = Some d' ->
    exists d, heap w !! a = Some d /\
              (shouldClose d <> 0 -> shouldClose d' <> 0).

(** The value a computation returns from a given store, if it finishes. *)
Definition result_of {A} (m : M A) (w : World) : option A :=
  match m w with
  | Done (a, _) => Some a
  | Fault => None
  end.

(** ** Concrete sessions and inputs *)

(** One session, freshly allocated at address 1 and installed in
    [g_display]. *)
Definition fresh_session : World :=
  mkWorld {[ 1%positive := calloc_Win32Display ]} (Some 1%positive) false ∅.

(** The events of [n] key presses with key codes 1 to [n]. *)
Definition key_presses (n : nat) : list Win32Event :=
  map (fun k => mkEvent WIN32_EVENT_KEY_PRESS (Z.of_nat k) 0 0 0 0 0)
    (seq 1 n).





(** A session with 63 events waiting. *)
Definition full_session : World :=
  match push_all (Some 1%positive) (key_presses 63) fresh_session with
  | Done (_, w) => w
  | Fault => fresh_session
  end.

(** A 2 by 1 session whose surface is black, and a frame for it. *)
Definition small_display : Win32Display :=
  mkDisplay 7 8 9 10 2 1
    (Some [x00; x00; x00; x00; x00; x00; x00; x00])
    0 (replicate 64 zero_event) 0 0 0 0 0 1 0.

Definition small_session : World :=
  mkWorld {[ 1%positive := small_display ]} (Some 1%positive) false ∅.

Definition small_frame : list byte :=
  [x01; x02; x03; xff; x04; x05; x06; xff].

(** * Further definitions *)

(** ** The queue against a bounded first-in first-out list *)

(** A script of queue calls. *)
Inductive queue_op :=
| op_push (e : Win32Event)
| op_pop.

(** The script run on the code; every pop writes through the same
    out-parameter, and the result of each pop is collected. *)
Fixpoint run_queue_ops (disp : ptr) (ops : list queue_op) (event : Win32Event)
  : M (list (Z * Win32Event)) :=
  match ops with
  | [] => ret []
  | op_push e :: rest =>
      win32_push_event disp e ;; run_queue_ops disp rest event
  | op_pop :: rest =>
      do r <- win32_pop_event disp event;
      do rs <- run_queue_ops disp rest (snd r);
      ret (r :: rs)
  end.

(** The same script on a list that takes at most 63 elements: what the pops
    return, and the list left. *)
Fixpoint fifo_ops (q : list Win32Event) (ops : list queue_op)
  (event : Win32Event) : list (Z * Win32Event) * list Win32Event :=
  match ops with
  | [] => ([], q)
  | op_push e :: rest =>
      fifo_ops (if bool_decide (length q < 63)%nat then q ++ [e] else q)
        rest event
  | op_pop :: rest =>
      match q with
      | [] =>
          let '(rs, q') := fifo_ops [] rest event in ((0, event) :: rs, q')
      | e :: q1 =>
          let '(rs, q') := fifo_ops q1 rest e in ((1, e) :: rs, q')
      end
  end.

(** Everything in a display context but the queue. *)
Definition outside_queue (d : Win32Display) :=
  (hwnd d, hdc d, memDC d, bitmap d, width d, height d, pixels d,
   shouldClose d, mouseX d, mouseY d, mouseButtons d,
   timerFreq d, timerStart d).

(** The window, its surface and the timer: what creation sets up. *)
Definition surface_of (d : Win32Display) :=
  (hwnd d, hdc d, memDC d, bitmap d, width d, height d, pixels d,
   timerFreq d, timerStart d).

(** ** The events of a run of notifications *)

(** The event the window procedure builds for a message, [None] for the
    messages that produce no event. *)
Definition translated_event (m : MSG) : option Win32Event :=
  let msg := message m in
  let x := LOWORD (lParam m) in
  let y := HIWORD (lParam m) in
  if bool_decide (msg = WM_CLOSE) then
    Some (mkEvent WIN32_EVENT_CLOSE 0 0 0 0 0 0)
  else if bool_decide (msg = WM_KEYDOWN) then
    Some (mkEvent WIN32_EVENT_KEY_PRESS (wrap_int (wParam m)) 0 0 0 0 0)
  else if bool_decide (msg = WM_KEYUP) then
    Some (mkEvent WIN32_EVENT_KEY_RELEASE (wrap_int (wParam m)) 0 0 0 0 0)
  else if bool_decide (msg = WM_LBUTTONDOWN) then
    Some (mkEvent WIN32_EVENT_MOUSE_PRESS 0 Button1 x y 0 0)
  else if bool_decide (msg = WM_RBUTTONDOWN) then
    Some (mkEvent WIN32_EVENT_MOUSE_PRESS 0 Button3 x y 0 0)
  else if bool_decide (msg = WM_MBUTTONDOWN) then
    Some (mkEvent WIN32_EVENT_MOUSE_PRESS 0 Button2 x y 0 0)
  else if bool_decide (msg = WM_LBUTTONUP) then
    Some (mkEvent WIN32_EVENT_MOUSE_RELEASE 0 Button1 x y 0 0)
  else if bool_decide (msg = WM_RBUTTONUP) then
    Some (mkEvent WIN32_EVENT_MOUSE_RELEASE 0 Button3 x y 0 0)
  else if bool_decide (msg = WM_MBUTTONUP) then
    Some (mkEvent WIN32_EVENT_MOUSE_RELEASE 0 Button2 x y 0 0)
  else if bool_decide (msg = WM_MOUSEMOVE) then
    Some (mkEvent WIN32_EVENT_MOUSE_MOVE 0 0 x y 0 0)
  else if bool_decide (msg = WM_SIZE) then
    Some (mkEvent WIN32_EVENT_RESIZE 0 0 0 0 x y)
  else None.

(** Whether a run of notifications holds a close request. *)
Definition close_requested (notes : list MSG) : bool :=
  existsb (fun m => bool_decide (message m = WM_CLOSE)) notes.

(** ** Calls on one live session *)

(** The calls that go through the session at [a] and need nothing of their
    other arguments: every call but a destruction and a blit of a buffer. *)
Definition call_on (a : addr) (c : Call) : Prop :=
  match c with
  | call_window_proc _ _ _ _ => True
  | call_push_event p _ => p = Some a
  | call_destroy_window _ => False
  | call_process_events p _ => p = Some a
  | call_has_events p => p = Some a
  | call_pop_event p _ => p = Some a
  | call_blit_pixels p src => p = Some a /\ src = None
  | call_get_mouse p _ _ => p = Some a
  | call_should_close p => p = Some a
  end.

(** ** Creating a window *)

Definition set_hwnd (v : Z) (d : Win32Display) :=
  mkDisplay v (hdc d) (memDC d) (bitmap d) (width d) (height d)
    (pixels d) (shouldClose d) (events d) (eventHead d) (eventTail d)
    (mouseX d) (mouseY d) (mouseButtons d) (timerFreq d) (timerStart d).

Definition set_hdc (v : Z) (d : Win32Display) :=
  mkDisplay (hwnd d) v (memDC d) (bitmap d) (width d) (height d)
    (pixels d) (shouldClose d) (events d) (eventHead d) (eventTail d)
    (mouseX d) (mouseY d) (mouseButtons d) (timerFreq d) (timerStart d).

Definition set_memDC (v : Z) (d : Win32Display) :=
  mkDisplay (hwnd d) (hdc d) v (bitmap d) (width d) (height d)
    (pixels d) (shouldClose d) (events d) (eventHead d) (eventTail d)
    (mouseX d) (mouseY d) (mouseButtons d) (timerFreq d) (timerStart d).

Definition set_bitmap (v : Z) (d : Win32Display) :=
  mkDisplay (hwnd d) (hdc d) (memDC d) v (width d) (height d)
    (pixels d) (shouldClose d) (events d) (eventHead d) (eventTail d)
    (mouseX d) (mouseY d) (mouseButtons d) (timerFreq d) (timerStart d).

Definition set_width (v : Z) (d : Win32Display) :=
  mkDisplay (hwnd d) (hdc d) (memDC d) (bitmap d) v (height d)
    (pixels d) (shouldClose d) (events d) (eventHead d) (eventTail d)
    (mouseX d) (mouseY d) (mouseButtons d) (timerFreq d) (timerStart d).

Definition set_height (v : Z) (d : Win32Display) :=
  mkDisplay (hwnd d) (hdc d) (memDC d) (bitmap d) (width d) v
    (pixels d) (shouldClose d) (events d) (eventHead d) (eventTail d)
    (mouseX d) (mouseY d) (mouseButtons d) (timerFreq d) (timerStart d).

Definition set_timerFreq (v : Z) (d : Win32Display) :=
  mkDisplay (hwnd d) (hdc d) (memDC d) (bitmap d) (width d) (height d)
    (pixels d) (shouldClose d) (events d) (eventHead d) (eventTail d)
    (mouseX d) (mouseY d) (mouseButtons d) v (timerStart d).

Definition set_timerStart (v : Z) (d : Win32Display) :=
  mkDisplay (hwnd d) (hdc d) (memDC d) (bitmap d) (width d) (height d)
    (pixels d) (shouldClose d) (events d) (eventHead d) (eventTail d)
    (mouseX d) (mouseY d) (mouseButtons d) (timerFreq d) v.

(** What the platform answers during one [win32_create_window]: whether
    [calloc] succeeds, the two readings of the performance counter, the
    messages [CreateWindowExA] sends to the window procedure before it
    returns and the handle it returns (0 when it fails), the two device
    contexts, the handle and the bits of the DIB section, and the messages
    [ShowWindow] and [UpdateWindow] send. *)
Record Platform := mkPlatform {
  pf_calloc_ok : bool;
  pf_timerFreq : Z;
  pf_timerStart : Z;
  pf_sent_on_create : list MSG;
  pf_hwnd : Z;
  pf_hdc : Z;
  pf_memDC : Z;
  pf_bitmap : Z;
  pf_bits : option (list byte);
  pf_sent_on_show : list MSG
}.

(** [calloc(1, sizeof(Win32Display))]: a zeroed structure at an address not
    in use, or null. *)
Definition calloc_display (ok : bool) : M ptr :=
  fun w =>
    if ok then
      let a := fresh (dom (heap w)) in
      Done (Some a, set_heap (<[a := calloc_Win32Display]> (heap w)) w)
    else Done (None, w).

(** [win32_create_window].  The window class registration and the size
    adjustment leave no trace in the state kept here; [bmi] is read by
    [CreateDIBSection] only, whose results come from the platform. *)
Definition win32_create_window (pf : Platform) (title : list byte)
  (width height : Z) : M ptr :=
  do disp <- calloc_display (pf_calloc_ok pf);
  match disp with
  | None => ret None
  | Some _ =>
      update disp (set_width width) ;;
      update disp (set_height height) ;;
      update disp (set_timerFreq (pf_timerFreq pf)) ;;
      update disp (set_timerStart (pf_timerStart pf)) ;;
      translate_all (pf_sent_on_create pf) ;;
      update disp (set_hwnd (pf_hwnd pf)) ;;
      do d <- load disp;
      if bool_decide (hwnd d = 0) then
        free disp ;;
        ret None
      else
        write_g_display disp ;;
        update disp (set_hdc (pf_hdc pf)) ;;
        update disp (set_memDC (pf_memDC pf)) ;;
        update disp
          (fun d => set_bitmap (pf_bitmap pf) (set_pixels (pf_bits pf) d)) ;;
        translate_all (pf_sent_on_show pf) ;;
        ret disp
  end.

(** The structure of a new session when [CreateWindowExA] returns. *)
Definition created_display (pf : Platform) (width height : Z)
  : Win32Display :=
  set_hwnd (pf_hwnd pf)
    (set_timerStart (pf_timerStart pf)
       (set_timerFreq (pf_timerFreq pf)
          (set_height height (set_width width calloc_Win32Display)))).

(** A platform on which everything succeeds for a 2 by 1 window; showing
    the window sends a size and a repaint notification. *)
Definition sample_platform : Platform :=
  mkPlatform true 10000000 12345
    [mkMSG 7 129 0 0; mkMSG 7 1 0 0]
    7 8 9 10 (Some [x00; x00; x00; x00; x00; x00; x00; x00])
    [mkMSG 7 WM_SIZE 0 (2 + 1 * 65536); mkMSG 7 WM_PAINT 0 0].

(** The store before any session exists. *)
Definition empty_world : World := mkWorld ∅ None false ∅.

(** A platform on which the window cannot be created. *)
Definition failing_platform : Platform :=
  mkPlatform true 10000000 12345 [] 0 0 0 0 None [].

(** ** Key names

    The virtual-key codes are those of [winuser.h]; a character literal is
    its ASCII code. *)

Definition VK_ESCAPE : Z := 27.
Definition VK_SPACE : Z := 32.
Definition VK_LEFT : Z := 37.
Definition VK_UP : Z := 38.
Definition VK_RIGHT : Z := 39.
Definition VK_DOWN : Z := 40.
Definition VK_OEM_PLUS : Z := 187.
Definition VK_OEM_MINUS : Z := 189.

Definition XK_Escape : Z := VK_ESCAPE.
Definition XK_q : Z := 81.
Definition XK_r : Z := 82.
Definition XK_c : Z := 67.
Definition XK_space : Z := VK_SPACE.
Definition XK_Left : Z := VK_LEFT.
Definition XK_Right : Z := VK_RIGHT.
Definition XK_Up : Z := VK_UP.
Definition XK_Down : Z := VK_DOWN.
Definition XK_plus : Z := VK_OEM_PLUS.
Definition XK_minus : Z := VK_OEM_MINUS.
Definition XK_equal : Z := VK_OEM_PLUS.
Definition XK_w : Z := 87.
Definition XK_a : Z := 65.
Definition XK_s : Z := 83.
Definition XK_d : Z := 68.
Definition XK_1 : Z := 49.
Definition XK_2 : Z := 50.
Definition XK_3 : Z := 51.
Definition XK_4 : Z := 52.
Definition XK_5 : Z := 53.
Definition XK_6 : Z := 54.
Definition XK_7 : Z := 55.
Definition XK_8 : Z := 56.
Definition XK_9 : Z := 57.
Definition XK_0 : Z := 48.
Definition XK_p : Z := 80.
Definition XK_g : Z := 71.
Definition XK_t : Z := 84.
Definition XK_f : Z := 70.
Definition XK_h : Z := 72.
Definition XK_l : Z := 76.
Definition XK_m : Z := 77.

(** Every key name of the header but [XK_equal]. *)
Definition key_names : list Z :=
  [XK_Escape; XK_q; XK_r; XK_c; XK_space; XK_Left; XK_Right; XK_Up; XK_Down;
   XK_plus; XK_minus; XK_w; XK_a; XK_s; XK_d;
   XK_1; XK_2; XK_3; XK_4; XK_5; XK_6; XK_7; XK_8; XK_9; XK_0;
   XK_p; XK_g; XK_t; XK_f; XK_h; XK_l; XK_m].

(** ** The quit flag *)

(** A computation that leaves the quit flag of the message queue alone. *)
Definition quit_kept {A} (m : M A) : Prop :=
  forall w r w', m w = Done (r, w') -> quit_posted w' = quit_posted w.

(** ** The button mask over a run of notifications *)

(** The mask after one message. *)
Definition buttons_after (msg mb : Z) : Z :=
  if bool_decide (msg = WM_LBUTTONDOWN) then Z.lor mb 1
  else if bool_decide (msg = WM_RBUTTONDOWN) then Z.lor mb 4
  else if bool_decide (msg = WM_MBUTTONDOWN) then Z.lor mb 2
  else if bool_decide (msg = WM_LBUTTONUP) then Z.land mb (Z.lnot 1)
  else if bool_decide (msg = WM_RBUTTONUP) then Z.land mb (Z.lnot 4)
  else if bool_decide (msg = WM_MBUTTONUP) then Z.land mb (Z.lnot 2)
  else mb.

(** Whether button [b] is held after a run of notifications, [held] telling
    whether it was held before: the last press or release of [b] decides. *)
Definition button_held (b : Z) (notes : list MSG) (held : bool) : bool :=
  fold_left
    (fun h m =>
       if bool_decide (message m = button_down_message b) then true
       else if bool_decide (message m = button_up_message b) then false
       else h)
    notes held.

(** ** A session whose byte count does not fit an [int]

    65536 by 16384 pixels are 2^32 bytes: the surface is black, the frame is
    not. *)
Definition huge_count : nat := Z.to_nat 4294967296.

Definition huge_display : Win32Display :=
  mkDisplay 7 8 9 10 65536 16384 (Some (replicate huge_count x00))
    0 (replicate 64 zero_event) 0 0 0 0 0 1 0.

Definition huge_session : World :=
  mkWorld {[ 1%positive := huge_display ]} (Some 1%positive) false ∅.

Definition huge_frame : list byte := replicate huge_count x01.

(** ** Dispatching a run of messages

    What the loop of [win32_process_events] does with the messages it reads
    before it stops: each goes through [DispatchMessage], in order. *)
Fixpoint dispatch_all (msgs : list MSG) : M unit :=
  match msgs with
  | [] => ret tt
  | m :: rest => DispatchMessage m ;; dispatch_all rest
  end.

(** ** Runs with creations

    The calls of [Call] and [win32_create_window], whose platform answers
    are part of the step. *)
Inductive Step :=
| step_call (c : Call)
| step_create (pf : Platform) (title : list byte) (width height : Z).

Definition exec_step (s : Step) : M unit :=
  match s with
  | step_call c => exec c
  | step_create pf title width height =>
      win32_create_window pf title width height ;; ret tt
  end.

Fixpoint exec_steps (ss : list Step) : M unit :=
  match ss with
  | [] => ret tt
  | s :: rest => exec_step s ;; exec_steps rest
  end.

(** The number of [win32_create_window] calls of a run. *)
Fixpoint creations (ss : list Step) : nat :=
  match ss with
  | [] => 0%nat
  | step_call _ :: rest => creations rest
  | step_create _ _ _ _ :: rest => S (creations rest)
  end.

(** A run on the fresh session that creates a second one, and the store it
    leaves. *)
Definition sample_steps : list Step :=
  [step_call (call_window_proc 7 WM_MOUSEMOVE 0 (3 + 4 * 65536));
   step_create sample_platform [] 2 1;
   step_call (call_pop_event (Some 1%positive) zero_event);
   step_call (call_window_proc 7 WM_KEYDOWN 65 0)].

Definition fresh_session_later : World :=
  match exec_steps sample_steps fresh_session with
  | Done (_, w) => w
  | Fault => fresh_session
  end.
(** * Properties *)

(** ** Machine integers and ring indices *)

Lemma wrap_int_id z : in_int z -> wrap_int z = z.
Proof.
  unfold in_int, INT_MIN, INT_MAX, wrap_int. intros Hz.
  rewrite Z.mod_small; lia.
Qed.

Ltac zmod := Z.to_euclidean_division_equations; lia.

Lemma next_index i : 0 <= i < 64 -> int_rem (int_add i 1) 64 = (i + 1) mod 64.
Proof.
  intros Hi. unfold int_rem, int_add.
  rewrite wrap_int_id by (unfold in_int, INT_MIN, INT_MAX; lia).
  apply Z.rem_mod_nonneg; lia.
Qed.

Lemma calloc_queue_wf : queue_wf calloc_Win32Display.
Proof. repeat split; simpl; lia. Qed.

Lemma length_ring_slice arr i n : length (ring_slice arr i n) = n.
Proof. revert i. induction n; intros; simpl; auto. Qed.

Lemma ring_slice_snoc arr i n :
  0 <= i < 64 ->
  ring_slice arr i (S n) =
  ring_slice arr i n ++ [arr !!! Z.to_nat ((i + Z.of_nat n) mod 64)].
Proof.
  revert i. induction n as [|n IH]; intros i Hi.
  - simpl. rewrite Z.add_0_r, Z.mod_small by lia. reflexivity.
  - change (ring_slice arr i (S (S n)))
      with (arr !!! Z.to_nat i :: ring_slice arr ((i + 1) mod 64) (S n)).
    rewrite IH by zmod.
    replace (((i + 1) mod 64 + Z.of_nat n) mod 64)
      with ((i + Z.of_nat (S n)) mod 64) by zmod.
    reflexivity.
Qed.

Lemma ring_slice_insert arr i t e n :
  0 <= i < 64 -> 0 <= t < 64 ->
  Z.of_nat n <= (t - i) mod 64 ->
  ring_slice (<[Z.to_nat t := e]> arr) i n = ring_slice arr i n.
Proof.
  revert i. induction n as [|n IH]; intros i Hi Ht Hn; simpl; [done|].
  f_equal.
  - apply list_lookup_total_insert_ne. zmod.
  - apply IH; zmod.
Qed.

Lemma pending_count_range d : 0 <= pending_count d <= 63.
Proof. unfold pending_count. zmod. Qed.

Lemma length_pending d : length (pending d) = Z.to_nat (pending_count d).
Proof. apply length_ring_slice. Qed.

(** ** A well-formed queue *)

Section WellFormedQueue.

Variable d : Win32Display.
Hypothesis Hwf : queue_wf d.

Lemma pending_count_zero :
  pending_count d = 0 <-> eventHead d = eventTail d.
Proof.
  pose proof Hwf as (_ & Hh & Ht). unfold pending_count. split; intros; zmod.
Qed.

Lemma pending_count_full :
  pending_count d = 63 <->
  int_rem (int_add (eventTail d) 1) 64 = eventHead d.
Proof.
  pose proof Hwf as (_ & Hh & Ht). rewrite next_index by done.
  unfold pending_count. split; intros; zmod.
Qed.

Lemma pending_nil : pending d = [] <-> eventHead d = eventTail d.
Proof.
  rewrite <- pending_count_zero.
  pose proof (pending_count_range d) as Hr.
  split.
  - intros Hp. apply (f_equal length) in Hp.
    rewrite length_pending in Hp. simpl in Hp. lia.
  - intros Hc. unfold pending. rewrite Hc. reflexivity.
Qed.

Lemma queue_wf_enqueued e : queue_wf (enqueued e d).
Proof.
  pose proof Hwf as (Hl & Hh & Ht). unfold queue_wf, enqueued; simpl.
  rewrite length_insert, next_index by done. repeat split; try lia; zmod.
Qed.

Lemma queue_wf_dequeued : queue_wf (dequeued d).
Proof.
  pose proof Hwf as (Hl & Hh & Ht). unfold queue_wf, dequeued; simpl.
  rewrite next_index by done. repeat split; try lia; zmod.
Qed.

Lemma pending_count_enqueued e :
  pending_count d < 63 ->
  pending_count (enqueued e d) = pending_count d + 1.
Proof.
  pose proof Hwf as (Hl & Hh & Ht). unfold pending_count, enqueued; simpl.
  rewrite next_index by done. intros. zmod.
Qed.

Lemma pending_count_dequeued :
  eventHead d <> eventTail d ->
  pending_count (dequeued d) = pending_count d - 1.
Proof.
  pose proof Hwf as (Hl & Hh & Ht). unfold pending_count, dequeued; simpl.
  rewrite next_index by done. intros. zmod.
Qed.

(** A push that finds room appends the event to the waiting ones. *)
Lemma pending_enqueued e :
  pending_count d < 63 ->
  pending (enqueued e d) = pending d ++ [e].
Proof.
  intros Hroom. pose proof Hwf as (Hl & Hh & Ht).
  pose proof (pending_count_range d) as Hr.
  unfold pending. rewrite pending_count_enqueued by done.
  replace (Z.to_nat (pending_count d + 1))
    with (S (Z.to_nat (pending_count d))) by lia.
  change (events (enqueued e d))
    with (<[Z.to_nat (eventTail d) := e]> (events d)).
  change (eventHead (enqueued e d)) with (eventHead d).
  rewrite ring_slice_snoc by done.
  rewrite ring_slice_insert by (unfold pending_count in *; lia).
  f_equal. f_equal.
  replace ((eventHead d + Z.of_nat (Z.to_nat (pending_count d))) mod 64)
    with (eventTail d) by (unfold pending_count in *; zmod).
  apply list_lookup_total_insert_eq. lia.
Qed.

(** A pop on a non-empty queue takes the oldest waiting event. *)
Lemma pending_dequeued :
  eventHead d <> eventTail d ->
  exists e,
    events d !! Z.to_nat (eventHead d) = Some e /\
    pending d = e :: pending (dequeued d).
Proof.
  intros Hne. pose proof Hwf as (Hl & Hh & Ht).
  pose proof (pending_count_range d) as Hr.
  assert (pending_count d <> 0) as Hc by (rewrite pending_count_zero; done).
  destruct (lookup_lt_is_Some_2 (events d) (Z.to_nat (eventHead d)))
    as [e He]; [lia|].
  exists e. split; [done|].
  unfold pending. rewrite pending_count_dequeued by done.
  replace (Z.to_nat (pending_count d))
    with (S (Z.to_nat (pending_count d - 1))) by lia.
  simpl. rewrite next_index by done.
  f_equal. by apply list_lookup_total_correct.
Qed.

End WellFormedQueue.

(** ** Running the calls on a live session *)

Lemma heap_poke a d w : heap (poke a d w) !! a = Some d.
Proof. unfold poke; simpl. apply lookup_insert_eq. Qed.

Lemma heap_poke_ne a b d w : a <> b -> heap (poke a d w) !! b = heap w !! b.
Proof. intros. unfold poke; simpl. by apply lookup_insert_ne. Qed.

Lemma poke_poke a d1 d2 w : poke a d2 (poke a d1 w) = poke a d2 w.
Proof. unfold poke, set_heap; simpl. by rewrite insert_insert_eq. Qed.

Lemma poke_id a d w : heap w !! a = Some d -> poke a d w = w.
Proof.
  intros H. unfold poke, set_heap. rewrite insert_id by done. by destruct w.
Qed.

Lemma g_display_poke a d w : g_display (poke a d w) = g_display w.
Proof. reflexivity. Qed.

Lemma load_ok a d w : heap w !! a = Some d -> load (Some a) w = Done (d, w).
Proof. intros H. unfold load. by rewrite H. Qed.

Lemma store_ok a d d' w :
  heap w !! a = Some d -> store (Some a) d' w = Done (tt, poke a d' w).
Proof. intros H. unfold store. by rewrite H. Qed.

Lemma update_ok a d f w :
  heap w !! a = Some d -> update (Some a) f w = Done (tt, poke a (f d) w).
Proof.
  intros H. unfold update, bind. rewrite (load_ok a d) by done.
  by apply store_ok with d.
Qed.

Lemma push_room a d e w :
  heap w !! a = Some d -> queue_wf d -> pending_count d < 63 ->
  win32_push_event (Some a) e w = Done (tt, poke a (enqueued e d) w).
Proof.
  intros Hd Hwf Hroom. pose proof Hwf as (Hl & Hh & Ht).
  unfold win32_push_event, bind. rewrite (load_ok a d) by done.
  rewrite bool_decide_true
    by (rewrite <- pending_count_full by done; lia).
  unfold lift, array_set. rewrite bool_decide_true by lia.
  by apply store_ok with d.
Qed.

Lemma push_full a d e w :
  heap w !! a = Some d -> queue_wf d -> pending_count d = 63 ->
  win32_push_event (Some a) e w = Done (tt, w).
Proof.
  intros Hd Hwf Hfull.
  unfold win32_push_event, bind. rewrite (load_ok a d) by done.
  rewrite bool_decide_false; [done|].
  rewrite <- pending_count_full by done. tauto.
Qed.

Lemma has_events_ok a d w :
  heap w !! a = Some d ->
  win32_has_events (Some a) w =
  Done (if bool_decide (eventHead d <> eventTail d) then 1 else 0, w).
Proof.
  intros Hd. unfold win32_has_events, bind. by rewrite (load_ok a d).
Qed.

Lemma pop_empty a d ev w :
  heap w !! a = Some d -> eventHead d = eventTail d ->
  win32_pop_event (Some a) ev w = Done ((0, ev), w).
Proof.
  intros Hd He. unfold win32_pop_event, bind.
  rewrite (load_ok a d) by done. by rewrite bool_decide_true.
Qed.

Lemma pop_some a d e rest ev w :
  heap w !! a = Some d -> queue_wf d -> pending d = e :: rest ->
  win32_pop_event (Some a) ev w = Done ((1, e), poke a (dequeued d) w) /\
  pending (dequeued d) = rest.
Proof.
  intros Hd Hwf Hp. pose proof Hwf as (Hl & Hh & Ht).
  assert (eventHead d <> eventTail d) as Hne.
  { rewrite <- pending_nil by done. by rewrite Hp. }
  destruct (pending_dequeued d Hwf Hne) as (e' & He' & Hp').
  rewrite Hp in Hp'. injection Hp' as <- <-.
  split; [|done].
  unfold win32_pop_event, bind. rewrite (load_ok a d) by done.
  rewrite bool_decide_false by done.
  unfold lift, array_get. rewrite bool_decide_true by lia. rewrite He'.
  by rewrite (store_ok a d).
Qed.

(** ** Runs of pushes and pops *)

Lemma push_all_spec a evs : forall d w,
  heap w !! a = Some d -> queue_wf d ->
  exists d',
    push_all (Some a) evs w = Done (tt, poke a d' w) /\
    queue_wf d' /\
    eventHead d' = eventHead d /\
    pending d' = pending d ++ take (63 - length (pending d)) evs.
Proof.
  induction evs as [|e evs IH]; intros d w Hd Hwf.
  - exists d. rewrite (poke_id a d) by done.
    rewrite take_nil, app_nil_r. done.
  - pose proof (pending_count_range d) as Hr.
    pose proof (length_pending d) as Hlen.
    destruct (decide (pending_count d < 63)) as [Hroom|Hfull].
    + destruct (IH (enqueued e d) (poke a (enqueued e d) w))
        as (d' & Hrun & Hwf' & Hh' & Hp').
      { apply heap_poke. }
      { by apply queue_wf_enqueued. }
      exists d'. rewrite poke_poke in Hrun.
      split; [|split; [done|split; [done|]]].
      * simpl. unfold bind. by rewrite (push_room a d).
      * rewrite Hp', pending_enqueued by done.
        rewrite length_app; simpl.
        replace (63 - length (pending d))%nat
          with (S (63 - (length (pending d) + 1)))%nat by lia.
        by rewrite <- app_assoc.
    + destruct (IH d w Hd Hwf) as (d' & Hrun & Hwf' & Hh' & Hp').
      exists d'. split; [|split; [done|split; [done|]]].
      * simpl. unfold bind. by rewrite (push_full a d) by (done || lia).
      * rewrite Hp'.
        replace (63 - length (pending d))%nat with 0%nat by lia.
        done.
Qed.

Lemma pop_n_spec a n : forall d w ev,
  heap w !! a = Some d -> queue_wf d ->
  (n <= length (pending d))%nat ->
  exists d',
    pop_n (Some a) n ev w = Done (popped (take n (pending d)), poke a d' w) /\
    queue_wf d' /\
    eventTail d' = eventTail d /\
    pending d' = drop n (pending d).
Proof.
  induction n as [|n IH]; intros d w ev Hd Hwf Hn.
  - exists d. rewrite (poke_id a d) by done. done.
  - destruct (pending d) as [|e rest] eqn:Hp; [simpl in Hn; lia|].
    destruct (pop_some a d e rest ev w Hd Hwf Hp) as [Hpop Hrest].
    destruct (IH (dequeued d) (poke a (dequeued d) w) e)
      as (d' & Hrun & Hwf' & Ht' & Hp').
    { apply heap_poke. }
    { by apply queue_wf_dequeued. }
    { rewrite Hrest. simpl in Hn. lia. }
    exists d'. rewrite poke_poke in Hrun.
    split; [|split; [done|split; [done|]]].
    + simpl. unfold bind. rewrite Hpop. simpl. rewrite Hrun.
      by rewrite Hrest.
    + by rewrite Hp', Hrest.
Qed.

(** ** One push, whatever the room *)

Lemma push_ok a d e w :
  heap w !! a = Some d -> queue_wf d ->
  win32_push_event (Some a) e w = Done (tt, poke a (pushed e d) w).
Proof.
  intros Hd Hwf. pose proof (pending_count_range d) as Hr.
  unfold pushed. case_bool_decide.
  - by apply push_room.
  - rewrite (poke_id a d) by done. apply push_full with d; [done..|lia].
Qed.

Lemma queue_wf_pushed e d : queue_wf d -> queue_wf (pushed e d).
Proof.
  intros Hwf. unfold pushed. case_bool_decide; [|done].
  by apply queue_wf_enqueued.
Qed.

Lemma pending_pushed e d :
  queue_wf d ->
  pending (pushed e d) =
  if bool_decide (pending_count d < 63) then pending d ++ [e] else pending d.
Proof.
  intros Hwf. unfold pushed. case_bool_decide; [|done].
  by apply pending_enqueued.
Qed.

Lemma shouldClose_pushed e d : shouldClose (pushed e d) = shouldClose d.
Proof. unfold pushed. by case_bool_decide. Qed.

Lemma mouseX_pushed e d : mouseX (pushed e d) = mouseX d.
Proof. unfold pushed. by case_bool_decide. Qed.

Lemma mouseY_pushed e d : mouseY (pushed e d) = mouseY d.
Proof. unfold pushed. by case_bool_decide. Qed.

Lemma mouseButtons_pushed e d : mouseButtons (pushed e d) = mouseButtons d.
Proof. unfold pushed. by case_bool_decide. Qed.

Lemma pixels_pushed e d : pixels (pushed e d) = pixels d.
Proof. unfold pushed. by case_bool_decide. Qed.

(** ** The window procedure on a live session *)

(** [update] followed by a push, the shape of most message handlers. *)
Lemma update_push_ok a d f e w :
  heap w !! a = Some d -> queue_wf (f d) ->
  (update (Some a) f ;; win32_push_event (Some a) e) w
  = Done (tt, poke a (pushed e (f d)) w).
Proof.
  intros Hd Hwf. unfold bind. rewrite (update_ok a d) by done.
  rewrite (push_ok a (f d)) by (apply heap_poke || done).
  by rewrite poke_poke.
Qed.
Ltac msg_clash :=
  exfalso;
  unfold WM_DESTROY, WM_SIZE, WM_PAINT, WM_CLOSE, WM_QUIT, WM_KEYDOWN,
    WM_KEYUP, WM_MOUSEMOVE, WM_LBUTTONDOWN, WM_LBUTTONUP, WM_RBUTTONDOWN,
    WM_RBUTTONUP, WM_MBUTTONDOWN, WM_MBUTTONUP in *;
  lia.

Lemma push_ret_ok a d e w :
  heap w !! a = Some d -> queue_wf d ->
  (win32_push_event (Some a) e ;; ret 0) w = Done (0, poke a (pushed e d) w).
Proof. intros Hd Hwf. unfold bind. by rewrite (push_ok a d). Qed.

Lemma update_push_ret_ok a d f e w :
  heap w !! a = Some d -> queue_wf (f d) ->
  ((update (Some a) f ;; win32_push_event (Some a) e) ;; ret 0) w
  = Done (0, poke a (pushed e (f d)) w).
Proof.
  intros Hd Hwf. unfold bind at 1. by rewrite (update_push_ok a d).
Qed.

Lemma window_proc_live h msg wp lp a d w :
  g_display w = Some a -> heap w !! a = Some d -> queue_wf d ->
  exists d' w',
    win32_window_proc h msg wp lp w = Done (0, w') /\
    heap w' = <[a := d']> (heap w) /\
    g_display w' = Some a /\
    queue_wf d' /\
    (shouldClose d <> 0 -> shouldClose d' <> 0) /\
    (mouseX d', mouseY d') =
      (if bool_decide (msg = WM_MOUSEMOVE)
       then (LOWORD lp, HIWORD lp) else (mouseX d, mouseY d)).
Proof.
  intros Hg Hd Hwf.
  unfold win32_window_proc. unfold bind at 1. unfold read_g_display. rewrite Hg.
  cbv zeta.
  repeat case_bool_decide; try msg_clash; unfold when_nonnull.
  all: try (eexists _, _; split;
            [apply (update_push_ret_ok a d); [done|exact Hwf]|];
            rewrite shouldClose_pushed, mouseX_pushed, mouseY_pushed;
            refine (conj eq_refl (conj Hg (conj _ (conj _ eq_refl))));
            [apply queue_wf_pushed; exact Hwf|simpl; done]).
  all: try (eexists _, _; split;
            [apply (push_ret_ok a d); done|];
            rewrite shouldClose_pushed, mouseX_pushed, mouseY_pushed;
            refine (conj eq_refl (conj Hg (conj _ (conj _ eq_refl))));
            [by apply queue_wf_pushed|done]).
  - exists d, (set_quit_posted true w).
    refine (conj eq_refl (conj _ (conj Hg (conj Hwf (conj (fun H => H) eq_refl))))).
    simpl. symmetry. by apply insert_id.
  - eexists _, _. split.
    { unfold bind. rewrite (update_ok a d) by done.
      erewrite update_ok by apply heap_poke.
      erewrite push_ok by (apply heap_poke || exact Hwf).
      rewrite !poke_poke. reflexivity. }
    rewrite shouldClose_pushed, mouseX_pushed, mouseY_pushed.
    refine (conj eq_refl (conj Hg (conj _ (conj (fun H => H) eq_refl)))).
    apply queue_wf_pushed; exact Hwf.
  - assert (exists w', (do hdc' <- BeginPaint h;
                        (do d0 <- load (Some a);
                         if bool_decide (memDC d0 <> 0)
                         then BitBlt h hdc' (memDC d0) (pixels d0)
                         else ret tt) ;; ret 0) w = Done (0, w') /\
                       heap w' = heap w /\ g_display w' = g_display w)
      as (w' & Hrun & Hheap & Hg').
    { unfold bind, BeginPaint, ret. rewrite (load_ok a d) by done.
      unfold BitBlt.
      destruct (bool_decide (memDC d <> 0)); [|by eexists].
      destruct (pixels d); [|by eexists].
      destruct (bool_decide _); by eexists. }
    exists d, w'. rewrite Hheap, Hg'.
    refine (conj Hrun (conj _ (conj Hg (conj Hwf (conj (fun H => H) eq_refl))))).
    symmetry. by apply insert_id.
  - exists d, w.
    refine (conj eq_refl (conj _ (conj Hg (conj Hwf (conj (fun H => H) eq_refl))))).
    symmetry. by apply insert_id.
Qed.

Lemma window_proc_idle h msg wp lp w :
  g_display w = None ->
  exists w',
    win32_window_proc h msg wp lp w = Done (0, w') /\
    heap w' = heap w /\ g_display w' = None.
Proof.
  intros Hg.
  unfold win32_window_proc. unfold bind at 1. unfold read_g_display. rewrite Hg.
  cbv zeta. unfold when_nonnull.
  repeat case_bool_decide; by eexists.
Qed.

Lemma last_move_cons m notes pos :
  last_move (m :: notes) pos =
  last_move notes
    (if bool_decide (message m = WM_MOUSEMOVE)
     then (LOWORD (lParam m), HIWORD (lParam m)) else pos).
Proof. reflexivity. Qed.

(** A run of notifications on a live session never faults; it keeps the
    session live and well-formed, leaves the position where the last move
    put it, and does not clear the close flag. *)
Lemma translate_all_live a notes : forall d w,
  g_display w = Some a -> heap w !! a = Some d -> queue_wf d ->
  exists d' w',
    translate_all notes w = Done (tt, w') /\
    g_display w' = Some a /\
    heap w' !! a = Some d' /\
    queue_wf d' /\
    (shouldClose d <> 0 -> shouldClose d' <> 0) /\
    (mouseX d', mouseY d') = last_move notes (mouseX d, mouseY d).
Proof.
  induction notes as [|m notes IH]; intros d w Hg Hd Hwf.
  - exists d, w. done.
  - destruct (window_proc_live (msg_hwnd m) (message m) (wParam m) (lParam m)
                a d w Hg Hd Hwf)
      as (d1 & w1 & Hrun1 & Hheap1 & Hg1 & Hwf1 & Hclose1 & Hpos1).
    assert (heap w1 !! a = Some d1) as Hd1
      by (rewrite Hheap1; apply lookup_insert_eq).
    destruct (IH d1 w1 Hg1 Hd1 Hwf1)
      as (d' & w' & Hrun & Hg' & Hd' & Hwf' & Hclose' & Hpos').
    exists d', w'. split.
    { simpl. unfold bind. by rewrite Hrun1. }
    split; [done|]. split; [done|]. split; [done|]. split; [tauto|].
    by rewrite last_move_cons, Hpos', Hpos1.
Qed.

Lemma get_mouse_ok a d x y w :
  heap w !! a = Some d ->
  win32_get_mouse (Some a) (Some x) (Some y) w
  = Done ((Some (mouseX d), Some (mouseY d)), w).
Proof.
  intros Hd. unfold win32_get_mouse, bind, ret.
  rewrite (load_ok a d) by done. by rewrite (load_ok a d).
Qed.

(** ** Bits of the button mask *)

Lemma set_bit_spec m n i :
  0 <= n -> Z.testbit (Z.lor m (2 ^ n)) i = Z.testbit m i || (n =? i).
Proof. intros Hn. by rewrite Z.lor_spec, Z.pow2_bits_eqb. Qed.

Lemma clear_bit_spec m n i :
  0 <= n ->
  Z.testbit (Z.land m (Z.lnot (2 ^ n))) i = Z.testbit m i && negb (n =? i).
Proof.
  intros Hn. destruct (decide (0 <= i)) as [Hi|Hi].
  - by rewrite Z.land_spec, Z.lnot_spec, Z.pow2_bits_eqb.
  - by rewrite !Z.testbit_neg_r by lia.
Qed.

(** ** What every call keeps *)

Lemma kept_refl w : world_ok w -> kept w w.
Proof. intros Hok. split; [done|]. intros a d Hd. by exists d. Qed.

Lemma kept_trans w1 w2 w3 : kept w1 w2 -> kept w2 w3 -> kept w1 w3.
Proof.
  intros [_ H12] [Hok H23]. split; [done|].
  intros a d3 Hd3. destruct (H23 a d3 Hd3) as (d2 & Hd2 & Hc23).
  destruct (H12 a d2 Hd2) as (d1 & Hd1 & Hc12).
  exists d1. split; [done|]. tauto.
Qed.

(** One display context is rewritten, or nothing is. *)
Lemma kept_insert w w' a d d' :
  world_ok w -> heap w !! a = Some d ->
  heap w' = <[a := d']> (heap w) -> g_display w' = g_display w ->
  queue_wf d' -> (shouldClose d <> 0 -> shouldClose d' <> 0) ->
  kept w w'.
Proof.
  intros [Hwf Hg] Hd Hheap Hg' Hwf' Hclose. split; [split|].
  - intros b db. rewrite Hheap, lookup_insert.
    case_decide; [by intros [= <-]|apply Hwf].
  - intros g. rewrite Hg', Hheap, lookup_insert.
    case_decide; [by eexists|apply Hg].
  - intros b db. rewrite Hheap, lookup_insert.
    case_decide as Hab; [|intros Hb; by exists db].
    intros [= <-]. subst b. by exists d.
Qed.

Lemma kept_poke w a d d' :
  world_ok w -> heap w !! a = Some d ->
  queue_wf d' -> (shouldClose d <> 0 -> shouldClose d' <> 0) ->
  kept w (poke a d' w).
Proof. intros. by apply kept_insert with a d d'. Qed.

Lemma kept_same_heap w w' :
  world_ok w -> heap w' = heap w -> g_display w' = g_display w -> kept w w'.
Proof.
  intros [Hwf Hg] Hheap Hg'. split; [split|].
  - intros b db. rewrite Hheap. apply Hwf.
  - intros g. rewrite Hg', Hheap. apply Hg.
  - intros b db. rewrite Hheap. intros Hb. by exists db.
Qed.

(** The window procedure never faults on a store the layer keeps, and no
    display context disappears. *)
Lemma window_proc_total h msg wp lp w :
  world_ok w ->
  exists w',
    win32_window_proc h msg wp lp w = Done (0, w') /\ kept w w' /\
    forall a, is_Some (heap w !! a) -> is_Some (heap w' !! a).
Proof.
  intros Hok. destruct (g_display w) as [g|] eqn:Hg.
  - destruct (proj2 Hok g Hg) as [d Hd].
    destruct (window_proc_live h msg wp lp g d w Hg Hd (proj1 Hok g d Hd))
      as (d' & w' & Hrun & Hheap & Hg' & Hwf' & Hclose & _).
    exists w'. split; [done|]. split.
    + apply kept_insert with g d d'; try done. congruence.
    + intros a. rewrite Hheap, lookup_insert. by case_decide.
  - destruct (window_proc_idle h msg wp lp w Hg) as (w' & Hrun & Hheap & Hg').
    exists w'. split; [done|]. split.
    + apply kept_same_heap; congruence.
    + intros a. by rewrite Hheap.
Qed.

Lemma window_proc_kept h msg wp lp w r w' :
  world_ok w -> win32_window_proc h msg wp lp w = Done (r, w') -> kept w w'.
Proof.
  intros Hok Hrun.
  destruct (window_proc_total h msg wp lp w Hok) as (w1 & Hrun1 & Hk & _).
  congruence.
Qed.

Lemma push_kept p e w r w' :
  world_ok w -> win32_push_event p e w = Done (r, w') -> kept w w'.
Proof.
  intros Hok Hrun. destruct p as [a|]; [|done].
  destruct (heap w !! a) as [d|] eqn:Hd.
  - rewrite (push_ok a d) in Hrun by (done || by apply (proj1 Hok a)).
    injection Hrun as _ <-.
    apply kept_poke with d; [done..| |by rewrite shouldClose_pushed].
    apply queue_wf_pushed. by apply (proj1 Hok a).
  - unfold win32_push_event, bind, load in Hrun. by rewrite Hd in Hrun.
Qed.

Lemma pop_kept p ev w r w' :
  world_ok w -> win32_pop_event p ev w = Done (r, w') -> kept w w'.
Proof.
  intros Hok Hrun. destruct p as [a|]; [|done].
  destruct (heap w !! a) as [d|] eqn:Hd.
  - assert (queue_wf d) as Hwf by (by apply (proj1 Hok a)).
    destruct (pending d) as [|e rest] eqn:Hp.
    + rewrite (pop_empty a d) in Hrun by (done || by apply pending_nil).
      injection Hrun as _ <-. by apply kept_refl.
    + destruct (pop_some a d e rest ev w Hd Hwf Hp) as [Hpop _].
      rewrite Hpop in Hrun. injection Hrun as _ <-.
      apply kept_poke with d; [done..|by apply queue_wf_dequeued|done].
  - unfold win32_pop_event, bind, load in Hrun. by rewrite Hd in Hrun.
Qed.

Lemma has_events_kept p w r w' :
  world_ok w -> win32_has_events p w = Done (r, w') -> kept w w'.
Proof.
  intros Hok Hrun. unfold win32_has_events, bind, load, ret in Hrun.
  destruct p as [a|]; [|done]. destruct (heap w !! a); [|done].
  injection Hrun as _ <-. by apply kept_refl.
Qed.

Lemma should_close_kept p w r w' :
  world_ok w -> win32_should_close p w = Done (r, w') -> kept w w'.
Proof.
  intros Hok Hrun. unfold win32_should_close, bind, load, ret in Hrun.
  destruct p as [a|]; [|done]. destruct (heap w !! a); [|done].
  injection Hrun as _ <-. by apply kept_refl.
Qed.

Lemma get_mouse_kept p x y w r w' :
  world_ok w -> win32_get_mouse p x y w = Done (r, w') -> kept w w'.
Proof.
  intros Hok Hrun. unfold win32_get_mouse, bind, load, ret in Hrun.
  destruct x, y, p as [a|]; cbv beta iota in Hrun; try done;
    try (destruct (heap w !! a) eqn:Hd; cbv beta iota in Hrun;
         rewrite ?Hd in Hrun; [|done]);
    simplify_eq; by apply kept_refl.
Qed.

Lemma update_kept p f w r w' :
  world_ok w -> update p f w = Done (r, w') ->
  (forall d, queue_wf d -> queue_wf (f d)) ->
  (forall d, shouldClose d <> 0 -> shouldClose (f d) <> 0) ->
  kept w w'.
Proof.
  intros Hok Hrun Hwf Hclose. destruct p as [a|]; [|done].
  destruct (heap w !! a) as [d|] eqn:Hd.
  - rewrite (update_ok a d) in Hrun by done. injection Hrun as _ <-.
    apply kept_poke with d; [done..| |by apply Hclose].
    apply Hwf. by apply (proj1 Hok a).
  - unfold update, bind, load in Hrun. by rewrite Hd in Hrun.
Qed.

Lemma BitBlt_ok h dc1 dc2 bits w :
  exists w',
    BitBlt h dc1 dc2 bits w = Done (tt, w') /\
    heap w' = heap w /\ g_display w' = g_display w.
Proof.
  unfold BitBlt. destruct bits; [|by eexists].
  destruct (bool_decide _); by eexists.
Qed.

(** Copying a whole buffer over a surface of the same length. *)
Lemma memcpy_whole surface buf :
  length surface = length buf ->
  memcpy (Some surface) buf (Z.of_nat (length buf)) = Done (Some buf).
Proof.
  intros Hlen. unfold memcpy. case_bool_decide as Hn.
  - assert (length buf = 0%nat) as Hb by lia.
    rewrite Hb in Hlen.
    apply nil_length_inv in Hb. apply nil_length_inv in Hlen. by subst.
  - rewrite bool_decide_true by lia.
    rewrite Nat2Z.id, firstn_all, drop_ge by lia.
    by rewrite app_nil_r.
Qed.

(** A blit on a live session: the copy, then the transfer to the window. *)
Lemma blit_run a d buf w :
  heap w !! a = Some d ->
  win32_blit_pixels (Some a) (Some buf) w =
  match
    memcpy (pixels d) buf
      (size_t_of_int (int_mul (int_mul (width d) (height d)) 4))
  with
  | Done bits =>
      BitBlt (hwnd d) (hdc d) (memDC d) bits
        (poke a (set_pixels bits d) w)
  | Fault => Fault
  end.
Proof.
  intros Hd. unfold win32_blit_pixels, bind. rewrite (load_ok a d) by done.
  unfold lift. destruct (memcpy _ _ _); [|done].
  by rewrite (store_ok a d).
Qed.

Lemma blit_kept p src w r w' :
  world_ok w -> win32_blit_pixels p src w = Done (r, w') -> kept w w'.
Proof.
  intros Hok Hrun.
  destruct p as [a|], src as [buf|];
    try (injection Hrun as _ <-; by apply kept_refl).
  destruct (heap w !! a) as [d|] eqn:Hd.
  - rewrite (blit_run a d) in Hrun by done.
    destruct (memcpy _ _ _) as [bits|]; [|done].
    destruct (BitBlt_ok (hwnd d) (hdc d) (memDC d) bits
                (poke a (set_pixels bits d) w))
      as (w1 & Hblt & Hheap & Hg).
    rewrite Hblt in Hrun. injection Hrun as _ <-.
    apply kept_insert with a d (set_pixels bits d);
      [done|done|exact Hheap|exact Hg| |done].
    exact (proj1 Hok a d Hd).
  - unfold win32_blit_pixels, bind, load in Hrun. by rewrite Hd in Hrun.
Qed.

Lemma window_proc_destroy h wp lp w :
  win32_window_proc h WM_DESTROY wp lp w = Done (0, set_quit_posted true w).
Proof. reflexivity. Qed.

(** Destroying a live session frees it and clears [g_display]. *)
Lemma destroy_run a d w :
  heap w !! a = Some d ->
  exists w',
    win32_destroy_window (Some a) w = Done (tt, w') /\
    heap w' = delete a (heap w) /\ g_display w' = None.
Proof.
  intros Hd. unfold win32_destroy_window, bind.
  rewrite (load_ok a d) by done.
  unfold DestroyWindow, bind, write_g_display, free.
  destruct (bool_decide (hwnd d <> 0)).
  - rewrite window_proc_destroy. simpl. rewrite Hd. by eexists.
  - simpl. rewrite Hd. by eexists.
Qed.

Lemma destroy_kept p w r w' :
  world_ok w -> win32_destroy_window p w = Done (r, w') -> kept w w'.
Proof.
  intros Hok Hrun. destruct p as [a|].
  - destruct (heap w !! a) as [d|] eqn:Hd.
    + destruct (destroy_run a d w Hd) as (w1 & Hrun1 & Hheap & Hg).
      rewrite Hrun1 in Hrun. injection Hrun as _ <-.
      split; [split|].
      * intros b db. rewrite Hheap. intros Hb%lookup_delete_Some.
        by apply (proj1 Hok b), Hb.
      * intros g. by rewrite Hg.
      * intros b db. rewrite Hheap. intros Hb%lookup_delete_Some.
        exists db. by split; [apply Hb|].
    + unfold win32_destroy_window, bind, load in Hrun. by rewrite Hd in Hrun.
  - injection Hrun as _ <-. by apply kept_refl.
Qed.

Lemma dispatch_total m w :
  world_ok w ->
  exists r w',
    DispatchMessage m w = Done (r, w') /\ kept w w' /\
    forall a, is_Some (heap w !! a) -> is_Some (heap w' !! a).
Proof.
  intros Hok. unfold DispatchMessage. case_bool_decide.
  - exists 0, w. split; [done|]. split; [by apply kept_refl|done].
  - destruct (window_proc_total (msg_hwnd m) (message m) (wParam m)
                (lParam m) w Hok) as (w' & Hrun & Hk & Hlive).
    by exists 0, w'.
Qed.

Lemma process_events_kept p msgs : forall w r w',
  world_ok w -> win32_process_events p msgs w = Done (r, w') -> kept w w'.
Proof.
  induction msgs as [|m msgs IH]; intros w r w' Hok Hrun; simpl in Hrun.
  - unfold bind at 1, take_quit in Hrun.
    assert (kept w (set_quit_posted false w)) as Hk
      by (by apply kept_same_heap).
    apply (kept_trans _ _ _ Hk).
    destruct (quit_posted w).
    + unfold bind in Hrun.
      destruct (update p (set_shouldClose 1) (set_quit_posted false w))
        as [[[] w1]|] eqn:Hupd; [|done].
      injection Hrun as _ <-.
      apply update_kept with p (set_shouldClose 1) tt;
        [apply Hk|done|done|simpl; intros; lia].
    + unfold bind, load in Hrun.
      destruct p as [a|]; [|done].
      destruct (heap (set_quit_posted false w) !! a); [|done].
      injection Hrun as _ <-. apply kept_refl, Hk.
  - case_bool_decide.
    + unfold bind in Hrun.
      destruct (update p (set_shouldClose 1) w) as [[[] w1]|] eqn:Hupd;
        [|done].
      injection Hrun as _ <-.
      apply update_kept with p (set_shouldClose 1) tt;
        [done..|simpl; intros; lia].
    + unfold bind at 1 in Hrun.
      destruct (dispatch_total m w Hok) as (r1 & w1 & Hrun1 & Hk1 & _).
      rewrite Hrun1 in Hrun.
      apply (kept_trans _ _ _ Hk1). exact (IH w1 r w' (proj1 Hk1) Hrun).
Qed.

Lemma exec_kept c w r w' :
  world_ok w -> exec c w = Done (r, w') -> kept w w'.
Proof.
  intros Hok Hrun. destruct c; simpl in Hrun.
  - unfold bind in Hrun.
    destruct (win32_window_proc h msg wp lp w) as [[r1 w1]|] eqn:H1; [|done].
    injection Hrun as _ <-. by eapply window_proc_kept.
  - by eapply push_kept.
  - by eapply destroy_kept.
  - unfold bind in Hrun.
    destruct (win32_process_events disp msgs w) as [[r1 w1]|] eqn:H1; [|done].
    injection Hrun as _ <-. by eapply process_events_kept.
  - unfold bind in Hrun.
    destruct (win32_has_events disp w) as [[r1 w1]|] eqn:H1; [|done].
    injection Hrun as _ <-. by eapply has_events_kept.
  - unfold bind in Hrun.
    destruct (win32_pop_event disp event w) as [[r1 w1]|] eqn:H1; [|done].
    injection Hrun as _ <-. by eapply pop_kept.
  - by eapply blit_kept.
  - unfold bind in Hrun.
    destruct (win32_get_mouse disp x y w) as [[r1 w1]|] eqn:H1; [|done].
    injection Hrun as _ <-. by eapply get_mouse_kept.
  - unfold bind in Hrun.
    destruct (win32_should_close disp w) as [[r1 w1]|] eqn:H1; [|done].
    injection Hrun as _ <-. by eapply should_close_kept.
Qed.


(** Polling a live session never faults, and reports a close once the flag
    is set. *)
Lemma process_events_live a msgs : forall w d,
  world_ok w -> heap w !! a = Some d ->
  exists r rest w',
    win32_process_events (Some a) msgs w = Done ((r, rest), w') /\
    (shouldClose d <> 0 -> r <> 0).
Proof.
  induction msgs as [|m msgs IH]; intros w d Hok Hd; simpl.
  - unfold bind at 1, take_quit. destruct (quit_posted w).
    + unfold bind. erewrite update_ok by exact Hd. by eexists _, _, _.
    + unfold bind. erewrite load_ok by exact Hd. by eexists _, _, _.
  - case_bool_decide.
    + unfold bind. erewrite update_ok by exact Hd. by eexists _, _, _.
    + unfold bind at 1.
      destruct (dispatch_total m w Hok) as (r1 & w1 & Hrun1 & Hk1 & Hlive).
      rewrite Hrun1.
      destruct (Hlive a) as [d1 Hd1]; [by eexists|].
      destruct (proj2 Hk1 a d1 Hd1) as (d0 & Hd0 & Hclose).
      assert (d0 = d) as -> by congruence.
      destruct (IH w1 d1 (proj1 Hk1) Hd1) as (r & rest & w' & Hrun & Hr).
      exists r, rest, w'. split; [done|]. tauto.
Qed.

Lemma world_ok_single a d q s :
  queue_wf d -> world_ok (mkWorld {[ a := d ]} (Some a) q s).
Proof.
  intros Hwf. split; simpl.
  - intros b db [_ <-]%lookup_singleton_Some. done.
  - intros g [= <-]. rewrite lookup_singleton_eq. by eexists.
Qed.

(** Every state that pushes and pops reach keeps the indices inside the
    array. *)
Lemma queue_reachable_wf a w :
  queue_reachable a w -> exists d, heap w !! a = Some d /\ queue_wf d.
Proof.
  induction 1 as [w d Hd Hev Hh Ht
                 |w e w' _ (d & Hd & Hwf) Hrun
                 |w ev r w' _ (d & Hd & Hwf) Hrun].
  - exists d. split; [done|]. unfold queue_wf.
    rewrite Hev, Hh, Ht, length_replicate. lia.
  - pose proof (pending_count_range d) as Hr.
    destruct (decide (pending_count d < 63)) as [Hroom|Hfull].
    + rewrite (push_room a d) in Hrun by done. injection Hrun as <-.
      exists (enqueued e d). split; [apply heap_poke|].
      by apply queue_wf_enqueued.
    + rewrite (push_full a d) in Hrun by (done || lia).
      injection Hrun as <-. by exists d.
  - destruct (pending d) as [|e rest] eqn:Hp.
    + rewrite (pop_empty a d) in Hrun by (done || by apply pending_nil).
      injection Hrun as _ <-. by exists d.
    + destruct (pop_some a d e rest ev w Hd Hwf Hp) as [Hpop _].
      rewrite Hpop in Hrun. injection Hrun as _ <-.
      exists (dequeued d). split; [apply heap_poke|].
      by apply queue_wf_dequeued.
Qed.

Lemma push_all_reachable a evs : forall w w',
  queue_reachable a w -> push_all (Some a) evs w = Done (tt, w') ->
  queue_reachable a w'.
Proof.
  induction evs as [|e evs IH]; intros w w' Hreach Hrun; simpl in Hrun.
  - by injection Hrun as <-.
  - unfold bind in Hrun.
    destruct (win32_push_event (Some a) e w) as [[[] w1]|] eqn:H1; [|done].
    apply (IH w1 w'); [|done]. by apply reach_push with w e.
Qed.

Lemma fresh_session_reachable : queue_reachable 1%positive fresh_session.
Proof.
  by apply (reach_init 1%positive fresh_session calloc_Win32Display).
Qed.

Lemma full_session_reachable : queue_reachable 1%positive full_session.
Proof.
  apply (push_all_reachable 1%positive (key_presses 63) fresh_session).
  - apply fresh_session_reachable.
  - vm_compute. reflexivity.
Qed.

(** ** The event queue *)

(** C2. FIFO order: N pushes into an empty queue followed by N pops return
    the pushed events in the order they were pushed when N is at most 63;
    every pop reports success and the queue is empty again afterwards. *)
Theorem queue_fifo a w d evs ev :
  heap w !! a = Some d -> queue_wf d -> eventHead d = eventTail d ->
  (length evs <= 63)%nat ->
  exists w',
    push_then_pop (Some a) evs (length evs) ev w = Done (popped evs, w') /\
    win32_has_events (Some a) w' = Done (0, w').
Proof.
  intros Hd Hwf Hempty Hlen.
  assert (pending d = []) as Hp by (by apply pending_nil).
  destruct (push_all_spec a evs d w Hd Hwf) as (d1 & Hpush & Hwf1 & _ & Hp1).
  rewrite Hp in Hp1. simpl in Hp1. rewrite take_ge in Hp1 by lia.
  destruct (pop_n_spec a (length evs) d1 (poke a d1 w) ev)
    as (d2 & Hpop & Hwf2 & _ & Hp2).
  { apply heap_poke. }
  { done. }
  { by rewrite Hp1. }
  rewrite poke_poke in Hpop.
  rewrite Hp1, firstn_all in Hpop. rewrite Hp1, drop_all in Hp2.
  exists (poke a d2 w). split.
  - unfold push_then_pop, bind. by rewrite Hpush.
  - rewrite (has_events_ok a d2) by apply heap_poke.
    rewrite bool_decide_false; [done|].
    intros Hne. apply Hne. by apply pending_nil.
Qed.

Lemma queue_fifo_witness :
  exists w',
    push_then_pop (Some 1%positive) (key_presses 3) 3 zero_event fresh_session
      = Done (popped (key_presses 3), w') /\
    win32_has_events (Some 1%positive) w' = Done (0, w').
Proof.
  apply (queue_fifo 1%positive fresh_session calloc_Win32Display
           (key_presses 3) zero_event).
  - reflexivity.
  - apply calloc_queue_wf.
  - reflexivity.
  - simpl. lia.
Defined.

(** With 64 pushes the last event is dropped and the 64th pop fails, leaving
    the out-parameter as the 63rd pop wrote it: the FIFO property does not
    hold for N = 64. *)
Lemma fifo_breaks_at_64 :
  result_of
    (push_then_pop (Some 1%positive) (key_presses 64) 64 zero_event)
    fresh_session
  = Some (popped (key_presses 63) ++
          [(0, mkEvent WIN32_EVENT_KEY_PRESS 63 0 0 0 0 0)]) /\
  result_of
    (push_then_pop (Some 1%positive) (key_presses 64) 64 zero_event)
    fresh_session
  <> Some (popped (key_presses 64)).
Proof.
  split.
  - vm_compute. reflexivity.
  - vm_compute. intros H. discriminate H.
Qed.

(** C1. Overflow: after 65 pushes into an empty queue the pops return
    exactly the first 63 pushed events, in order; [win32_has_events] still
    answers 1 after fewer than 63 pops and answers 0 after exactly 63; the
    64th and 65th events are lost, every further pop returning 0 without
    touching anything. *)
Theorem queue_overflow a w d evs ev :
  heap w !! a = Some d -> queue_wf d -> eventHead d = eventTail d ->
  length evs = 65%nat ->
  exists w1,
    push_all (Some a) evs w = Done (tt, w1) /\
    (forall k, (k < 63)%nat ->
       exists wk,
         pop_n (Some a) k ev w1 = Done (popped (take k evs), wk) /\
         win32_has_events (Some a) wk = Done (1, wk)) /\
    (exists w2,
       pop_n (Some a) 63 ev w1 = Done (popped (take 63 evs), w2) /\
       win32_has_events (Some a) w2 = Done (0, w2) /\
       forall ev', win32_pop_event (Some a) ev' w2 = Done ((0, ev'), w2)).
Proof.
  intros Hd Hwf Hempty Hlen.
  assert (pending d = []) as Hp by (by apply pending_nil).
  destruct (push_all_spec a evs d w Hd Hwf) as (d1 & Hpush & Hwf1 & _ & Hp1).
  rewrite Hp in Hp1. simpl in Hp1.
  exists (poke a d1 w). split; [done|].
  assert (forall k, (k <= 63)%nat ->
    exists dk,
      pop_n (Some a) k ev (poke a d1 w)
        = Done (popped (take k evs), poke a dk w) /\
      queue_wf dk /\ length (pending dk) = (63 - k)%nat) as Hpops.
  { intros k Hk.
    destruct (pop_n_spec a k d1 (poke a d1 w) ev)
      as (dk & Hpop & Hwfk & _ & Hpk).
    { apply heap_poke. }
    { done. }
    { rewrite Hp1, length_take. lia. }
    exists dk. rewrite poke_poke in Hpop.
    rewrite Hp1, take_take in Hpop.
    replace (k `min` 63)%nat with k in Hpop by lia.
    split; [done|]. split; [done|].
    rewrite Hpk, Hp1, length_drop, length_take. lia. }
  split.
  - intros k Hk. destruct (Hpops k) as (dk & Hpop & Hwfk & Hlk); [lia|].
    exists (poke a dk w). split; [done|].
    rewrite (has_events_ok a dk) by apply heap_poke.
    rewrite bool_decide_true; [done|].
    rewrite <- pending_nil by done. intros Hnil. rewrite Hnil in Hlk.
    simpl in Hlk. lia.
  - destruct (Hpops 63%nat) as (d2 & Hpop & Hwf2 & Hl2); [lia|].
    assert (eventHead d2 = eventTail d2) as He2.
    { apply pending_nil; [done|]. apply nil_length_inv. lia. }
    exists (poke a d2 w). split; [done|]. split.
    + rewrite (has_events_ok a d2) by apply heap_poke.
      by rewrite bool_decide_false by tauto.
    + intros ev'. apply pop_empty with d2; [apply heap_poke|done].
Qed.

Lemma queue_overflow_witness :
  exists w1,
    push_all (Some 1%positive) (key_presses 65) fresh_session
      = Done (tt, w1) /\
    (forall k, (k < 63)%nat ->
       exists wk,
         pop_n (Some 1%positive) k zero_event w1
           = Done (popped (take k (key_presses 65)), wk) /\
         win32_has_events (Some 1%positive) wk = Done (1, wk)) /\
    (exists w2,
       pop_n (Some 1%positive) 63 zero_event w1
         = Done (popped (take 63 (key_presses 65)), w2) /\
       win32_has_events (Some 1%positive) w2 = Done (0, w2) /\
       forall ev', win32_pop_event (Some 1%positive) ev' w2
                   = Done ((0, ev'), w2)).
Proof.
  apply (queue_overflow 1%positive fresh_session calloc_Win32Display
           (key_presses 65) zero_event).
  - reflexivity.
  - apply calloc_queue_wf.
  - reflexivity.
  - reflexivity.
Defined.

(** After 65 pushes the 63 first pops succeed and the 64th fails, so 64 pops
    do not return the first 64 events; and [win32_has_events] answers 0
    after 63 pops already. *)
Lemma overflow_loses_two_events :
  result_of
    (push_then_pop (Some 1%positive) (key_presses 65) 64 zero_event)
    fresh_session
  = Some (popped (key_presses 63) ++
          [(0, mkEvent WIN32_EVENT_KEY_PRESS 63 0 0 0 0 0)]) /\
  result_of
    (push_then_pop (Some 1%positive) (key_presses 65) 64 zero_event)
    fresh_session
  <> Some (popped (take 64 (key_presses 65))) /\
  result_of
    (push_then_pop (Some 1%positive) (key_presses 65) 63 zero_event ;;
     win32_has_events (Some 1%positive))
    fresh_session
  = Some 0.
Proof.
  split; [|split].
  - vm_compute. reflexivity.
  - vm_compute. intros H. discriminate H.
  - vm_compute. reflexivity.
Qed.

(** C10. A pop on an empty queue is inert: when [eventHead == eventTail]
    [win32_pop_event] returns 0 and leaves the indices, the array, the rest
    of the store and the caller's event structure as they were; and whenever
    the return value is not 1 it is 0 and the out-parameter has not been
    written. *)
Theorem pop_empty_inert a w d ev :
  heap w !! a = Some d ->
  (eventHead d = eventTail d ->
   win32_pop_event (Some a) ev w = Done ((0, ev), w)) /\
  (forall r ev' w',
     win32_pop_event (Some a) ev w = Done ((r, ev'), w') ->
     r <> 1 -> r = 0 /\ ev' = ev /\ w' = w).
Proof.
  intros Hd. split.
  - intros He. by apply pop_empty with d.
  - intros r ev' w'. unfold win32_pop_event, bind.
    rewrite (load_ok a d) by done.
    destruct (bool_decide (eventHead d = eventTail d)).
    + unfold ret. intros [= <- <- <-]. done.
    + unfold lift. destruct (array_get (events d) (eventHead d)); [|done].
      rewrite (store_ok a d) by done.
      unfold ret. intros [= <- <- <-]. done.
Qed.

Lemma pop_empty_inert_witness :
  win32_pop_event (Some 1%positive) zero_event fresh_session
    = Done ((0, zero_event), fresh_session) /\
  (forall r ev' w',
     win32_pop_event (Some 1%positive) zero_event fresh_session
       = Done ((r, ev'), w') ->
     r <> 1 -> r = 0 /\ ev' = zero_event /\ w' = fresh_session).
Proof.
  destruct (pop_empty_inert 1%positive fresh_session calloc_Win32Display
              zero_event) as [Hinert Hwritten].
  - reflexivity.
  - split; [apply Hinert; reflexivity|exact Hwritten].
Defined.

(** C7. In every state that pushes and pops reach from the initial queue:
    no event is waiting iff [eventHead == eventTail], which is also exactly
    when a pop returns 0; [win32_has_events] returns a non-zero value iff
    [eventHead != eventTail]; and a push that finds the advanced tail equal
    to the head leaves the whole store as it was, dropping the event. *)
Theorem queue_emptiness_invariant a w :
  queue_reachable a w ->
  exists d,
    heap w !! a = Some d /\
    (pending d = [] <-> eventHead d = eventTail d) /\
    (forall ev, exists r ev' w',
       win32_pop_event (Some a) ev w = Done ((r, ev'), w') /\
       (r = 0 <-> eventHead d = eventTail d)) /\
    (exists r,
       win32_has_events (Some a) w = Done (r, w) /\
       (r <> 0 <-> eventHead d <> eventTail d)) /\
    (forall e,
       int_rem (int_add (eventTail d) 1) 64 = eventHead d ->
       win32_push_event (Some a) e w = Done (tt, w)).
Proof.
  intros Hreach. destruct (queue_reachable_wf a w Hreach) as (d & Hd & Hwf).
  exists d. split; [done|]. split; [by apply pending_nil|].
  split; [|split].
  - intros ev. destruct (pending d) as [|e rest] eqn:Hp.
    + assert (eventHead d = eventTail d) as He by (by apply pending_nil).
      exists 0, ev, w. by rewrite (pop_empty a d).
    + destruct (pop_some a d e rest ev w Hd Hwf Hp) as [Hpop _].
      exists 1, e, (poke a (dequeued d) w). split; [done|].
      split; [done|]. intros He. apply pending_nil in He; [|done].
      by rewrite Hp in He.
  - rewrite (has_events_ok a d) by done. eexists. split; [done|].
    case_bool_decide; split; intros; done.
  - intros e Hnext. apply push_full with d; [done..|].
    by apply pending_count_full.
Qed.

Lemma queue_emptiness_invariant_witness :
  exists d,
    heap fresh_session !! 1%positive = Some d /\
    (pending d = [] <-> eventHead d = eventTail d) /\
    (forall ev, exists r ev' w',
       win32_pop_event (Some 1%positive) ev fresh_session
         = Done ((r, ev'), w') /\
       (r = 0 <-> eventHead d = eventTail d)) /\
    (exists r,
       win32_has_events (Some 1%positive) fresh_session
         = Done (r, fresh_session) /\
       (r <> 0 <-> eventHead d <> eventTail d)) /\
    (forall e,
       int_rem (int_add (eventTail d) 1) 64 = eventHead d ->
       win32_push_event (Some 1%positive) e fresh_session
         = Done (tt, fresh_session)).
Proof.
  apply (queue_emptiness_invariant 1%positive fresh_session).
  apply fresh_session_reachable.
Defined.

(** C9. The array has 64 slots but at most 63 events wait at any time: in
    every reachable state [(eventTail - eventHead) mod 64], which is the
    number of waiting events, is at most 63, and a push made while 63 events
    wait is dropped, leaving the store as it was. *)
Theorem queue_effective_capacity a w :
  queue_reachable a w ->
  exists d,
    heap w !! a = Some d /\
    Z.of_nat (length (pending d)) = (eventTail d - eventHead d) mod 64 /\
    (eventTail d - eventHead d) mod 64 <= 63 /\
    (forall e,
       (eventTail d - eventHead d) mod 64 = 63 ->
       win32_push_event (Some a) e w = Done (tt, w)).
Proof.
  intros Hreach. destruct (queue_reachable_wf a w Hreach) as (d & Hd & Hwf).
  pose proof (pending_count_range d) as Hr.
  exists d. split; [done|]. fold (pending_count d). split; [|split].
  - rewrite length_pending. lia.
  - lia.
  - intros e Hfull. by apply push_full with d.
Qed.

Lemma queue_effective_capacity_witness :
  exists d,
    heap full_session !! 1%positive = Some d /\
    Z.of_nat (length (pending d)) = (eventTail d - eventHead d) mod 64 /\
    (eventTail d - eventHead d) mod 64 <= 63 /\
    (forall e,
       (eventTail d - eventHead d) mod 64 = 63 ->
       win32_push_event (Some 1%positive) e full_session
         = Done (tt, full_session)).
Proof.
  apply (queue_effective_capacity 1%positive full_session).
  apply full_session_reachable.
Defined.

(** ** The display session *)



(** C4. The calls that guard their arguments: [win32_blit_pixels] with a
    null session or a null pixel buffer, and [win32_destroy_window] with a
    null session, finish without touching the store. *)
Theorem guarded_null_arguments w :
  (forall src, win32_blit_pixels None src w = Done (tt, w)) /\
  (forall disp, win32_blit_pixels disp None w = Done (tt, w)) /\
  win32_destroy_window None w = Done (tt, w).
Proof.
  split; [|split].
  - intros src. reflexivity.
  - intros [a|]; reflexivity.
  - reflexivity.
Qed.

(** The other calls read through the session pointer without a check: on a
    null session they fault. *)
Lemma null_session_faults :
  win32_has_events None fresh_session = Fault /\
  win32_pop_event None zero_event fresh_session = Fault /\
  win32_process_events None [] fresh_session = Fault /\
  win32_get_mouse None (Some 0) (Some 0) fresh_session = Fault /\
  win32_should_close None fresh_session = Fault.
Proof. repeat split. Qed.

(** C6. On a session whose pixel pointer is valid and whose surface has
    [width * height * 4] bytes, that count fitting a C [int], a blit of a
    buffer of the same length finishes and leaves the off-screen surface
    equal to the buffer, byte for byte; when both device contexts exist the
    window shows the same bytes. *)
Theorem blit_round_trip a w d surface buf :
  heap w !! a = Some d ->
  pixels d = Some surface ->
  Z.of_nat (length surface) = width d * height d * 4 ->
  Z.of_nat (length buf) = width d * height d * 4 ->
  width d * height d * 4 <= INT_MAX ->
  exists w' d',
    win32_blit_pixels (Some a) (Some buf) w = Done (tt, w') /\
    heap w' !! a = Some d' /\
    pixels d' = Some buf /\
    (hdc d <> 0 -> memDC d <> 0 -> screen w' !! hwnd d = Some buf).
Proof.
  intros Hd Hpix Hsurf Hbuf Hfit.
  assert (size_t_of_int (int_mul (int_mul (width d) (height d)) 4)
          = Z.of_nat (length buf)) as Hn.
  { unfold size_t_of_int, int_mul, INT_MAX in *.
    rewrite (wrap_int_id (width d * height d))
      by (unfold in_int, INT_MIN, INT_MAX; lia).
    rewrite wrap_int_id by (unfold in_int, INT_MIN, INT_MAX; lia).
    rewrite Z.mod_small; lia. }
  assert (memcpy (pixels d) buf (Z.of_nat (length buf)) = Done (Some buf))
    as Hcpy.
  { rewrite Hpix. apply memcpy_whole. lia. }
  rewrite (blit_run a d) by done. rewrite Hn, Hcpy.
  unfold BitBlt. case_bool_decide as Hdc.
  - eexists _, _. split; [reflexivity|]. simpl.
    rewrite !lookup_insert_eq. done.
  - eexists _, _. split; [reflexivity|]. simpl.
    rewrite lookup_insert_eq. repeat split. intros. tauto.
Qed.

Lemma blit_round_trip_witness :
  exists w' d',
    win32_blit_pixels (Some 1%positive) (Some small_frame) small_session
      = Done (tt, w') /\
    heap w' !! 1%positive = Some d' /\
    pixels d' = Some small_frame /\
    (hdc small_display <> 0 -> memDC small_display <> 0 ->
     screen w' !! hwnd small_display = Some small_frame).
Proof.
  apply (blit_round_trip 1%positive small_session small_display
           [x00; x00; x00; x00; x00; x00; x00; x00] small_frame).
  - reflexivity.
  - reflexivity.
  - reflexivity.
  - reflexivity.
  - vm_compute. discriminate.
Defined.

Lemma huge_count_value : Z.of_nat huge_count = 4294967296.
Proof. unfold huge_count. rewrite Z2Nat.id by (intro H; discriminate H). reflexivity. Qed.

Lemma replicate_differ (n : nat) :
  n <> 0%nat -> Some (replicate n x00) <> Some (replicate n x01).
Proof.
  destruct n as [|k]; [congruence|]. intros _ Heq.
  simpl in Heq. injection Heq as Hbyte _. discriminate Hbyte.
Qed.

(** On a 65536 by 16384 session the byte count [width * height * 4] is 2^32
    and wraps to 0 in [int] arithmetic: the surface and the frame both have
    2^32 bytes, the blit finishes, and the surface is still black, not equal
    to the frame (C6, the case left out by the bound on the byte count). *)
Lemma blit_count_wraps :
  pixels huge_display = Some (replicate huge_count x00) /\
  Z.of_nat (length (replicate huge_count x00))
    = width huge_display * height huge_display * 4 /\
  Z.of_nat (length huge_frame)
    = width huge_display * height huge_display * 4 /\
  exists w' d',
    win32_blit_pixels (Some 1%positive) (Some huge_frame) huge_session
      = Done (tt, w') /\
    heap w' !! 1%positive = Some d' /\
    pixels d' = Some (replicate huge_count x00) /\
    pixels d' <> Some huge_frame.
Proof.
  pose proof huge_count_value as Hcount.
  split; [reflexivity|].
  split. { rewrite length_replicate, Hcount. reflexivity. }
  split. { unfold huge_frame. rewrite length_replicate, Hcount. reflexivity. }
  assert (heap huge_session !! 1%positive = Some huge_display) as Hd
    by reflexivity.
  rewrite (blit_run 1%positive huge_display) by exact Hd.
  change (size_t_of_int
            (int_mul (int_mul (width huge_display) (height huge_display)) 4))
    with 0.
  change (memcpy (pixels huge_display) huge_frame 0)
    with (@Done (option (list byte)) (pixels huge_display)).
  destruct (BitBlt_ok (hwnd huge_display) (hdc huge_display)
              (memDC huge_display) (pixels huge_display)
              (poke 1%positive
                 (set_pixels (pixels huge_display) huge_display)
                 huge_session))
    as (w' & Hblt & Hheap & _).
  exists w', (set_pixels (pixels huge_display) huge_display).
  split; [exact Hblt|].
  split. { rewrite Hheap. apply heap_poke. }
  split; [reflexivity|].
  change (pixels (set_pixels (pixels huge_display) huge_display))
    with (Some (replicate huge_count x00)).
  unfold huge_frame. apply replicate_differ.
  intros Hz. rewrite Hz in Hcount. discriminate Hcount.
Qed.

(** ** The message translator *)

(** C3. The position [win32_get_mouse] reports after any run of
    notifications is the one carried by the most recent [WM_MOUSEMOVE] of
    the run, or the position held before when the run has no move; press and
    release notifications do not change it.  This holds for every state of
    the queue, so also when the events of the run were dropped. *)
Theorem mouse_position_follows_moves a w d notes x y :
  g_display w = Some a -> heap w !! a = Some d -> queue_wf d ->
  exists w',
    (translate_all notes ;; win32_get_mouse (Some a) (Some x) (Some y)) w
    = Done ((Some (fst (last_move notes (mouseX d, mouseY d))),
             Some (snd (last_move notes (mouseX d, mouseY d)))), w').
Proof.
  intros Hg Hd Hwf.
  destruct (translate_all_live a notes d w Hg Hd Hwf)
    as (d' & w' & Hrun & _ & Hd' & _ & _ & Hpos).
  exists w'. unfold bind. rewrite Hrun.
  rewrite (get_mouse_ok a d') by done. by rewrite <- Hpos.
Qed.

Lemma mouse_position_follows_moves_witness :
  exists w',
    (translate_all
       [mkMSG 7 WM_MOUSEMOVE 0 (1 + 2 * 65536);
        mkMSG 7 WM_LBUTTONDOWN 1 (10 + 20 * 65536)] ;;
     win32_get_mouse (Some 1%positive) (Some 0) (Some 0)) fresh_session
    = Done ((Some 1, Some 2), w').
Proof.
  apply (mouse_position_follows_moves 1%positive fresh_session
           calloc_Win32Display
           [mkMSG 7 WM_MOUSEMOVE 0 (1 + 2 * 65536);
            mkMSG 7 WM_LBUTTONDOWN 1 (10 + 20 * 65536)] 0 0).
  - reflexivity.
  - reflexivity.
  - apply calloc_queue_wf.
Defined.

(** On the session whose queue is full the event of a move is dropped (the
    pops that follow return the 63 key presses and nothing else), and the
    position follows the move all the same. *)
Example move_on_full_queue :
  result_of
    (translate_all [mkMSG 7 WM_MOUSEMOVE 0 (1 + 2 * 65536)] ;;
     win32_get_mouse (Some 1%positive) (Some 0) (Some 0)) full_session
  = Some (Some 1, Some 2) /\
  result_of
    (translate_all [mkMSG 7 WM_MOUSEMOVE 0 (1 + 2 * 65536)] ;;
     pop_n (Some 1%positive) 64 zero_event) full_session
  = Some (popped (key_presses 63) ++
          [(0, mkEvent WIN32_EVENT_KEY_PRESS 63 0 0 0 0 0)]).
Proof. split; vm_compute; reflexivity. Qed.

(** A press at (10, 20) following a move to (1, 2): the most recent
    notification carries (10, 20), yet [win32_get_mouse] reports (1, 2). *)
Lemma press_leaves_position :
  LOWORD (10 + 20 * 65536) = 10 /\
  HIWORD (10 + 20 * 65536) = 20 /\
  result_of
    (translate_all
       [mkMSG 7 WM_MOUSEMOVE 0 (1 + 2 * 65536);
        mkMSG 7 WM_LBUTTONDOWN 1 (10 + 20 * 65536)] ;;
     win32_get_mouse (Some 1%positive) (Some 0) (Some 0)) fresh_session
  = Some (Some 1, Some 2).
Proof. repeat split; vm_compute; reflexivity. Qed.

(** C8. On a live session, the press notification of button [b] (1 left,
    2 middle, 3 right) sets the bit of that button in [mouseButtons] (mask
    [2^(b-1)]: 1, 2 and 4), leaves every other bit as it was, and pushes a
    [WIN32_EVENT_MOUSE_PRESS] event with button [b] and the position of the
    notification, which joins the waiting events at the tail unless the
    queue is full; the release notification clears that bit, leaves the
    others, and pushes the matching [WIN32_EVENT_MOUSE_RELEASE] event. *)
Theorem mouse_button_translation a w d b h wp lp :
  g_display w = Some a -> heap w !! a = Some d -> queue_wf d ->
  1 <= b <= 3 ->
  (exists d',
     win32_window_proc h (button_down_message b) wp lp w
       = Done (0, poke a d' w) /\
     Z.testbit (mouseButtons d') (b - 1) = true /\
     (forall i, i <> b - 1 ->
        Z.testbit (mouseButtons d') i = Z.testbit (mouseButtons d) i) /\
     pending d' =
       if bool_decide (pending_count d < 63)
       then pending d ++
            [mkEvent WIN32_EVENT_MOUSE_PRESS 0 b (LOWORD lp) (HIWORD lp) 0 0]
       else pending d) /\
  (exists d',
     win32_window_proc h (button_up_message b) wp lp w
       = Done (0, poke a d' w) /\
     Z.testbit (mouseButtons d') (b - 1) = false /\
     (forall i, i <> b - 1 ->
        Z.testbit (mouseButtons d') i = Z.testbit (mouseButtons d) i) /\
     pending d' =
       if bool_decide (pending_count d < 63)
       then pending d ++
            [mkEvent WIN32_EVENT_MOUSE_RELEASE 0 b (LOWORD lp) (HIWORD lp) 0 0]
       else pending d).
Proof.
  intros Hg Hd Hwf Hb.
  assert (b = 1 \/ b = 2 \/ b = 3) as [-> | [-> | ->]] by lia.
  all: split.
  all: eexists; split;
    [ match goal with
      | |- win32_window_proc _ ?m _ _ _ = _ =>
          let m' := eval vm_compute in m in change m with m'
      end;
      unfold win32_window_proc; unfold bind at 1; unfold read_g_display;
      rewrite Hg; cbv zeta; unfold when_nonnull;
      repeat case_bool_decide; try msg_clash;
      apply (update_push_ret_ok a d); [done|exact Hwf]
    | ].
  all: rewrite mouseButtons_pushed, pending_pushed by exact Hwf.
  all: split; [|split; [|reflexivity]].
  all: cbn beta; cbn [mouseButtons set_mouseButtons].
  - change 1 with (2 ^ 0) at 1. rewrite set_bit_spec by lia.
    apply orb_true_r.
  - intros i Hi. change 1 with (2 ^ 0) at 1. rewrite set_bit_spec by lia.
    rewrite (proj2 (Z.eqb_neq 0 i)) by lia. apply orb_false_r.
  - change 1 with (2 ^ 0) at 1. rewrite clear_bit_spec by lia.
    apply andb_false_r.
  - intros i Hi. change 1 with (2 ^ 0) at 1. rewrite clear_bit_spec by lia.
    rewrite (proj2 (Z.eqb_neq 0 i)) by lia. apply andb_true_r.
  - change 2 with (2 ^ 1) at 1. rewrite set_bit_spec by lia.
    apply orb_true_r.
  - intros i Hi. change 2 with (2 ^ 1) at 1. rewrite set_bit_spec by lia.
    rewrite (proj2 (Z.eqb_neq 1 i)) by lia. apply orb_false_r.
  - change 2 with (2 ^ 1) at 1. rewrite clear_bit_spec by lia.
    apply andb_false_r.
  - intros i Hi. change 2 with (2 ^ 1) at 1. rewrite clear_bit_spec by lia.
    rewrite (proj2 (Z.eqb_neq 1 i)) by lia. apply andb_true_r.
  - change 4 with (2 ^ 2) at 1. rewrite set_bit_spec by lia.
    apply orb_true_r.
  - intros i Hi. change 4 with (2 ^ 2) at 1. rewrite set_bit_spec by lia.
    rewrite (proj2 (Z.eqb_neq 2 i)) by lia. apply orb_false_r.
  - change 4 with (2 ^ 2) at 1. rewrite clear_bit_spec by lia.
    apply andb_false_r.
  - intros i Hi. change 4 with (2 ^ 2) at 1. rewrite clear_bit_spec by lia.
    rewrite (proj2 (Z.eqb_neq 2 i)) by lia. apply andb_true_r.
Qed.

Lemma mouse_button_translation_witness :
  (exists d',
     win32_window_proc 7 (button_down_message 1) 1 (10 + 20 * 65536)
       fresh_session
       = Done (0, poke 1%positive d' fresh_session) /\
     Z.testbit (mouseButtons d') (1 - 1) = true /\
     (forall i, i <> 1 - 1 ->
        Z.testbit (mouseButtons d') i
        = Z.testbit (mouseButtons calloc_Win32Display) i) /\
     pending d' =
       if bool_decide (pending_count calloc_Win32Display < 63)
       then pending calloc_Win32Display ++
            [mkEvent WIN32_EVENT_MOUSE_PRESS 0 1
               (LOWORD (10 + 20 * 65536)) (HIWORD (10 + 20 * 65536)) 0 0]
       else pending calloc_Win32Display) /\
  (exists d',
     win32_window_proc 7 (button_up_message 1) 1 (10 + 20 * 65536)
       fresh_session
       = Done (0, poke 1%positive d' fresh_session) /\
     Z.testbit (mouseButtons d') (1 - 1) = false /\
     (forall i, i <> 1 - 1 ->
        Z.testbit (mouseButtons d') i
        = Z.testbit (mouseButtons calloc_Win32Display) i) /\
     pending d' =
       if bool_decide (pending_count calloc_Win32Display < 63)
       then pending calloc_Win32Display ++
            [mkEvent WIN32_EVENT_MOUSE_RELEASE 0 1
               (LOWORD (10 + 20 * 65536)) (HIWORD (10 + 20 * 65536)) 0 0]
       else pending calloc_Win32Display).
Proof.
  apply (mouse_button_translation 1%positive fresh_session
           calloc_Win32Display 1 7 1 (10 + 20 * 65536)).
  - reflexivity.
  - reflexivity.
  - apply calloc_queue_wf.
  - lia.
Defined.

(** C8, the case of a full queue. On the session with 63 events waiting the
    press of the left button at (10, 20) sets bit 0 of [mouseButtons], and no
    [WIN32_EVENT_MOUSE_PRESS] event joins the queue: the 64 pops that follow
    return the 63 key presses, then fail. *)
Lemma press_on_full_queue :
  result_of
    (win32_window_proc 7 (button_down_message 1) 1 (10 + 20 * 65536) ;;
     do d <- load (Some 1%positive); ret (mouseButtons d)) full_session
  = Some 1 /\
  result_of
    (win32_window_proc 7 (button_down_message 1) 1 (10 + 20 * 65536) ;;
     pop_n (Some 1%positive) 64 zero_event) full_session
  = Some (popped (key_presses 63) ++
          [(0, mkEvent WIN32_EVENT_KEY_PRESS 63 0 0 0 0 0)]) /\
  result_of
    (win32_window_proc 7 (button_down_message 1) 1 (10 + 20 * 65536) ;;
     pop_n (Some 1%positive) 64 zero_event) full_session
  <> Some (popped (key_presses 63 ++
                   [mkEvent WIN32_EVENT_MOUSE_PRESS 0 1 10 20 0 0])).
Proof.
  split; [|split].
  - vm_compute. reflexivity.
  - vm_compute. reflexivity.
  - vm_compute. intros H. discriminate H.
Qed.

(** * Further properties *)

(** ** The queue as a bounded first-in first-out list *)

Lemma outside_queue_pushed e d : outside_queue (pushed e d) = outside_queue d.
Proof. unfold pushed. by case_bool_decide. Qed.

(** X1. Any interleaving of pushes and pops on a well-formed queue behaves
    as the same script on a first-in first-out list bounded to 63 elements:
    the pops return the same values, the events left waiting are the list
    left, the indices stay in range and nothing outside the queue changes. *)
Theorem queue_refines_bounded_fifo a ops : forall d w ev,
  heap w !! a = Some d -> queue_wf d ->
  exists d',
    run_queue_ops (Some a) ops ev w
      = Done (fst (fifo_ops (pending d) ops ev), poke a d' w) /\
    queue_wf d' /\
    pending d' = snd (fifo_ops (pending d) ops ev) /\
    outside_queue d' = outside_queue d.
Proof.
  induction ops as [|[e|] ops IH]; intros d w ev Hd Hwf.
  - exists d. rewrite (poke_id a d) by done. done.
  - destruct (IH (pushed e d) (poke a (pushed e d) w) ev)
      as (d' & Hrun & Hwf' & Hp' & Hout').
    { apply heap_poke. }
    { by apply queue_wf_pushed. }
    exists d'. rewrite poke_poke in Hrun.
    assert (pending (pushed e d)
            = if bool_decide (length (pending d) < 63)%nat
              then pending d ++ [e] else pending d) as Hpush.
    { rewrite pending_pushed by done. rewrite length_pending.
      pose proof (pending_count_range d).
      repeat case_bool_decide; (done || lia). }
    simpl. unfold bind. rewrite (push_ok a d) by done.
    rewrite Hrun, Hp', Hpush.
    by rewrite Hout', outside_queue_pushed.
  - destruct (pending d) as [|e rest] eqn:Hp.
    + destruct (IH d w ev Hd Hwf) as (d' & Hrun & Hwf' & Hp' & Hout').
      exists d'. simpl. unfold bind.
      rewrite (pop_empty a d) by (done || by apply pending_nil).
      simpl. rewrite Hrun, Hp', Hp.
      by destruct (fifo_ops [] ops ev).
    + destruct (pop_some a d e rest ev w Hd Hwf Hp) as [Hpop Hrest].
      destruct (IH (dequeued d) (poke a (dequeued d) w) e)
        as (d' & Hrun & Hwf' & Hp' & Hout').
      { apply heap_poke. }
      { by apply queue_wf_dequeued. }
      exists d'. rewrite poke_poke in Hrun.
      simpl. unfold bind. rewrite Hpop. simpl.
      rewrite Hrun, Hp', Hrest.
      by destruct (fifo_ops rest ops e).
Qed.

Lemma queue_refines_bounded_fifo_witness :
  exists d',
    run_queue_ops (Some 1%positive)
      (map op_push (key_presses 2) ++ [op_pop] ++
       map op_push (key_presses 3) ++ [op_pop; op_pop])
      zero_event fresh_session
      = Done (fst (fifo_ops (pending calloc_Win32Display)
                     (map op_push (key_presses 2) ++ [op_pop] ++
                      map op_push (key_presses 3) ++ [op_pop; op_pop])
                     zero_event),
              poke 1%positive d' fresh_session) /\
    queue_wf d' /\
    pending d' = snd (fifo_ops (pending calloc_Win32Display)
                        (map op_push (key_presses 2) ++ [op_pop] ++
                         map op_push (key_presses 3) ++ [op_pop; op_pop])
                        zero_event) /\
    outside_queue d' = outside_queue calloc_Win32Display.
Proof.
  apply (queue_refines_bounded_fifo 1%positive
           (map op_push (key_presses 2) ++ [op_pop] ++
            map op_push (key_presses 3) ++ [op_pop; op_pop])
           calloc_Win32Display fresh_session zero_event).
  - reflexivity.
  - apply calloc_queue_wf.
Defined.

(** ** The window procedure, message by message *)

Lemma surface_of_pushed e d : surface_of (pushed e d) = surface_of d.
Proof. unfold pushed. by case_bool_decide. Qed.

(** What one message does to the live session reached through
    [g_display]. *)
Lemma window_proc_step m a d w :
  g_display w = Some a -> heap w !! a = Some d -> queue_wf d ->
  exists d' w',
    win32_window_proc (msg_hwnd m) (message m) (wParam m) (lParam m) w
      = Done (0, w') /\
    heap w' = <[a := d']> (heap w) /\
    g_display w' = Some a /\
    queue_wf d' /\
    pending d' =
      match translated_event m with
      | Some e =>
          if bool_decide (pending_count d < 63) then pending d ++ [e]
          else pending d
      | None => pending d
      end /\
    surface_of d' = surface_of d /\
    shouldClose d' =
      if bool_decide (message m = WM_CLOSE) then 1 else shouldClose d.
Proof.
  intros Hg Hd Hwf.
  unfold win32_window_proc, translated_event.
  unfold bind at 1. unfold read_g_display. rewrite Hg.
  cbv zeta.
  set (room := bool_decide (pending_count d < 63)).
  repeat case_bool_decide; try msg_clash; unfold when_nonnull.
  all: try (eexists _, _; split;
            [apply (update_push_ret_ok a d); [done|exact Hwf]|];
            split; [reflexivity|];
            rewrite shouldClose_pushed, surface_of_pushed;
            rewrite pending_pushed by exact Hwf;
            refine (conj Hg (conj _ (conj _ (conj _ _))));
            [apply queue_wf_pushed; exact Hwf|reflexivity..]).
  all: try (eexists _, _; split;
            [apply (push_ret_ok a d); done|];
            split; [reflexivity|];
            rewrite shouldClose_pushed, surface_of_pushed;
            rewrite pending_pushed by exact Hwf;
            refine (conj Hg (conj _ (conj _ (conj _ _))));
            [by apply queue_wf_pushed|reflexivity..]).
  - exists d, (set_quit_posted true w).
    refine (conj eq_refl (conj _
              (conj Hg (conj Hwf (conj eq_refl (conj eq_refl eq_refl)))))).
    simpl. symmetry. by apply insert_id.
  - eexists _, _. split.
    { unfold bind. rewrite (update_ok a d) by done.
      erewrite update_ok by apply heap_poke.
      erewrite push_ok by (apply heap_poke || exact Hwf).
      rewrite !poke_poke. reflexivity. }
    split; [reflexivity|].
    rewrite shouldClose_pushed, surface_of_pushed.
    rewrite pending_pushed by exact Hwf.
    refine (conj Hg (conj _ (conj _ (conj _ _))));
      [apply queue_wf_pushed; exact Hwf|reflexivity..].
  - assert (exists w', (do hdc' <- BeginPaint (msg_hwnd m);
                        (do d0 <- load (Some a);
                         if bool_decide (memDC d0 <> 0)
                         then BitBlt (msg_hwnd m) hdc' (memDC d0) (pixels d0)
                         else ret tt) ;; ret 0) w = Done (0, w') /\
                       heap w' = heap w /\ g_display w' = g_display w)
      as (w' & Hrun & Hheap & Hg').
    { unfold bind, BeginPaint, ret. rewrite (load_ok a d) by done.
      unfold BitBlt.
      destruct (bool_decide (memDC d <> 0)); [|by eexists].
      destruct (pixels d); [|by eexists].
      case_bool_decide; by eexists. }
    exists d, w'. rewrite Hheap, Hg'.
    refine (conj Hrun (conj _
              (conj Hg (conj Hwf (conj eq_refl (conj eq_refl eq_refl)))))).
    symmetry. by apply insert_id.
  - exists d, w.
    refine (conj eq_refl (conj _
              (conj Hg (conj Hwf (conj eq_refl (conj eq_refl eq_refl)))))).
    symmetry. by apply insert_id.
Qed.

(** What a run of notifications does to the live session reached through
    [g_display]. *)
Lemma translate_all_step a notes : forall d w,
  g_display w = Some a -> heap w !! a = Some d -> queue_wf d ->
  exists d' w',
    translate_all notes w = Done (tt, w') /\
    heap w' = <[a := d']> (heap w) /\
    g_display w' = Some a /\
    queue_wf d' /\
    pending d' =
      pending d ++
      take (63 - length (pending d)) (omap translated_event notes) /\
    surface_of d' = surface_of d /\
    shouldClose d' = if close_requested notes then 1 else shouldClose d.
Proof.
  induction notes as [|m notes IH]; intros d w Hg Hd Hwf.
  - exists d, w. simpl. rewrite take_nil, app_nil_r.
    refine (conj eq_refl (conj _
              (conj Hg (conj Hwf (conj eq_refl (conj eq_refl eq_refl)))))).
    symmetry. by apply insert_id.
  - destruct (window_proc_step m a d w Hg Hd Hwf)
      as (d1 & w1 & Hrun1 & Hheap1 & Hg1 & Hwf1 & Hp1 & Hs1 & Hc1).
    assert (heap w1 !! a = Some d1) as Hd1
      by (rewrite Hheap1; apply lookup_insert_eq).
    destruct (IH d1 w1 Hg1 Hd1 Hwf1)
      as (d' & w' & Hrun & Hheap & Hg' & Hwf' & Hp' & Hs' & Hc').
    exists d', w'. split.
    { simpl. unfold bind. by rewrite Hrun1. }
    split. { by rewrite Hheap, Hheap1, insert_insert_eq. }
    split; [done|]. split; [done|].
    split; [|split].
    + rewrite Hp', Hp1.
      change (omap translated_event (m :: notes))
        with (match translated_event m with
              | Some e => e :: omap translated_event notes
              | None => omap translated_event notes
              end).
      pose proof (pending_count_range d) as Hr.
      pose proof (length_pending d) as Hlen.
      destruct (translated_event m) as [e|]; [|done].
      destruct (decide (pending_count d < 63)) as [Hroom|Hfull].
      * rewrite !bool_decide_true by done.
        rewrite length_app; simpl.
        replace (63 - length (pending d))%nat
          with (S (63 - (length (pending d) + 1)))%nat by lia.
        by rewrite <- app_assoc.
      * rewrite !bool_decide_false by done.
        replace (63 - length (pending d))%nat with 0%nat by lia.
        done.
    + by rewrite Hs', Hs1.
    + rewrite Hc', Hc1. unfold close_requested. simpl.
      case_bool_decide; simpl; [|done].
      by destruct (existsb _ notes).
Qed.

(** X2. The events of a run of notifications reach the application in
    arrival order: after the run, popping as many times as events are
    waiting returns the events that waited before, followed by the events
    translated from the notifications, in their order, up to the room the
    queue had. *)
Theorem translator_keeps_arrival_order a w d notes ev :
  g_display w = Some a -> heap w !! a = Some d -> queue_wf d ->
  exists w',
    (translate_all notes ;;
     pop_n (Some a)
       (length (pending d ++
                take (63 - length (pending d))
                  (omap translated_event notes)))
       ev) w
    = Done (popped (pending d ++
                    take (63 - length (pending d))
                      (omap translated_event notes)), w').
Proof.
  intros Hg Hd Hwf.
  destruct (translate_all_step a notes d w Hg Hd Hwf)
    as (d' & w' & Hrun & Hheap & _ & Hwf' & Hp' & _).
  assert (heap w' !! a = Some d') as Hd'
    by (rewrite Hheap; apply lookup_insert_eq).
  destruct (pop_n_spec a (length (pending d')) d' w' ev Hd' Hwf')
    as (d2 & Hpop & _); [done|].
  rewrite firstn_all in Hpop. rewrite Hp' in Hpop.
  eexists. unfold bind. rewrite Hrun. exact Hpop.
Qed.

Lemma translator_keeps_arrival_order_witness :
  exists w',
    (translate_all
       [mkMSG 7 WM_KEYDOWN 65 0; mkMSG 7 WM_PAINT 0 0;
        mkMSG 7 WM_SIZE 0 (320 + 240 * 65536); mkMSG 7 WM_KEYUP 65 0] ;;
     pop_n (Some 1%positive)
       (length (pending calloc_Win32Display ++
                take (63 - length (pending calloc_Win32Display))
                  (omap translated_event
                     [mkMSG 7 WM_KEYDOWN 65 0; mkMSG 7 WM_PAINT 0 0;
                      mkMSG 7 WM_SIZE 0 (320 + 240 * 65536);
                      mkMSG 7 WM_KEYUP 65 0])))
       zero_event) fresh_session
    = Done (popped (pending calloc_Win32Display ++
                    take (63 - length (pending calloc_Win32Display))
                      (omap translated_event
                         [mkMSG 7 WM_KEYDOWN 65 0; mkMSG 7 WM_PAINT 0 0;
                          mkMSG 7 WM_SIZE 0 (320 + 240 * 65536);
                          mkMSG 7 WM_KEYUP 65 0])), w').
Proof.
  apply (translator_keeps_arrival_order 1%positive fresh_session
           calloc_Win32Display
           [mkMSG 7 WM_KEYDOWN 65 0; mkMSG 7 WM_PAINT 0 0;
            mkMSG 7 WM_SIZE 0 (320 + 240 * 65536); mkMSG 7 WM_KEYUP 65 0]
           zero_event).
  - reflexivity.
  - reflexivity.
  - apply calloc_queue_wf.
Defined.

(** X3. A close request always reaches the flag: after a run of
    notifications [win32_should_close] returns 1 when the run holds a
    [WM_CLOSE], whatever room the queue had for the close event, and returns
    the flag as it was when the run holds none. *)
Theorem close_request_reaches_flag a w d notes :
  g_display w = Some a -> heap w !! a = Some d -> queue_wf d ->
  exists w',
    (translate_all notes ;; win32_should_close (Some a)) w
    = Done (if close_requested notes then 1 else shouldClose d, w').
Proof.
  intros Hg Hd Hwf.
  destruct (translate_all_step a notes d w Hg Hd Hwf)
    as (d' & w' & Hrun & Hheap & _ & _ & _ & _ & Hc).
  assert (heap w' !! a = Some d') as Hd'
    by (rewrite Hheap; apply lookup_insert_eq).
  exists w'. unfold bind. rewrite Hrun.
  unfold win32_should_close, bind. rewrite (load_ok a d') by done.
  by rewrite Hc.
Qed.

Lemma close_request_reaches_flag_witness :
  exists w',
    (translate_all [mkMSG 7 WM_KEYDOWN 65 0; mkMSG 7 WM_CLOSE 0 0] ;;
     win32_should_close (Some 1%positive)) fresh_session
    = Done (1, w').
Proof.
  apply (close_request_reaches_flag 1%positive fresh_session
           calloc_Win32Display
           [mkMSG 7 WM_KEYDOWN 65 0; mkMSG 7 WM_CLOSE 0 0]).
  - reflexivity.
  - reflexivity.
  - apply calloc_queue_wf.
Defined.

(** ** The surface *)

(** A blit of a buffer of the expected length on a live session. *)
Lemma blit_copies a d surface buf w :
  heap w !! a = Some d ->
  pixels d = Some surface ->
  Z.of_nat (length surface) = width d * height d * 4 ->
  Z.of_nat (length buf) = width d * height d * 4 ->
  width d * height d * 4 <= INT_MAX ->
  exists w',
    win32_blit_pixels (Some a) (Some buf) w = Done (tt, w') /\
    heap w' = <[a := set_pixels (Some buf) d]> (heap w) /\
    g_display w' = g_display w.
Proof.
  intros Hd Hpix Hsurf Hbuf Hfit.
  assert (size_t_of_int (int_mul (int_mul (width d) (height d)) 4)
          = Z.of_nat (length buf)) as Hn.
  { unfold size_t_of_int, int_mul, INT_MAX in *.
    rewrite (wrap_int_id (width d * height d))
      by (unfold in_int, INT_MIN, INT_MAX; lia).
    rewrite wrap_int_id by (unfold in_int, INT_MIN, INT_MAX; lia).
    rewrite Z.mod_small; lia. }
  assert (memcpy (pixels d) buf (Z.of_nat (length buf)) = Done (Some buf))
    as Hcpy.
  { rewrite Hpix. apply memcpy_whole. lia. }
  rewrite (blit_run a d) by done. rewrite Hn, Hcpy.
  destruct (BitBlt_ok (hwnd d) (hdc d) (memDC d) (Some buf)
              (poke a (set_pixels (Some buf) d) w))
    as (w' & Hblt & Hheap & Hg).
  exists w'. by rewrite Hblt.
Qed.

Lemma surface_of_fields d1 d :
  surface_of d1 = surface_of d ->
  width d1 = width d /\ height d1 = height d /\ pixels d1 = pixels d.
Proof. unfold surface_of. intros H. by simplify_eq. Qed.

(** X4. No notification resizes the surface: after any run of notifications,
    [WM_SIZE] included, the session has the width, the height and the
    surface it had, so a following blit still copies the [width * height *
    4] bytes of the size given at creation. *)
Theorem resize_keeps_surface a w d notes surface buf :
  g_display w = Some a -> heap w !! a = Some d -> queue_wf d ->
  pixels d = Some surface ->
  Z.of_nat (length surface) = width d * height d * 4 ->
  Z.of_nat (length buf) = width d * height d * 4 ->
  width d * height d * 4 <= INT_MAX ->
  exists w1 d1 w2 d2,
    translate_all notes w = Done (tt, w1) /\
    heap w1 !! a = Some d1 /\
    surface_of d1 = surface_of d /\
    win32_blit_pixels (Some a) (Some buf) w1 = Done (tt, w2) /\
    heap w2 !! a = Some d2 /\
    width d2 = width d /\ height d2 = height d /\ pixels d2 = Some buf.
Proof.
  intros Hg Hd Hwf Hpix Hsurf Hbuf Hfit.
  destruct (translate_all_step a notes d w Hg Hd Hwf)
    as (d1 & w1 & Hrun & Hheap & _ & _ & _ & Hs & _).
  assert (heap w1 !! a = Some d1) as Hd1
    by (rewrite Hheap; apply lookup_insert_eq).
  destruct (surface_of_fields d1 d Hs) as (Hw & Hh & Hp).
  destruct (blit_copies a d1 surface buf w1) as (w2 & Hblit & Hheap2 & _);
    [done|congruence|congruence|congruence|congruence|].
  exists w1, d1, w2, (set_pixels (Some buf) d1).
  split; [done|]. split; [done|]. split; [done|].
  split; [done|]. rewrite Hheap2, lookup_insert_eq. done.
Qed.

Lemma resize_keeps_surface_witness :
  exists w1 d1 w2 d2,
    translate_all [mkMSG 7 WM_SIZE 0 (640 + 480 * 65536)] small_session
      = Done (tt, w1) /\
    heap w1 !! 1%positive = Some d1 /\
    surface_of d1 = surface_of small_display /\
    win32_blit_pixels (Some 1%positive) (Some small_frame) w1
      = Done (tt, w2) /\
    heap w2 !! 1%positive = Some d2 /\
    width d2 = width small_display /\ height d2 = height small_display /\
    pixels d2 = Some small_frame.
Proof.
  apply (resize_keeps_surface 1%positive small_session small_display
           [mkMSG 7 WM_SIZE 0 (640 + 480 * 65536)]
           [x00; x00; x00; x00; x00; x00; x00; x00] small_frame).
  - reflexivity.
  - reflexivity.
  - repeat split; simpl; lia.
  - reflexivity.
  - reflexivity.
  - reflexivity.
  - vm_compute. discriminate.
Defined.

Lemma translate_all_idle notes : forall w,
  g_display w = None ->
  exists w',
    translate_all notes w = Done (tt, w') /\
    heap w' = heap w /\ g_display w' = None.
Proof.
  induction notes as [|m notes IH]; intros w Hg.
  - by exists w.
  - destruct (window_proc_idle (msg_hwnd m) (message m) (wParam m)
                (lParam m) w Hg) as (w1 & Hrun1 & Hheap1 & Hg1).
    destruct (IH w1 Hg1) as (w' & Hrun & Hheap & Hg').
    exists w'. split; [|split; [congruence|done]].
    simpl. unfold bind. by rewrite Hrun1.
Qed.

(** X5. Without an installed session the window procedure drops every
    notification: whatever the messages, no display context changes and
    [g_display] stays null. *)
Theorem notifications_without_session notes w :
  g_display w = None ->
  exists w',
    translate_all notes w = Done (tt, w') /\
    heap w' = heap w /\ g_display w' = None.
Proof. apply translate_all_idle. Qed.

Lemma notifications_without_session_witness :
  exists w',
    translate_all [mkMSG 7 WM_CLOSE 0 0; mkMSG 7 WM_KEYDOWN 65 0]
      (set_g_display None fresh_session) = Done (tt, w') /\
    heap w' = heap (set_g_display None fresh_session) /\
    g_display w' = None.
Proof.
  apply (notifications_without_session
           [mkMSG 7 WM_CLOSE 0 0; mkMSG 7 WM_KEYDOWN 65 0]
           (set_g_display None fresh_session)).
  reflexivity.
Defined.

(** X6. A repaint request shows the off-screen surface in the window when
    the memory context exists, and touches neither the queue nor any other
    part of a display context. *)
Theorem paint_shows_surface h wp lp a d w :
  g_display w = Some a -> heap w !! a = Some d ->
  exists w',
    win32_window_proc h WM_PAINT wp lp w = Done (0, w') /\
    heap w' = heap w /\ g_display w' = g_display w /\
    (forall bits, memDC d <> 0 -> pixels d = Some bits ->
       screen w' !! h = Some bits) /\
    (memDC d = 0 -> w' = w).
Proof.
  intros Hg Hd.
  unfold win32_window_proc. unfold bind at 1. unfold read_g_display.
  rewrite Hg. cbv zeta.
  repeat case_bool_decide; try msg_clash.
  unfold when_nonnull, bind, BeginPaint, ret.
  rewrite (load_ok a d) by done. unfold BitBlt.
  case_bool_decide as Hmem.
  - destruct (pixels d) as [bits|] eqn:Hpix.
    + rewrite bool_decide_true by (split; [lia|done]).
      eexists. split; [reflexivity|]. simpl.
      split; [done|]. split; [done|]. split; [|done].
      intros bits' _ [= <-]. apply lookup_insert_eq.
    + exists w. repeat split; done.
  - exists w. repeat split; done.
Qed.

Lemma paint_shows_surface_witness :
  exists w',
    win32_window_proc 7 WM_PAINT 0 0 small_session = Done (0, w') /\
    heap w' = heap small_session /\
    g_display w' = g_display small_session /\
    (forall bits, memDC small_display <> 0 ->
       pixels small_display = Some bits -> screen w' !! 7 = Some bits) /\
    (memDC small_display = 0 -> w' = small_session).
Proof.
  apply (paint_shows_surface 7 0 0 1%positive small_display small_session).
  - reflexivity.
  - reflexivity.
Defined.

(** X7. The position a move leaves is made of the two low 16-bit words of
    [lParam], read as unsigned: both coordinates [win32_get_mouse] reports
    lie in 0..65535, so a negative cursor coordinate shows as a large
    positive one. *)
Theorem reported_position_is_unsigned h wp lp a d w x y :
  g_display w = Some a -> heap w !! a = Some d -> queue_wf d ->
  exists w',
    (win32_window_proc h WM_MOUSEMOVE wp lp ;;
     win32_get_mouse (Some a) (Some x) (Some y)) w
    = Done ((Some (lp mod 65536), Some ((lp / 65536) mod 65536)), w') /\
    0 <= lp mod 65536 < 65536 /\ 0 <= (lp / 65536) mod 65536 < 65536.
Proof.
  intros Hg Hd Hwf.
  destruct (window_proc_live h WM_MOUSEMOVE wp lp a d w Hg Hd Hwf)
    as (d' & w' & Hrun & Hheap & _ & _ & _ & Hpos).
  rewrite bool_decide_true in Hpos by done. injection Hpos as Hx Hy.
  assert (heap w' !! a = Some d') as Hd'
    by (rewrite Hheap; apply lookup_insert_eq).
  exists w'. split; [|split; zmod].
  unfold bind. rewrite Hrun, (get_mouse_ok a d') by done.
  rewrite Hx, Hy. unfold LOWORD, HIWORD.
  change 65535 with (Z.ones 16).
  rewrite !Z.land_ones, Z.shiftr_div_pow2 by lia. done.
Qed.

Lemma reported_position_is_unsigned_witness :
  exists w',
    (win32_window_proc 7 WM_MOUSEMOVE 0 (-1) ;;
     win32_get_mouse (Some 1%positive) (Some 0) (Some 0)) fresh_session
    = Done ((Some 65535, Some 65535), w') /\
    0 <= (-1) mod 65536 < 65536 /\ 0 <= (-1 / 65536) mod 65536 < 65536.
Proof.
  apply (reported_position_is_unsigned 7 0 (-1) 1%positive
           calloc_Win32Display fresh_session 0 0).
  - reflexivity.
  - reflexivity.
  - apply calloc_queue_wf.
Defined.

(** ** Polling *)

(** One dispatched message on a store the layer keeps, with the polled
    session installed in [g_display]. *)
Lemma dispatch_step m a d w :
  world_ok w -> g_display w = Some a -> heap w !! a = Some d ->
  exists r d' w',
    DispatchMessage m w = Done (r, w') /\
    world_ok w' /\ g_display w' = Some a /\ heap w' !! a = Some d' /\
    (shouldClose d <> 0 -> shouldClose d' <> 0) /\
    (msg_hwnd m <> 0 -> message m = WM_CLOSE -> shouldClose d' = 1).
Proof.
  intros Hok Hg Hd. pose proof (proj1 Hok a d Hd) as Hwf.
  unfold DispatchMessage. case_bool_decide as Hh.
  - exists 0, d, w.
    refine (conj eq_refl (conj Hok (conj Hg (conj Hd (conj (fun H => H) _))))).
    intros Hne. done.
  - destruct (window_proc_step m a d w Hg Hd Hwf)
      as (d' & w' & Hrun & Hheap & Hg' & Hwf' & _ & _ & Hc).
    assert (shouldClose d <> 0 -> shouldClose d' <> 0) as Hkeep.
    { rewrite Hc. case_bool_decide; [lia|done]. }
    exists 0, d', w'. split; [done|]. split.
    { apply (kept_insert w w' a d d'); try done. congruence. }
    split; [done|]. split. { rewrite Hheap. apply lookup_insert_eq. }
    split; [done|]. intros _ Hm. rewrite Hc. by rewrite bool_decide_true.
Qed.

Lemma poll_quit_ok a d rest w :
  heap w !! a = Some d ->
  (update (Some a) (set_shouldClose 1) ;; ret (1, rest)) w
  = Done ((1, rest : list MSG), poke a (set_shouldClose 1 d) w).
Proof. intros Hd. unfold bind. by rewrite (update_ok a d). Qed.

(** X8. Polling stops at the first [WM_QUIT]: the messages before it are
    dispatched in order (the store the call leaves is the store that
    dispatching exactly these messages leaves, with the close flag of the
    session set to 1), the call returns 1, and the messages behind the
    [WM_QUIT] stay unread, undispatched. *)
Theorem poll_stops_at_quit a pre : forall w d q post,
  world_ok w -> heap w !! a = Some d ->
  Forall (fun m => message m <> WM_QUIT) pre ->
  message q = WM_QUIT ->
  exists w1 d1,
    dispatch_all pre w = Done (tt, w1) /\
    heap w1 !! a = Some d1 /\
    win32_process_events (Some a) (pre ++ q :: post) w
      = Done ((1, post), poke a (set_shouldClose 1 d1) w1) /\
    (exists d', heap (poke a (set_shouldClose 1 d1) w1) !! a = Some d' /\
                shouldClose d' = 1).
Proof.
  induction pre as [|m pre IH]; intros w d q post Hok Hd Hpre Hq.
  - exists w, d. split; [reflexivity|]. split; [exact Hd|].
    simpl. rewrite bool_decide_true by done.
    rewrite (poll_quit_ok a d) by done.
    split; [reflexivity|]. eexists. split; [apply heap_poke|reflexivity].
  - apply Forall_cons in Hpre as [Hm Hpre].
    destruct (dispatch_total m w Hok) as (r1 & w1 & Hrun1 & Hk1 & Hlive).
    destruct (Hlive a) as [d1 Hd1]; [by eexists|].
    destruct (IH w1 d1 q post (proj1 Hk1) Hd1 Hpre Hq)
      as (w2 & d2 & Hall & Hd2 & Hrun & Hflag).
    exists w2, d2.
    split. { simpl. unfold bind at 1. rewrite Hrun1. exact Hall. }
    split; [exact Hd2|]. split; [|exact Hflag].
    simpl. rewrite bool_decide_false by done. unfold bind at 1.
    rewrite Hrun1. exact Hrun.
Qed.

Lemma poll_stops_at_quit_witness :
  exists w1 d1,
    dispatch_all [mkMSG 7 WM_KEYDOWN 65 0] fresh_session = Done (tt, w1) /\
    heap w1 !! 1%positive = Some d1 /\
    win32_process_events (Some 1%positive)
      ([mkMSG 7 WM_KEYDOWN 65 0] ++
       mkMSG 0 WM_QUIT 0 0 :: [mkMSG 7 WM_KEYDOWN 66 0]) fresh_session
      = Done ((1, [mkMSG 7 WM_KEYDOWN 66 0]),
              poke 1%positive (set_shouldClose 1 d1) w1) /\
    (exists d', heap (poke 1%positive (set_shouldClose 1 d1) w1) !! 1%positive
                  = Some d' /\
                shouldClose d' = 1).
Proof.
  apply (poll_stops_at_quit 1%positive [mkMSG 7 WM_KEYDOWN 65 0]
           fresh_session calloc_Win32Display (mkMSG 0 WM_QUIT 0 0)
           [mkMSG 7 WM_KEYDOWN 66 0]).
  - apply world_ok_single. exact calloc_queue_wf.
  - reflexivity.
  - repeat constructor. discriminate.
  - reflexivity.
Defined.

Lemma poll_spec a msgs : forall w d,
  world_ok w -> heap w !! a = Some d ->
  exists r rest w' d',
    win32_process_events (Some a) msgs w = Done ((r, rest), w') /\
    heap w' !! a = Some d' /\
    r = shouldClose d' /\
    (Forall (fun m => message m <> WM_QUIT) msgs -> rest = []).
Proof.
  induction msgs as [|m msgs IH]; intros w d Hok Hd; simpl.
  - unfold bind at 1, take_quit. destruct (quit_posted w).
    + rewrite (poll_quit_ok a d) by done.
      eexists _, _, _, _. split; [done|]. split; [apply heap_poke|done].
    + unfold bind. rewrite (load_ok a d) by done.
      eexists _, _, _, _. split; [done|]. split; [exact Hd|done].
  - case_bool_decide as Hm.
    + rewrite (poll_quit_ok a d) by done.
      eexists _, _, _, _. split; [done|]. split; [apply heap_poke|].
      split; [done|]. intros [Hne _]%Forall_cons. done.
    + unfold bind at 1.
      destruct (dispatch_total m w Hok) as (r1 & w1 & Hrun1 & Hk1 & Hlive).
      rewrite Hrun1.
      destruct (Hlive a) as [d1 Hd1]; [by eexists|].
      destruct (IH w1 d1 (proj1 Hk1) Hd1)
        as (r & rest & w' & d' & Hrun & Hd' & Hr & Hall).
      exists r, rest, w', d'. split; [done|]. split; [done|].
      split; [done|]. intros [_ Hrest]%Forall_cons. by apply Hall.
Qed.

(** X9. What polling returns is the close flag it leaves: on a live session
    [win32_process_events] finishes, its result is the value of
    [shouldClose] after the call, and when the queue held no [WM_QUIT] every
    message has been read. *)
Theorem poll_returns_flag a msgs w d :
  world_ok w -> heap w !! a = Some d ->
  exists r rest w' d',
    win32_process_events (Some a) msgs w = Done ((r, rest), w') /\
    heap w' !! a = Some d' /\
    r = shouldClose d' /\
    (Forall (fun m => message m <> WM_QUIT) msgs -> rest = []).
Proof. apply poll_spec. Qed.

Lemma poll_returns_flag_witness :
  exists r rest w' d',
    win32_process_events (Some 1%positive)
      [mkMSG 7 WM_KEYDOWN 65 0; mkMSG 7 WM_CLOSE 0 0] fresh_session
      = Done ((r, rest), w') /\
    heap w' !! 1%positive = Some d' /\
    r = shouldClose d' /\
    (Forall (fun m => message m <> WM_QUIT)
       [mkMSG 7 WM_KEYDOWN 65 0; mkMSG 7 WM_CLOSE 0 0] -> rest = []).
Proof.
  apply (poll_returns_flag 1%positive
           [mkMSG 7 WM_KEYDOWN 65 0; mkMSG 7 WM_CLOSE 0 0]
           fresh_session calloc_Win32Display).
  - apply world_ok_single. exact calloc_queue_wf.
  - reflexivity.
Defined.

(** X10. A close request in the message queue makes the poll report it:
    when the polled session is the installed one and the queue holds a
    [WM_CLOSE] for a window, [win32_process_events] returns a non-zero
    value, whatever else the queue holds. *)
Theorem poll_reports_close_request a msgs : forall w d,
  world_ok w -> g_display w = Some a -> heap w !! a = Some d ->
  Exists (fun m => message m = WM_CLOSE /\ msg_hwnd m <> 0) msgs ->
  exists r rest w',
    win32_process_events (Some a) msgs w = Done ((r, rest), w') /\ r <> 0.
Proof.
  induction msgs as [|m msgs IH]; intros w d Hok Hg Hd Hex.
  - by apply Exists_nil in Hex.
  - simpl. case_bool_decide as Hm.
    + rewrite (poll_quit_ok a d) by done. by eexists _, _, _.
    + unfold bind at 1.
      destruct (dispatch_step m a d w Hok Hg Hd)
        as (r1 & d1 & w1 & Hrun1 & Hok1 & Hg1 & Hd1 & _ & Hclose).
      rewrite Hrun1.
      apply Exists_cons in Hex as [[Hc Hh]|Hex].
      * destruct (process_events_live a msgs w1 d1 Hok1 Hd1)
          as (r & rest & w' & Hrun & Hr).
        exists r, rest, w'. split; [done|]. apply Hr.
        rewrite Hclose by done. lia.
      * exact (IH w1 d1 Hok1 Hg1 Hd1 Hex).
Qed.

Lemma poll_reports_close_request_witness :
  exists r rest w',
    win32_process_events (Some 1%positive)
      [mkMSG 7 WM_MOUSEMOVE 0 5; mkMSG 7 WM_CLOSE 0 0;
       mkMSG 7 WM_KEYDOWN 65 0] fresh_session
      = Done ((r, rest), w') /\ r <> 0.
Proof.
  apply (poll_reports_close_request 1%positive
           [mkMSG 7 WM_MOUSEMOVE 0 5; mkMSG 7 WM_CLOSE 0 0;
            mkMSG 7 WM_KEYDOWN 65 0] fresh_session calloc_Win32Display).
  - apply world_ok_single. exact calloc_queue_wf.
  - reflexivity.
  - reflexivity.
  - apply Exists_cons_tl, Exists_cons_hd. split; [reflexivity|simpl; lia].
Defined.

(** ** Null out-parameters, destruction, bad buffers *)

(** X11. [win32_get_mouse] writes through the out-pointers that are not
    null and only through them; with both null it does not read the session
    at all, so it finishes even on a null session. *)
Theorem get_mouse_null_outputs a d w x y :
  heap w !! a = Some d ->
  win32_get_mouse (Some a) (Some x) None w
    = Done ((Some (mouseX d), None), w) /\
  win32_get_mouse (Some a) None (Some y) w
    = Done ((None, Some (mouseY d)), w) /\
  (forall disp, win32_get_mouse disp None None w = Done ((None, None), w)).
Proof.
  intros Hd. unfold win32_get_mouse, bind, ret.
  rewrite (load_ok a d) by done. done.
Qed.

Lemma get_mouse_null_outputs_witness :
  win32_get_mouse (Some 1%positive) (Some 5) None fresh_session
    = Done ((Some (mouseX calloc_Win32Display), None), fresh_session) /\
  win32_get_mouse (Some 1%positive) None (Some 6) fresh_session
    = Done ((None, Some (mouseY calloc_Win32Display)), fresh_session) /\
  (forall disp,
     win32_get_mouse disp None None fresh_session
       = Done ((None, None), fresh_session)).
Proof.
  apply (get_mouse_null_outputs 1%positive calloc_Win32Display
           fresh_session 5 6).
  reflexivity.
Defined.

(** X12. Destroying a live session frees it, leaves the other display
    contexts alone, and clears [g_display] whichever session it referred
    to, so that no later notification reaches any session.  The pointer is
    dangling afterwards: a query through it and a second destruction
    fault. *)
Theorem destroy_releases_session a d w :
  heap w !! a = Some d ->
  exists w',
    win32_destroy_window (Some a) w = Done (tt, w') /\
    heap w' !! a = None /\
    (forall b, b <> a -> heap w' !! b = heap w !! b) /\
    g_display w' = None /\
    (forall notes, exists w'',
       translate_all notes w' = Done (tt, w'') /\ heap w'' = heap w') /\
    win32_has_events (Some a) w' = Fault /\
    win32_destroy_window (Some a) w' = Fault.
Proof.
  intros Hd. destruct (destroy_run a d w Hd) as (w' & Hrun & Hheap & Hg).
  assert (heap w' !! a = None) as Hgone
    by (rewrite Hheap; apply lookup_delete_eq).
  exists w'. split; [done|]. split; [done|]. split.
  { intros b Hb. rewrite Hheap. by apply lookup_delete_ne. }
  split; [done|]. split.
  { intros notes.
    destruct (translate_all_idle notes w' Hg) as (w'' & Hrun' & Hheap' & _).
    by exists w''. }
  split.
  - unfold win32_has_events, bind, load. by rewrite Hgone.
  - unfold win32_destroy_window, bind, load. by rewrite Hgone.
Qed.

Lemma destroy_releases_session_witness :
  exists w',
    win32_destroy_window (Some 1%positive) small_session = Done (tt, w') /\
    heap w' !! 1%positive = None /\
    (forall b, b <> 1%positive -> heap w' !! b = heap small_session !! b) /\
    g_display w' = None /\
    (forall notes, exists w'',
       translate_all notes w' = Done (tt, w'') /\ heap w'' = heap w') /\
    win32_has_events (Some 1%positive) w' = Fault /\
    win32_destroy_window (Some 1%positive) w' = Fault.
Proof.
  apply (destroy_releases_session 1%positive small_display small_session).
  reflexivity.
Defined.

(** X13. A blit that finishes changes nothing of its session but the bytes
    of the surface, whose length stays what it was, and nothing of any other
    session: the queue, the mouse state, the close flag and the dimensions
    are as before. *)
Theorem blit_touches_only_pixels a d surface buf w r w' :
  heap w !! a = Some d -> pixels d = Some surface ->
  win32_blit_pixels (Some a) (Some buf) w = Done (r, w') ->
  exists bits,
    heap w' = <[a := set_pixels (Some bits) d]> (heap w) /\
    length bits = length surface /\
    g_display w' = g_display w.
Proof.
  intros Hd Hpix Hrun. rewrite (blit_run a d) in Hrun by done.
  destruct (memcpy _ _ _) as [obits|] eqn:Hcpy; [|done].
  destruct (BitBlt_ok (hwnd d) (hdc d) (memDC d) obits
              (poke a (set_pixels obits d) w))
    as (w1 & Hblt & Hheap & Hg).
  rewrite Hblt in Hrun. injection Hrun as _ <-.
  unfold memcpy in Hcpy. rewrite Hpix in Hcpy.
  case_bool_decide as Hzero.
  - injection Hcpy as <-. exists surface.
    split; [exact Hheap|split; [reflexivity|exact Hg]].
  - case_bool_decide as Hn; [|done]. injection Hcpy as <-.
    eexists. split; [exact Hheap|]. split; [|exact Hg].
    pose proof (Z.mod_pos_bound
                  (int_mul (int_mul (width d) (height d)) 4) (2 ^ 64))
      as Hpos.
    unfold size_t_of_int in *.
    rewrite length_app, length_take, length_drop. lia.
Qed.

Lemma blit_touches_only_pixels_witness :
  exists bits,
    heap (poke 1%positive (set_pixels (Some small_frame) small_display)
            (set_screen {[ 7 := small_frame ]} small_session))
    = <[1%positive := set_pixels (Some bits) small_display]>
        (heap small_session) /\
    length bits = length [x00; x00; x00; x00; x00; x00; x00; x00] /\
    g_display (poke 1%positive (set_pixels (Some small_frame) small_display)
                 (set_screen {[ 7 := small_frame ]} small_session))
    = g_display small_session.
Proof.
  apply (blit_touches_only_pixels 1%positive small_display
           [x00; x00; x00; x00; x00; x00; x00; x00] small_frame
           small_session tt).
  - reflexivity.
  - reflexivity.
  - vm_compute. reflexivity.
Defined.

(** X14. The blit checks neither the surface pointer nor the length of the
    buffer: on a live session whose byte count [width * height * 4] is
    positive and fits an [int], a null surface pointer, a surface shorter
    than the byte count or a buffer shorter than the byte count makes the
    copy fault.  With a byte count of 0 nothing is copied and the blit
    finishes, even on a null surface pointer. *)
Theorem blit_faults_on_bad_buffers a d buf w :
  heap w !! a = Some d ->
  (0 < width d * height d * 4 <= INT_MAX ->
   pixels d = None \/
   (exists surface, pixels d = Some surface /\
      Z.of_nat (length surface) < width d * height d * 4) \/
   Z.of_nat (length buf) < width d * height d * 4 ->
   win32_blit_pixels (Some a) (Some buf) w = Fault) /\
  (width d * height d * 4 = 0 ->
   exists w',
     win32_blit_pixels (Some a) (Some buf) w = Done (tt, w') /\
     heap w' !! a = Some d).
Proof.
  intros Hd. rewrite (blit_run a d) by done. split.
  - intros Hfit Hbad.
    assert (size_t_of_int (int_mul (int_mul (width d) (height d)) 4)
            = width d * height d * 4) as ->.
    { unfold size_t_of_int, int_mul, INT_MAX in *.
      rewrite (wrap_int_id (width d * height d))
        by (unfold in_int, INT_MIN, INT_MAX; lia).
      rewrite wrap_int_id by (unfold in_int, INT_MIN, INT_MAX; lia).
      rewrite Z.mod_small; lia. }
    unfold memcpy. rewrite bool_decide_false by lia.
    destruct Hbad as [Hnull|[(surface & Hpix & Hshort)|Hshort]].
    + by rewrite Hnull.
    + rewrite Hpix, bool_decide_false; [done|lia].
    + destruct (pixels d); [|done]. rewrite bool_decide_false; [done|lia].
  - intros Hzero.
    assert (size_t_of_int (int_mul (int_mul (width d) (height d)) 4) = 0)
      as ->.
    { unfold size_t_of_int, int_mul.
      assert (width d * height d = 0) as -> by lia. reflexivity. }
    unfold memcpy. rewrite bool_decide_true by done.
    destruct (BitBlt_ok (hwnd d) (hdc d) (memDC d) (pixels d)
                (poke a (set_pixels (pixels d) d) w))
      as (w' & Hblt & Hheap & _).
    exists w'. split; [done|]. rewrite Hheap, heap_poke. by destruct d.
Qed.

Lemma blit_faults_on_bad_buffers_witness :
  win32_blit_pixels (Some 1%positive) (Some [x01; x02; x03; xff])
    small_session = Fault /\
  (width small_display * height small_display * 4 = 0 ->
   exists w',
     win32_blit_pixels (Some 1%positive) (Some [x01; x02; x03; xff])
       small_session = Done (tt, w') /\
     heap w' !! 1%positive = Some small_display).
Proof.
  destruct (blit_faults_on_bad_buffers 1%positive small_display
              [x01; x02; x03; xff] small_session) as [Hfault Hzero].
  - reflexivity.
  - split; [|exact Hzero]. apply Hfault.
    + vm_compute. split; [reflexivity|discriminate].
    + right. right. vm_compute. reflexivity.
Defined.

(** ** The store invariant and memory safety *)

(** One call on the live session at [a]. *)
Lemma exec_on_live a c w d :
  world_ok w -> heap w !! a = Some d -> call_on a c ->
  exists w', exec c w = Done (tt, w') /\ is_Some (heap w' !! a).
Proof.
  intros Hok Hd Hc. pose proof (proj1 Hok a d Hd) as Hwf.
  destruct c; simpl in Hc; try done; simpl.
  - destruct (window_proc_total h msg wp lp w Hok)
      as (w' & Hrun & _ & Hlive).
    exists w'. unfold bind. rewrite Hrun. split; [done|].
    apply Hlive. by eexists.
  - subst disp. rewrite (push_ok a d) by done.
    eexists. split; [done|]. rewrite heap_poke. by eexists.
  - subst disp.
    destruct (poll_spec a msgs w d Hok Hd)
      as (r & rest & w' & d' & Hrun & Hd' & _).
    exists w'. unfold bind. rewrite Hrun. split; [done|]. by eexists.
  - subst disp. unfold bind. rewrite (has_events_ok a d) by done.
    exists w. split; [done|]. by eexists.
  - subst disp. unfold bind.
    destruct (pending d) as [|e rest] eqn:Hp.
    + rewrite (pop_empty a d) by (done || by apply pending_nil).
      exists w. split; [done|]. by eexists.
    + destruct (pop_some a d e rest event w Hd Hwf Hp) as [Hpop _].
      rewrite Hpop. eexists. split; [done|]. rewrite heap_poke. by eexists.
  - destruct Hc as [-> ->]. exists w. split; [done|]. by eexists.
  - subst disp. exists w. split; [|by eexists].
    unfold win32_get_mouse, bind, ret.
    destruct x, y; rewrite ?(load_ok a d) by done; done.
  - subst disp. exists w. split; [|by eexists].
    unfold win32_should_close, bind. by rewrite (load_ok a d).
Qed.

(** X16. Memory safety on a live session: on a store the layer keeps, any
    run of window-procedure calls and of calls through the live session
    pointer (pushes, polls, queries, pops, blits of a null buffer) finishes:
    no null or dangling pointer is read and no index leaves the event
    array; the session is still live afterwards. *)
Theorem live_calls_never_fault a cs : forall w,
  world_ok w -> is_Some (heap w !! a) -> Forall (call_on a) cs ->
  exists w',
    exec_all cs w = Done (tt, w') /\ world_ok w' /\ is_Some (heap w' !! a).
Proof.
  induction cs as [|c cs IH]; intros w Hok Hlive Hcs.
  - by exists w.
  - apply Forall_cons in Hcs as [Hc Hcs]. destruct Hlive as [d Hd].
    destruct (exec_on_live a c w d Hok Hd Hc) as (w1 & Hrun1 & Hlive1).
    pose proof (exec_kept c w tt w1 Hok Hrun1) as [Hok1 _].
    destruct (IH w1 Hok1 Hlive1 Hcs) as (w' & Hrun & Hok' & Hlive').
    exists w'. split; [|done]. simpl. unfold bind. by rewrite Hrun1.
Qed.

Lemma live_calls_never_fault_witness :
  exists w',
    exec_all
      [call_window_proc 7 WM_MOUSEMOVE 0 (3 + 4 * 65536);
       call_pop_event (Some 1%positive) zero_event;
       call_pop_event (Some 1%positive) zero_event;
       call_process_events (Some 1%positive) [mkMSG 7 WM_CLOSE 0 0];
       call_get_mouse (Some 1%positive) None (Some 0)] fresh_session
      = Done (tt, w') /\
    world_ok w' /\ is_Some (heap w' !! 1%positive).
Proof.
  apply (live_calls_never_fault 1%positive
           [call_window_proc 7 WM_MOUSEMOVE 0 (3 + 4 * 65536);
            call_pop_event (Some 1%positive) zero_event;
            call_pop_event (Some 1%positive) zero_event;
            call_process_events (Some 1%positive) [mkMSG 7 WM_CLOSE 0 0];
            call_get_mouse (Some 1%positive) None (Some 0)] fresh_session).
  - apply world_ok_single. exact calloc_queue_wf.
  - by eexists.
  - repeat constructor.
Defined.

(** ** Creating a window *)

Lemma world_ok_poke a d w : world_ok w -> queue_wf d -> world_ok (poke a d w).
Proof.
  intros [Hwf Hg] Hd. split.
  - intros b db. unfold poke; simpl. rewrite lookup_insert.
    case_decide; [by intros [= <-]|apply Hwf].
  - intros g. unfold poke; simpl. rewrite lookup_insert.
    case_decide; [by eexists|apply Hg].
Qed.

(** A run of notifications on a store the layer keeps: it finishes, and only
    the installed session can change. *)
Lemma translate_all_frame notes w :
  world_ok w ->
  exists w',
    translate_all notes w = Done (tt, w') /\
    world_ok w' /\
    g_display w' = g_display w /\
    (forall b, g_display w <> Some b -> heap w' !! b = heap w !! b) /\
    (forall b, is_Some (heap w' !! b) <-> is_Some (heap w !! b)).
Proof.
  intros Hok. destruct (g_display w) as [g|] eqn:Hg.
  - destruct (proj2 Hok g Hg) as [d Hd].
    destruct (translate_all_step g notes d w Hg Hd (proj1 Hok g d Hd))
      as (d' & w' & Hrun & Hheap & Hg' & Hwf' & _).
    exists w'. split; [done|].
    assert (world_ok w') as Hok'.
    { destruct Hok as [Hwf Hlive]. split.
      - intros b db. rewrite Hheap, lookup_insert.
        case_decide; [by intros [= <-]|apply Hwf].
      - intros b. rewrite Hg', Hheap. intros [= <-].
        rewrite lookup_insert_eq. by eexists. }
    split; [done|]. split; [done|]. split.
    + intros b Hb. rewrite Hheap. apply lookup_insert_ne. congruence.
    + intros b. rewrite Hheap, lookup_insert. case_decide; [|done].
      subst b. rewrite Hd. split; intros _; by eexists.
  - destruct (translate_all_idle notes w Hg) as (w' & Hrun & Hheap & Hg').
    exists w'. split; [done|]. split.
    { destruct Hok as [Hwf Hlive]. split.
      - intros b db. rewrite Hheap. apply Hwf.
      - intros b. by rewrite Hg'. }
    split; [done|]. split; intros b; by rewrite Hheap.
Qed.

Lemma fresh_address_unused w : heap w !! fresh (dom (heap w)) = None.
Proof. apply not_elem_of_dom, is_fresh. Qed.

(** The run of [win32_create_window] up to the test of the window handle. *)
Lemma create_run pf title width height w :
  world_ok w -> pf_calloc_ok pf = true ->
  exists w1,
    let a := fresh (dom (heap w)) in
    world_ok w1 /\
    g_display w1 = g_display w /\
    heap w1 !! a = Some (created_display pf width height) /\
    (forall b, b <> a -> g_display w <> Some b ->
       heap w1 !! b = heap w !! b) /\
    (forall b, b <> a -> is_Some (heap w1 !! b) <-> is_Some (heap w !! b)) /\
    win32_create_window pf title width height w =
    (if bool_decide (pf_hwnd pf = 0) then
       free (Some a) ;; ret None
     else
       write_g_display (Some a) ;;
       update (Some a) (set_hdc (pf_hdc pf)) ;;
       update (Some a) (set_memDC (pf_memDC pf)) ;;
       update (Some a)
         (fun d => set_bitmap (pf_bitmap pf) (set_pixels (pf_bits pf) d)) ;;
       translate_all (pf_sent_on_show pf) ;;
       ret (Some a)) w1.
Proof.
  intros Hok Hcalloc.
  set (a := fresh (dom (heap w))).
  assert (heap w !! a = None) as Hfresh by apply fresh_address_unused.
  assert (g_display w <> Some a) as Hga.
  { intros Hg. destruct (proj2 Hok a Hg) as [d Hd]. congruence. }
  set (dA := set_timerStart (pf_timerStart pf)
               (set_timerFreq (pf_timerFreq pf)
                  (set_height height (set_width width calloc_Win32Display)))).
  assert (world_ok (poke a dA w)) as HokA
    by (apply world_ok_poke; [done|exact calloc_queue_wf]).
  destruct (translate_all_frame (pf_sent_on_create pf) (poke a dA w) HokA)
    as (w0 & Hrun0 & Hok0 & Hg0 & Hframe0 & Hdom0).
  assert (heap w0 !! a = Some dA) as Hd0.
  { rewrite Hframe0 by done. apply heap_poke. }
  exists (poke a (set_hwnd (pf_hwnd pf) dA) w0). cbv zeta. fold a.
  split. { apply world_ok_poke; [done|exact calloc_queue_wf]. }
  split; [done|]. split; [apply heap_poke|].
  split.
  { intros b Hb Hgb. rewrite heap_poke_ne by done.
    rewrite Hframe0 by done. by apply heap_poke_ne. }
  split.
  { intros b Hb. rewrite heap_poke_ne by done. rewrite Hdom0.
    by rewrite heap_poke_ne. }
  unfold win32_create_window. unfold bind at 1.
  unfold calloc_display. rewrite Hcalloc. cbv zeta. fold a.
  change (set_heap (<[a:=calloc_Win32Display]> (heap w)) w)
    with (poke a calloc_Win32Display w).
  unfold bind at 1. erewrite update_ok by apply heap_poke.
  unfold bind at 1. erewrite update_ok by apply heap_poke.
  unfold bind at 1. erewrite update_ok by apply heap_poke.
  unfold bind at 1. erewrite update_ok by apply heap_poke.
  rewrite !poke_poke. fold dA.
  unfold bind at 1. rewrite Hrun0.
  unfold bind at 1. rewrite (update_ok a dA) by done.
  unfold bind at 1. erewrite load_ok by apply heap_poke.
  reflexivity.
Qed.

Lemma create_failed pf title width height w :
  world_ok w -> pf_calloc_ok pf = false \/ pf_hwnd pf = 0 ->
  exists w',
    win32_create_window pf title width height w = Done (None, w') /\
    world_ok w' /\
    g_display w' = g_display w /\
    (forall b, is_Some (heap w' !! b) <-> is_Some (heap w !! b)) /\
    (forall b, g_display w <> Some b -> heap w' !! b = heap w !! b).
Proof.
  intros Hok Hfail.
  destruct (pf_calloc_ok pf) eqn:Hcalloc.
  - destruct Hfail as [|Hhwnd]; [done|].
    destruct (create_run pf title width height w Hok Hcalloc)
      as (w1 & Hok1 & Hg1 & Hd1 & Hframe1 & Hdom1 & Hrun).
    cbv zeta in *. set (a := fresh (dom (heap w))) in *.
    assert (heap w !! a = None) as Hfresh by apply fresh_address_unused.
    assert (g_display w <> Some a) as Hga.
    { intros Hg. destruct (proj2 Hok a Hg) as [d Hd]. congruence. }
    rewrite Hrun, bool_decide_true by done.
    unfold bind, free. rewrite Hd1.
    eexists. split; [reflexivity|]. simpl.
    split; [split|split; [done|split]].
    + intros b db. simpl. intros Hb%lookup_delete_Some.
      by apply (proj1 Hok1 b), Hb.
    + intros g. simpl. intros Hg. rewrite lookup_delete_ne by congruence.
      apply (proj2 Hok1). congruence.
    + intros b. destruct (decide (b = a)) as [->|Hb].
      * rewrite lookup_delete_eq, Hfresh. done.
      * rewrite lookup_delete_ne by done. by apply Hdom1.
    + intros b Hgb. destruct (decide (b = a)) as [->|Hb].
      * by rewrite lookup_delete_eq, Hfresh.
      * rewrite lookup_delete_ne by done. by apply Hframe1.
  - exists w. unfold win32_create_window, bind, calloc_display.
    rewrite Hcalloc. done.
Qed.

Lemma create_succeeded pf title width height w :
  world_ok w -> pf_calloc_ok pf = true -> pf_hwnd pf <> 0 ->
  exists a w' d',
    win32_create_window pf title width height w = Done (Some a, w') /\
    heap w !! a = None /\
    world_ok w' /\
    g_display w' = Some a /\
    heap w' !! a = Some d' /\
    surface_of d' =
      (pf_hwnd pf, pf_hdc pf, pf_memDC pf, pf_bitmap pf, width, height,
       pf_bits pf, pf_timerFreq pf, pf_timerStart pf) /\
    pending d' = take 63 (omap translated_event (pf_sent_on_show pf)) /\
    shouldClose d' = (if close_requested (pf_sent_on_show pf) then 1 else 0) /\
    (forall b, b <> a -> g_display w <> Some b ->
       heap w' !! b = heap w !! b) /\
    (forall b, b <> a -> is_Some (heap w' !! b) <-> is_Some (heap w !! b)).
Proof.
  intros Hok Hcalloc Hhwnd.
  destruct (create_run pf title width height w Hok Hcalloc)
    as (w1 & Hok1 & Hg1 & Hd1 & Hframe1 & Hdom1 & Hrun).
  cbv zeta in *. set (a := fresh (dom (heap w))) in *.
  assert (heap w !! a = None) as Hfresh by apply fresh_address_unused.
  set (d1 := created_display pf width height) in *.
  set (dC := set_bitmap (pf_bitmap pf)
               (set_pixels (pf_bits pf)
                  (set_memDC (pf_memDC pf) (set_hdc (pf_hdc pf) d1)))).
  set (w2 := set_g_display (Some a) w1).
  assert (heap w2 !! a = Some d1) as Hd2 by done.
  destruct (translate_all_step a (pf_sent_on_show pf) dC (poke a dC w2))
    as (d' & w' & Hshow & Hheap & Hg' & Hwf' & Hp' & Hs' & Hc').
  { done. }
  { apply heap_poke. }
  { exact calloc_queue_wf. }
  assert (forall b, b <> a -> heap w' !! b = heap w1 !! b) as Hother.
  { intros b Hb. rewrite Hheap, lookup_insert_ne by done.
    by rewrite heap_poke_ne. }
  exists a, w', d'. split.
  { rewrite Hrun, bool_decide_false by done.
    unfold bind at 1. unfold write_g_display. fold w2.
    unfold bind at 1. rewrite (update_ok a d1) by done.
    unfold bind at 1. erewrite update_ok by apply heap_poke.
    unfold bind at 1. erewrite update_ok by apply heap_poke.
    rewrite !poke_poke. fold dC.
    unfold bind. by rewrite Hshow. }
  split; [done|]. split.
  { split.
    - intros b db. destruct (decide (b = a)) as [->|Hb].
      + rewrite Hheap, lookup_insert_eq. by intros [= <-].
      + rewrite Hother by done. apply (proj1 Hok1).
    - intros g. rewrite Hg'. intros [= <-].
      rewrite Hheap, lookup_insert_eq. by eexists. }
  split; [done|]. split. { rewrite Hheap. apply lookup_insert_eq. }
  split. { by rewrite Hs'. }
  split. { by rewrite Hp'. }
  split. { by rewrite Hc'. }
  split.
  - intros b Hb Hgb. rewrite Hother by done. by apply Hframe1.
  - intros b Hb. rewrite Hother by done. by apply Hdom1.
Qed.

Lemma world_ok_empty : world_ok empty_world.
Proof.
  split.
  - intros a d. simpl. by rewrite lookup_empty.
  - intros g. simpl. done.
Qed.

(** X17. A creation that fails leaves nothing behind: when [calloc] fails or
    [CreateWindowExA] returns no window, [win32_create_window] returns null,
    the structure it had allocated is freed again, [g_display] is what it
    was, and the same display contexts exist as before, each unchanged
    unless it was the installed one. *)
Theorem create_failure_is_clean pf title width height w :
  world_ok w -> pf_calloc_ok pf = false \/ pf_hwnd pf = 0 ->
  exists w',
    win32_create_window pf title width height w = Done (None, w') /\
    world_ok w' /\
    g_display w' = g_display w /\
    (forall b, is_Some (heap w' !! b) <-> is_Some (heap w !! b)) /\
    (forall b, g_display w <> Some b -> heap w' !! b = heap w !! b).
Proof. apply create_failed. Qed.

Lemma create_failure_is_clean_witness :
  exists w',
    win32_create_window failing_platform [] 320 240 fresh_session
      = Done (None, w') /\
    world_ok w' /\
    g_display w' = g_display fresh_session /\
    (forall b, is_Some (heap w' !! b) <-> is_Some (heap fresh_session !! b)) /\
    (forall b, g_display fresh_session <> Some b ->
       heap w' !! b = heap fresh_session !! b).
Proof.
  apply (create_failure_is_clean failing_platform [] 320 240 fresh_session).
  - apply world_ok_single. exact calloc_queue_wf.
  - right. reflexivity.
Defined.

(** X18. A creation that succeeds returns a pointer to a new display
    context at an address that was not in use and installs it in
    [g_display].  The context has the handles, the surface and the timer
    readings the platform gave and the width and height that were asked
    for; its queue holds the events of the notifications sent while the
    window was shown, in order, at most 63 of them; its close flag is set
    only when one of them was a close request.  Every other display context
    exists as before, unchanged unless it was the installed one. *)
Theorem create_installs_session pf title width height w :
  world_ok w -> pf_calloc_ok pf = true -> pf_hwnd pf <> 0 ->
  exists a w' d',
    win32_create_window pf title width height w = Done (Some a, w') /\
    heap w !! a = None /\
    world_ok w' /\
    g_display w' = Some a /\
    heap w' !! a = Some d' /\
    surface_of d' =
      (pf_hwnd pf, pf_hdc pf, pf_memDC pf, pf_bitmap pf, width, height,
       pf_bits pf, pf_timerFreq pf, pf_timerStart pf) /\
    pending d' = take 63 (omap translated_event (pf_sent_on_show pf)) /\
    shouldClose d' = (if close_requested (pf_sent_on_show pf) then 1 else 0) /\
    (forall b, b <> a -> g_display w <> Some b ->
       heap w' !! b = heap w !! b) /\
    (forall b, b <> a -> is_Some (heap w' !! b) <-> is_Some (heap w !! b)).
Proof. apply create_succeeded. Qed.

Lemma create_installs_session_witness :
  exists a w' d',
    win32_create_window sample_platform [] 2 1 empty_world
      = Done (Some a, w') /\
    heap empty_world !! a = None /\
    world_ok w' /\
    g_display w' = Some a /\
    heap w' !! a = Some d' /\
    surface_of d' =
      (pf_hwnd sample_platform, pf_hdc sample_platform,
       pf_memDC sample_platform, pf_bitmap sample_platform, 2, 1,
       pf_bits sample_platform, pf_timerFreq sample_platform,
       pf_timerStart sample_platform) /\
    pending d'
      = take 63 (omap translated_event (pf_sent_on_show sample_platform)) /\
    shouldClose d'
      = (if close_requested (pf_sent_on_show sample_platform)
         then 1 else 0) /\
    (forall b, b <> a -> g_display empty_world <> Some b ->
       heap w' !! b = heap empty_world !! b) /\
    (forall b, b <> a ->
       is_Some (heap w' !! b) <-> is_Some (heap empty_world !! b)).
Proof.
  apply (create_installs_session sample_platform [] 2 1 empty_world).
  - exact world_ok_empty.
  - reflexivity.
  - simpl. lia.
Defined.

(** X19. One session at a time receives the notifications: after a second
    session is created while a first one is installed, [g_display] is the
    new session, and every run of notifications goes to it, whichever
    window each was sent to: their events join its queue in arrival order
    (as far as the 63 places allow), a close request sets its close flag,
    [g_display] stays on it, and the first session, still live, does not
    change. *)
Theorem create_takes_over_notifications pf title width height w g :
  world_ok w -> g_display w = Some g ->
  pf_calloc_ok pf = true -> pf_hwnd pf <> 0 ->
  exists a w' d',
    win32_create_window pf title width height w = Done (Some a, w') /\
    a <> g /\
    g_display w' = Some a /\
    heap w' !! a = Some d' /\
    is_Some (heap w' !! g) /\
    forall notes, exists w'' d'',
      translate_all notes w' = Done (tt, w'') /\
      g_display w'' = Some a /\
      heap w'' !! g = heap w' !! g /\
      heap w'' !! a = Some d'' /\
      pending d'' =
        pending d' ++
        take (63 - length (pending d')) (omap translated_event notes) /\
      shouldClose d'' =
        (if close_requested notes then 1 else shouldClose d').
Proof.
  intros Hok Hg Hcalloc Hhwnd.
  destruct (create_succeeded pf title width height w Hok Hcalloc Hhwnd)
    as (a & w' & d' & Hrun & Hfresh & Hok' & Hg' & Hd' & _ & _ & _ & _ & Hdom).
  assert (a <> g) as Hag.
  { intros ->. destruct (proj2 Hok g Hg) as [d Hd]. congruence. }
  exists a, w', d'. split; [done|]. split; [done|]. split; [done|].
  split; [done|]. split.
  { apply Hdom; [done|]. by apply (proj2 Hok). }
  intros notes.
  destruct (translate_all_step a notes d' w' Hg' Hd' (proj1 Hok' a d' Hd'))
    as (d'' & w'' & Hnotes & Hheap & Hg'' & _ & Hp'' & _ & Hc'').
  exists w'', d''. split; [done|]. split; [done|]. split.
  { rewrite Hheap. by apply lookup_insert_ne. }
  split. { rewrite Hheap. apply lookup_insert_eq. }
  split; [exact Hp''|exact Hc''].
Qed.

Lemma create_takes_over_notifications_witness :
  exists a w' d',
    win32_create_window sample_platform [] 2 1 fresh_session
      = Done (Some a, w') /\
    a <> 1%positive /\
    g_display w' = Some a /\
    heap w' !! a = Some d' /\
    is_Some (heap w' !! 1%positive) /\
    forall notes, exists w'' d'',
      translate_all notes w' = Done (tt, w'') /\
      g_display w'' = Some a /\
      heap w'' !! 1%positive = heap w' !! 1%positive /\
      heap w'' !! a = Some d'' /\
      pending d'' =
        pending d' ++
        take (63 - length (pending d')) (omap translated_event notes) /\
      shouldClose d'' =
        (if close_requested notes then 1 else shouldClose d').
Proof.
  apply (create_takes_over_notifications sample_platform [] 2 1
           fresh_session 1%positive).
  - apply world_ok_single. exact calloc_queue_wf.
  - reflexivity.
  - reflexivity.
  - simpl. lia.
Defined.

(** X20. Creation followed by destruction releases the session: the
    pointer a successful [win32_create_window] returns can be handed to
    [win32_destroy_window], after which the display contexts that exist are
    those that existed before the creation; [g_display] is null then, also
    when another session was installed before. *)
Theorem create_then_destroy_releases pf title width height w :
  world_ok w -> pf_calloc_ok pf = true -> pf_hwnd pf <> 0 ->
  exists a w' w'',
    win32_create_window pf title width height w = Done (Some a, w') /\
    win32_destroy_window (Some a) w' = Done (tt, w'') /\
    (forall b, is_Some (heap w'' !! b) <-> is_Some (heap w !! b)) /\
    g_display w'' = None.
Proof.
  intros Hok Hcalloc Hhwnd.
  destruct (create_succeeded pf title width height w Hok Hcalloc Hhwnd)
    as (a & w' & d' & Hrun & Hfresh & _ & _ & Hd' & _ & _ & _ & _ & Hdom).
  destruct (destroy_run a d' w' Hd') as (w'' & Hdestroy & Hheap & Hg).
  exists a, w', w''. split; [done|]. split; [done|]. split; [|done].
  intros b. rewrite Hheap. destruct (decide (b = a)) as [->|Hb].
  - rewrite lookup_delete_eq, Hfresh. done.
  - rewrite lookup_delete_ne by done. by apply Hdom.
Qed.

Lemma create_then_destroy_releases_witness :
  exists a w' w'',
    win32_create_window sample_platform [] 2 1 fresh_session
      = Done (Some a, w') /\
    win32_destroy_window (Some a) w' = Done (tt, w'') /\
    (forall b, is_Some (heap w'' !! b) <-> is_Some (heap fresh_session !! b)) /\
    g_display w'' = None.
Proof.
  apply (create_then_destroy_releases sample_platform [] 2 1 fresh_session).
  - apply world_ok_single. exact calloc_queue_wf.
  - reflexivity.
  - simpl. lia.
Defined.
(** ** The store invariant over runs with creations *)

(** What one [win32_create_window] does to the store: at most the display
    context it returns is new. *)
Lemma create_step pf title width height w r w' :
  world_ok w ->
  win32_create_window pf title width height w = Done (r, w') ->
  world_ok w' /\
  forall b, is_Some (heap w' !! b) ->
    is_Some (heap w !! b) \/ (r = Some b /\ heap w !! b = None).
Proof.
  intros Hok Hrun.
  destruct (pf_calloc_ok pf) eqn:Hcalloc;
    [destruct (decide (pf_hwnd pf = 0)) as [Hhwnd|Hhwnd]|].
  - destruct (create_failed pf title width height w Hok (or_intror Hhwnd))
      as (w1 & Hrun1 & Hok1 & _ & Hdom & _).
    rewrite Hrun1 in Hrun. injection Hrun as <- <-.
    split; [done|]. intros b Hb. left. by apply Hdom.
  - destruct (create_succeeded pf title width height w Hok Hcalloc Hhwnd)
      as (a & w1 & d1 & Hrun1 & Hfresh & Hok1 & _ & _ & _ & _ & _ & _ & Hdom).
    rewrite Hrun1 in Hrun. injection Hrun as <- <-.
    split; [done|]. intros b Hb.
    destruct (decide (b = a)) as [->|Hba]; [by right|].
    left. by apply Hdom.
  - destruct (create_failed pf title width height w Hok (or_introl Hcalloc))
      as (w1 & Hrun1 & Hok1 & _ & Hdom & _).
    rewrite Hrun1 in Hrun. injection Hrun as <- <-.
    split; [done|]. intros b Hb. left. by apply Hdom.
Qed.

Lemma exec_step_ok s w r w' :
  world_ok w -> exec_step s w = Done (r, w') ->
  world_ok w' /\
  (size (dom (heap w')) <= size (dom (heap w)) + creations [s])%nat /\
  (creations [s] = 0%nat ->
   forall a, is_Some (heap w' !! a) -> is_Some (heap w !! a)).
Proof.
  intros Hok Hrun. destruct s as [c|pf title width height]; simpl in *.
  - destruct (exec_kept c w r w' Hok Hrun) as [Hok' Hflag].
    assert (forall a, is_Some (heap w' !! a) -> is_Some (heap w !! a)) as Hsub.
    { intros a [d' Hd']. destruct (Hflag a d' Hd') as (d & Hd & _).
      by exists d. }
    split; [done|]. split; [|done].
    rewrite Nat.add_0_r. apply subseteq_size.
    intros a Ha. apply elem_of_dom. apply Hsub. by apply elem_of_dom.
  - unfold bind in Hrun.
    destruct (win32_create_window pf title width height w)
      as [[r1 w1]|] eqn:Hcreate; [|done].
    injection Hrun as _ <-.
    destruct (create_step pf title width height w r1 w1 Hok Hcreate)
      as [Hok' Hnew].
    split; [done|]. split; [|done].
    destruct r1 as [a|].
    + transitivity (size (dom (heap w) ∪ {[a]})).
      * apply subseteq_size. intros b Hb. apply elem_of_union.
        destruct (Hnew b) as [Hold|[Hr _]]; [by apply elem_of_dom| |].
        { left. by apply elem_of_dom. }
        { assert (b = a) as -> by congruence.
          right. by apply elem_of_singleton. }
      * rewrite size_union_alt.
        assert (size ({[a]} ∖ dom (heap w) : gset positive) <= 1)%nat as Hone.
        { rewrite <- (size_singleton (C := gset positive) a).
          apply subseteq_size.
          intros x [Hx _]%elem_of_difference. exact Hx. }
        apply Nat.add_le_mono_l. exact Hone.
    + transitivity (size (dom (heap w))); [|lia].
      apply subseteq_size. intros b Hb. apply elem_of_dom.
      destruct (Hnew b) as [Hold|[Hr _]];
        [by apply elem_of_dom|done|discriminate Hr].
Qed.

(** X15. Every run of calls of the layer that finishes ([win32_window_proc],
    [win32_push_event], [win32_pop_event], [win32_has_events],
    [win32_process_events], [win32_blit_pixels], [win32_get_mouse],
    [win32_should_close], [win32_destroy_window] and [win32_create_window])
    keeps the store as the layer keeps it: the indices of every queue stay
    inside the array, and [g_display] is null or refers to a live display
    context.  Display contexts appear through [win32_create_window] only, at
    most one per call: the number of display contexts grows by at most the
    number of creations of the run, and a run without creation adds none. *)
Theorem calls_keep_store_invariant ss : forall w w',
  world_ok w -> exec_steps ss w = Done (tt, w') ->
  world_ok w' /\
  (size (dom (heap w')) <= size (dom (heap w)) + creations ss)%nat /\
  (creations ss = 0%nat ->
   forall a, is_Some (heap w' !! a) -> is_Some (heap w !! a)).
Proof.
  induction ss as [|s ss IH]; intros w w' Hok Hrun; simpl in Hrun.
  - injection Hrun as <-. split; [done|]. split; [simpl; lia|done].
  - unfold bind in Hrun.
    destruct (exec_step s w) as [[r1 w1]|] eqn:Hstep; [|done].
    destruct (exec_step_ok s w r1 w1 Hok Hstep) as (Hok1 & Hsize1 & Hnone1).
    destruct (IH w1 w' Hok1 Hrun) as (Hok' & Hsize & Hnone).
    split; [done|]. split.
    + destruct s; simpl in *; lia.
    + intros Hzero a Ha. destruct s; simpl in *; [|done].
      apply Hnone1; [done|]. by apply Hnone.
Qed.

Lemma calls_keep_store_invariant_witness :
  world_ok fresh_session_later /\
  (size (dom (heap fresh_session_later))
   <= size (dom (heap fresh_session)) + creations sample_steps)%nat /\
  (creations sample_steps = 0%nat ->
   forall a, is_Some (heap fresh_session_later !! a) ->
             is_Some (heap fresh_session !! a)).
Proof.
  apply (calls_keep_store_invariant sample_steps fresh_session
           fresh_session_later).
  - apply world_ok_single. exact calloc_queue_wf.
  - vm_compute. reflexivity.
Defined.

(** ** Keys *)

(** X21. Key codes pass through unchanged: a key press and a key release
    carrying a code that fits an [int] come out of an empty queue as a
    [WIN32_EVENT_KEY_PRESS] and a [WIN32_EVENT_KEY_RELEASE] event with that
    very code, in that order, all other event fields being 0. *)
Theorem key_codes_pass_through h code lp lp' a d w ev :
  g_display w = Some a -> heap w !! a = Some d -> queue_wf d ->
  eventHead d = eventTail d ->
  0 <= code <= INT_MAX ->
  exists w',
    (translate_all [mkMSG h WM_KEYDOWN code lp; mkMSG h WM_KEYUP code lp'] ;;
     pop_n (Some a) 2 ev) w
    = Done ([(1, mkEvent WIN32_EVENT_KEY_PRESS code 0 0 0 0 0);
             (1, mkEvent WIN32_EVENT_KEY_RELEASE code 0 0 0 0 0)], w').
Proof.
  intros Hg Hd Hwf Hempty Hcode.
  assert (pending d = []) as Hp by (by apply pending_nil).
  destruct (translate_all_step a
              [mkMSG h WM_KEYDOWN code lp; mkMSG h WM_KEYUP code lp']
              d w Hg Hd Hwf)
    as (d' & w' & Hrun & Hheap & _ & Hwf' & Hp' & _).
  assert (heap w' !! a = Some d') as Hd'
    by (rewrite Hheap; apply lookup_insert_eq).
  rewrite Hp in Hp'.
  change (omap translated_event
            [mkMSG h WM_KEYDOWN code lp; mkMSG h WM_KEYUP code lp'])
    with [mkEvent WIN32_EVENT_KEY_PRESS (wrap_int code) 0 0 0 0 0;
          mkEvent WIN32_EVENT_KEY_RELEASE (wrap_int code) 0 0 0 0 0] in Hp'.
  rewrite wrap_int_id in Hp'
    by (unfold in_int, INT_MIN, INT_MAX in *; lia).
  simpl in Hp'.
  destruct (pop_n_spec a 2 d' w' ev Hd' Hwf') as (d2 & Hpop & _).
  { rewrite Hp'. simpl. lia. }
  rewrite Hp' in Hpop. simpl in Hpop.
  eexists. unfold bind at 1. rewrite Hrun. exact Hpop.
Qed.

Lemma key_codes_pass_through_witness :
  exists w',
    (translate_all [mkMSG 7 WM_KEYDOWN XK_q 0; mkMSG 7 WM_KEYUP XK_q 0] ;;
     pop_n (Some 1%positive) 2 zero_event) fresh_session
    = Done ([(1, mkEvent WIN32_EVENT_KEY_PRESS XK_q 0 0 0 0 0);
             (1, mkEvent WIN32_EVENT_KEY_RELEASE XK_q 0 0 0 0 0)], w').
Proof.
  apply (key_codes_pass_through 7 XK_q 0 0 1%positive calloc_Win32Display
           fresh_session zero_event).
  - reflexivity.
  - reflexivity.
  - apply calloc_queue_wf.
  - reflexivity.
  - vm_compute. split; discriminate.
Defined.

(** X22. The key names of the header denote codes between 0 and 255, which
    therefore pass through the translator unchanged, and two different
    names denote different codes, with one exception: [XK_equal] and
    [XK_plus] are the same code. *)
Theorem key_names_distinct :
  NoDup key_names /\
  Forall (fun k => 0 <= k <= 255) (XK_equal :: key_names) /\
  XK_equal = XK_plus.
Proof.
  split; [|split].
  - exact (bool_decide_unpack (NoDup key_names) I).
  - repeat (constructor; [vm_compute; split; discriminate|]). constructor.
  - reflexivity.
Qed.

(** ** Window destruction and the quit request *)

Lemma quit_kept_ret {A} (x : A) : quit_kept (ret x).
Proof. intros w r w' [= _ <-]. done. Qed.

Lemma quit_kept_bind {A B} (m : M A) (k : A -> M B) :
  quit_kept m -> (forall x, quit_kept (k x)) -> quit_kept (bind m k).
Proof.
  intros Hm Hk w r w' Hrun. unfold bind in Hrun.
  destruct (m w) as [[x w1]|] eqn:H1; [|done].
  rewrite (Hk x w1 r w' Hrun). by apply (Hm w x w1).
Qed.

Lemma quit_kept_load p : quit_kept (load p).
Proof.
  intros w r w' Hrun. unfold load in Hrun.
  destruct p as [a|]; [|done]. destruct (heap w !! a); [|done].
  by injection Hrun as _ <-.
Qed.

Lemma quit_kept_store p d : quit_kept (store p d).
Proof.
  intros w r w' Hrun. unfold store in Hrun.
  destruct p as [a|]; [|done]. destruct (heap w !! a); [|done].
  by injection Hrun as _ <-.
Qed.

Lemma quit_kept_lift {A} (o : outcome A) : quit_kept (lift o).
Proof.
  intros w r w' Hrun. unfold lift in Hrun. destruct o; [|done].
  by injection Hrun as _ <-.
Qed.

Lemma quit_kept_update p f : quit_kept (update p f).
Proof.
  apply quit_kept_bind; [apply quit_kept_load|].
  intros d. apply quit_kept_store.
Qed.

Lemma quit_kept_push p e : quit_kept (win32_push_event p e).
Proof.
  apply quit_kept_bind; [apply quit_kept_load|]. intros d. cbv zeta.
  case_bool_decide; [|apply quit_kept_ret].
  apply quit_kept_bind; [apply quit_kept_lift|].
  intros evs. apply quit_kept_store.
Qed.

Lemma quit_kept_BitBlt h dc1 dc2 bits : quit_kept (BitBlt h dc1 dc2 bits).
Proof.
  intros w r w' Hrun. unfold BitBlt in Hrun.
  destruct bits; [|by injection Hrun as _ <-].
  destruct (bool_decide _); by injection Hrun as _ <-.
Qed.

Lemma quit_kept_when_nonnull p body :
  quit_kept body -> quit_kept (when_nonnull p body).
Proof. intros Hbody. destruct p; [done|apply quit_kept_ret]. Qed.

Ltac quit_kept_tac :=
  repeat first
    [ apply quit_kept_ret
    | apply quit_kept_update
    | apply quit_kept_push
    | apply quit_kept_load
    | apply quit_kept_BitBlt
    | apply quit_kept_when_nonnull
    | apply quit_kept_bind; [|intros ?]
    | case_bool_decide ].

(** The window procedure raises the quit flag on [WM_DESTROY] and leaves it
    alone on every other message. *)
Lemma window_proc_quit h msg wp lp w r w' :
  win32_window_proc h msg wp lp w = Done (r, w') ->
  quit_posted w' =
  if bool_decide (msg = WM_DESTROY) then true else quit_posted w.
Proof.
  unfold win32_window_proc. unfold bind at 1. unfold read_g_display.
  cbv zeta. generalize (g_display w). intros disp.
  destruct (decide (msg = WM_DESTROY)) as [->|Hne].
  - rewrite (bool_decide_false (WM_DESTROY = WM_CLOSE)) by done.
    rewrite !bool_decide_true by done. intros [= _ <-]. done.
  - rewrite !(bool_decide_false (msg = WM_DESTROY)) by done.
    intros Hrun. refine ((_ : quit_kept _) w r w' Hrun).
    unfold BeginPaint, DefWindowProc. quit_kept_tac.
Qed.

Lemma dispatch_quit m w r w' :
  DispatchMessage m w = Done (r, w') ->
  quit_posted w' =
  if bool_decide (msg_hwnd m <> 0 /\ message m = WM_DESTROY)
  then true else quit_posted w.
Proof.
  unfold DispatchMessage. case_bool_decide as Hh.
  - intros [= _ <-]. rewrite bool_decide_false; [done|]. tauto.
  - intros Hrun. rewrite (window_proc_quit _ _ _ _ _ _ _ Hrun).
    repeat case_bool_decide; (done || tauto).
Qed.

Lemma poll_after_quit_request a msgs : forall w d,
  world_ok w -> heap w !! a = Some d ->
  quit_posted w = true \/
  Exists (fun m => message m = WM_DESTROY /\ msg_hwnd m <> 0) msgs ->
  exists rest w' d',
    win32_process_events (Some a) msgs w = Done ((1, rest), w') /\
    heap w' !! a = Some d' /\ shouldClose d' = 1.
Proof.
  induction msgs as [|m msgs IH]; intros w d Hok Hd Hquit.
  - destruct Hquit as [Hposted|Hex]; [|by apply Exists_nil in Hex].
    simpl. unfold bind at 1, take_quit. rewrite Hposted.
    rewrite (poll_quit_ok a d) by done.
    eexists _, _, _. split; [done|]. split; [apply heap_poke|done].
  - simpl. case_bool_decide as Hm.
    + rewrite (poll_quit_ok a d) by done.
      eexists _, _, _. split; [done|]. split; [apply heap_poke|done].
    + unfold bind at 1.
      destruct (dispatch_total m w Hok) as (r1 & w1 & Hrun1 & Hk1 & Hlive).
      rewrite Hrun1. pose proof (dispatch_quit m w r1 w1 Hrun1) as Hq1.
      destruct (Hlive a) as [d1 Hd1]; [by eexists|].
      apply (IH w1 d1 (proj1 Hk1) Hd1).
      destruct Hquit as [Hposted|[[Hdes Hh]|Hex]%Exists_cons].
      * left. rewrite Hq1. by case_bool_decide.
      * left. rewrite Hq1. by rewrite bool_decide_true.
      * by right.
Qed.

(** X23. The destruction of a window ends the loop: when the message queue
    holds a [WM_DESTROY] for a window, or a quit request is already pending,
    polling a live session returns 1 and leaves its close flag at 1. *)
Theorem poll_reports_window_destruction a msgs w d :
  world_ok w -> heap w !! a = Some d ->
  quit_posted w = true \/
  Exists (fun m => message m = WM_DESTROY /\ msg_hwnd m <> 0) msgs ->
  exists rest w' d',
    win32_process_events (Some a) msgs w = Done ((1, rest), w') /\
    heap w' !! a = Some d' /\ shouldClose d' = 1.
Proof. apply poll_after_quit_request. Qed.

Lemma poll_reports_window_destruction_witness :
  exists rest w' d',
    win32_process_events (Some 1%positive)
      [mkMSG 7 WM_DESTROY 0 0; mkMSG 7 WM_KEYDOWN 65 0] fresh_session
      = Done ((1, rest), w') /\
    heap w' !! 1%positive = Some d' /\ shouldClose d' = 1.
Proof.
  apply (poll_reports_window_destruction 1%positive
           [mkMSG 7 WM_DESTROY 0 0; mkMSG 7 WM_KEYDOWN 65 0]
           fresh_session calloc_Win32Display).
  - apply world_ok_single. exact calloc_queue_wf.
  - reflexivity.
  - right. apply Exists_cons_hd. split; [reflexivity|simpl; lia].
Defined.

(** ** The button mask *)

Lemma window_proc_buttons h msg wp lp a d w :
  g_display w = Some a -> heap w !! a = Some d -> queue_wf d ->
  exists d' w',
    win32_window_proc h msg wp lp w = Done (0, w') /\
    heap w' = <[a := d']> (heap w) /\
    g_display w' = Some a /\
    queue_wf d' /\
    mouseButtons d' = buttons_after msg (mouseButtons d).
Proof.
  intros Hg Hd Hwf.
  destruct (window_proc_live h msg wp lp a d w Hg Hd Hwf)
    as (d' & w' & Hrun & Hheap & Hg' & Hwf' & _).
  exists d', w'. split; [done|]. split; [done|]. split; [done|].
  split; [done|].
  assert (heap w' !! a = Some d') as Hd'
    by (rewrite Hheap; apply lookup_insert_eq).
  revert Hrun.
  unfold win32_window_proc, buttons_after.
  unfold bind at 1. unfold read_g_display. rewrite Hg. cbv zeta.
  repeat case_bool_decide; try msg_clash; unfold when_nonnull.
  all: try (rewrite (update_push_ret_ok a d) by (done || exact Hwf);
            intros [= <-]; rewrite heap_poke in Hd';
            injection Hd' as <-; by rewrite mouseButtons_pushed).
  all: try (rewrite (push_ret_ok a d) by done;
            intros [= <-]; rewrite heap_poke in Hd';
            injection Hd' as <-; by rewrite mouseButtons_pushed).
  - intros [= <-]. simpl in Hd'. congruence.
  - unfold bind. rewrite (update_ok a d) by done.
    erewrite update_ok by apply heap_poke.
    erewrite push_ok by (apply heap_poke || exact Hwf).
    rewrite !poke_poke. intros [= <-]. rewrite heap_poke in Hd'.
    injection Hd' as <-. by rewrite mouseButtons_pushed.
  - unfold bind, BeginPaint, ret. rewrite (load_ok a d) by done.
    unfold BitBlt. intros Hrun.
    assert (heap w' = heap w) as Hsame.
    { destruct (bool_decide (memDC d <> 0)); [|by injection Hrun as <-].
      destruct (pixels d); [|by injection Hrun as <-].
      case_bool_decide; by injection Hrun as <-. }
    rewrite Hsame in Hd'. congruence.
  - intros [= <-]. congruence.
Qed.

Lemma testbit_buttons_after b msg mb :
  1 <= b <= 3 ->
  Z.testbit (buttons_after msg mb) (b - 1) =
  if bool_decide (msg = button_down_message b) then true
  else if bool_decide (msg = button_up_message b) then false
  else Z.testbit mb (b - 1).
Proof.
  intros Hb. assert (b = 1 \/ b = 2 \/ b = 3) as [-> | [-> | ->]] by lia.
  all: unfold buttons_after.
  all: repeat match goal with
       | |- context [button_down_message ?k] =>
           let v := eval vm_compute in (button_down_message k) in
           change (button_down_message k) with v
       | |- context [button_up_message ?k] =>
           let v := eval vm_compute in (button_up_message k) in
           change (button_up_message k) with v
       end.
  all: repeat case_bool_decide; try msg_clash; try reflexivity.
  all: rewrite ?Z.lor_spec, ?Z.land_spec, ?Z.lnot_spec by lia.
  all: destruct (Z.testbit mb _); reflexivity.
Qed.

Lemma button_held_cons b m notes held :
  button_held b (m :: notes) held =
  button_held b notes
    (if bool_decide (message m = button_down_message b) then true
     else if bool_decide (message m = button_up_message b) then false
     else held).
Proof. reflexivity. Qed.

Lemma translate_all_buttons a b notes : forall d w,
  g_display w = Some a -> heap w !! a = Some d -> queue_wf d ->
  1 <= b <= 3 ->
  exists d' w',
    translate_all notes w = Done (tt, w') /\
    heap w' !! a = Some d' /\
    Z.testbit (mouseButtons d') (b - 1)
    = button_held b notes (Z.testbit (mouseButtons d) (b - 1)).
Proof.
  induction notes as [|m notes IH]; intros d w Hg Hd Hwf Hb.
  - by exists d, w.
  - destruct (window_proc_buttons (msg_hwnd m) (message m) (wParam m)
                (lParam m) a d w Hg Hd Hwf)
      as (d1 & w1 & Hrun1 & Hheap1 & Hg1 & Hwf1 & Hmb1).
    assert (heap w1 !! a = Some d1) as Hd1
      by (rewrite Hheap1; apply lookup_insert_eq).
    destruct (IH d1 w1 Hg1 Hd1 Hwf1 Hb) as (d' & w' & Hrun & Hd' & Hbit).
    exists d', w'. split.
    { simpl. unfold bind. by rewrite Hrun1. }
    split; [done|].
    by rewrite Hbit, Hmb1, testbit_buttons_after, button_held_cons.
Qed.

(** X24. The button mask follows the buttons over any run of notifications:
    for each button [b] (1 left, 2 middle, 3 right), bit [b - 1] of
    [mouseButtons] after the run tells whether the last press or release of
    [b] in the run was a press, and is as before when the run has neither;
    this holds whether or not the events found room in the queue. *)
Theorem button_mask_follows_buttons a b notes w d :
  g_display w = Some a -> heap w !! a = Some d -> queue_wf d ->
  1 <= b <= 3 ->
  exists d' w',
    translate_all notes w = Done (tt, w') /\
    heap w' !! a = Some d' /\
    Z.testbit (mouseButtons d') (b - 1)
    = button_held b notes (Z.testbit (mouseButtons d) (b - 1)).
Proof. apply translate_all_buttons. Qed.

Lemma button_mask_follows_buttons_witness :
  exists d' w',
    translate_all
      [mkMSG 7 WM_RBUTTONDOWN 0 0; mkMSG 7 WM_LBUTTONDOWN 0 0;
       mkMSG 7 WM_MOUSEMOVE 0 5; mkMSG 7 WM_RBUTTONUP 0 0] fresh_session
      = Done (tt, w') /\
    heap w' !! 1%positive = Some d' /\
    Z.testbit (mouseButtons d') (3 - 1)
    = button_held 3
        [mkMSG 7 WM_RBUTTONDOWN 0 0; mkMSG 7 WM_LBUTTONDOWN 0 0;
         mkMSG 7 WM_MOUSEMOVE 0 5; mkMSG 7 WM_RBUTTONUP 0 0]
        (Z.testbit (mouseButtons calloc_Win32Display) (3 - 1)).
Proof.
  apply (button_mask_follows_buttons 1%positive 3
           [mkMSG 7 WM_RBUTTONDOWN 0 0; mkMSG 7 WM_LBUTTONDOWN 0 0;
            mkMSG 7 WM_MOUSEMOVE 0 5; mkMSG 7 WM_RBUTTONUP 0 0]
           fresh_session calloc_Win32Display).
  - reflexivity.
  - reflexivity.
  - apply calloc_queue_wf.
  - lia.
Defined.
